(** * mcp-navigator-go: the protocol client engine and its HTTP transports

    A shallow embedding of [pkg/client/client.go], of
    [pkg/transport/http_streaming.go] and of the SSE transport, together
    with the properties the specification states about them.

    Conventions of the embedding.
    - Go's [int64] is a [Z] inside [int64_min .. int64_max]; the wrap-around
      of an addition is written out with [wrap64].
    - Go's [string] is a sequence of bytes: [String.string].
    - Go's [error] is its message, a [string]; [fmt.Errorf("p: %w", err)]
      becomes the concatenation of the prefix and the wrapped message.
    - A Go function returning [(v, err)] returns a [result].
    - The logger is write-only and never influences control flow or the
      session state; log statements are left out. *)

From Stdlib Require Import ZArith List String Ascii Bool Lia.
From Stdlib Require Import Floats.SpecFloat.
Import ListNotations.

Local Open Scope string_scope.
Local Open Scope Z_scope.

Set Implicit Arguments.

(** ** Errors and results *)

Definition error := string.

Inductive result (A : Type) : Type :=
| Ok (a : A)
| Err (e : error).

Arguments Ok {A} a.
Arguments Err {A} e.

(** [fmt.Errorf(prefix ++ "%w", err)] *)
Definition wrapf (prefix : string) (e : error) : error := prefix ++ e.

(** ** 64-bit integers *)

Definition int64_min : Z := - 2 ^ 63.
Definition int64_max : Z := 2 ^ 63 - 1.
Definition uint64_max : Z := 2 ^ 64 - 1.

Definition in_int64 (z : Z) : bool := (int64_min <=? z) && (z <=? int64_max).

(** Two's complement wrap-around of a 64-bit signed result. *)
Definition wrap64 (z : Z) : Z := (z + 2 ^ 63) mod 2 ^ 64 - 2 ^ 63.

(** ** [strconv]: the decimal conversions used on request ids *)

Module Strconv.

(** The value of a decimal digit byte: ['0' <= c && c <= '9'] gives
    [c - '0']; every other byte is a syntax error in base 10. *)
Definition digit_of (c : ascii) : option Z :=
  let k := Z.of_nat (nat_of_ascii c) in
  if (48 <=? k) && (k <=? 57) then Some (k - 48) else None.

Definition digit_char (d : Z) : ascii := ascii_of_nat (Z.to_nat (48 + d)).

(** The loop of [strconv.ParseUint(s, 10, 64)]: [cutoff] is
    [maxUint64/10 + 1]; exceeding it, or exceeding [maxUint64] after the
    digit is added, is a range error. *)
Definition cutoff : Z := uint64_max / 10 + 1.

Fixpoint parse_uint_loop (s : string) (n : Z) : option Z :=
  match s with
  | EmptyString => Some n
  | String c rest =>
      match digit_of c with
      | None => None
      | Some d =>
          if cutoff <=? n then None
          else
            let n1 := n * 10 + d in
            if uint64_max <? n1 then None else parse_uint_loop rest n1
      end
  end.

Definition ParseUint (s : string) : option Z :=
  match s with
  | EmptyString => None
  | _ => parse_uint_loop s 0
  end.

(** [strconv.ParseInt(s, 10, 64)]: an optional sign, then [ParseUint];
    [None] stands for [err != nil] (syntax error or range error). *)
Definition ParseInt (s : string) : option Z :=
  match s with
  | EmptyString => None
  | String c rest =>
      let neg := Ascii.eqb c "-" in
      let body := if Ascii.eqb c "+" then rest else if neg then rest else s in
      match ParseUint body with
      | None => None
      | Some un =>
          let cut := 2 ^ 63 in
          if negb neg && (cut <=? un) then None
          else if neg && (cut <? un) then None
          else Some (if neg then - un else un)
      end
  end.

(** The digit loop of [strconv.FormatInt(n, 10)] ([formatBits]): digits are
    produced from the least significant one, in front of [acc]. Twenty
    digits are enough for every 64-bit magnitude. *)
Fixpoint format_digits (fuel : nat) (n : Z) (acc : string) : string :=
  match fuel with
  | O => acc
  | S fuel' =>
      let acc' := String (digit_char (n mod 10)) acc in
      if n <? 10 then acc' else format_digits fuel' (n / 10) acc'
  end.

Definition FormatInt (n : Z) : string :=
  if n <? 0 then String "-" (format_digits 20 (- n) "")
  else format_digits 20 n "".

(** A string that has the shape of a decimal integer: an optional sign
    followed by at least one digit, and nothing else. *)
Fixpoint all_digits (s : string) : bool :=
  match s with
  | EmptyString => true
  | String c rest =>
      match digit_of c with
      | Some _ => all_digits rest
      | None => false
      end
  end.

Definition nonempty (s : string) : bool :=
  match s with EmptyString => false | _ => true end.

Definition numeric (s : string) : bool :=
  match s with
  | EmptyString => false
  | String c rest =>
      if Ascii.eqb c "+" || Ascii.eqb c "-"
      then nonempty rest && all_digits rest
      else all_digits s
  end.

End Strconv.

(** ** [float64] to [int64] *)

Module Float64.

(** A [float64] is a [spec_float]. The integer part, towards zero, of a
    finite value; [None] on NaN and the infinities. *)
Definition trunc (f : spec_float) : option Z :=
  match f with
  | S754_zero _ => Some 0
  | S754_finite s m e =>
      let mag := if 0 <=? e then Zpos m * 2 ^ e else Zpos m / 2 ^ (- e) in
      Some (if s then - mag else mag)
  | S754_infinity _ => None
  | S754_nan => None
  end.

(** The float denotes exactly the integer [n]. *)
Definition denotes (f : spec_float) (n : Z) : Prop :=
  match f with
  | S754_zero _ => n = 0
  | S754_finite s m e =>
      let sg := if s then (-1) else 1 in
      if 0 <=? e then n = sg * (Zpos m * 2 ^ e)
      else Zpos m = Z.abs n * 2 ^ (- e) /\ n = sg * Z.abs n
  | S754_infinity _ => False
  | S754_nan => False
  end.

Section Conversion.
(** Go leaves the conversion [int64(f)] implementation-dependent when
    the value is not representable; that result is a parameter. *)
Variable unrepresentable : spec_float -> Z.

Definition to_int64 (f : spec_float) : Z :=
  match trunc f with
  | Some z => if in_int64 z then z else unrepresentable f
  | None => unrepresentable f
  end.
End Conversion.

End Float64.

(** ** Message ids *)

(** [Message.ID] is an [interface{}]: the dynamic types the client
    distinguishes, and one constructor for every other. *)
Inductive Id : Type :=
| IDNil
| IDInt64 (z : Z)
| IDFloat64 (f : spec_float)
| IDInt (z : Z)
| IDString (s : string)
| IDOther.

(** What [int64(f)] yields on the running platform when [f] is not
    representable. *)
Class Platform : Type := { unrepresentable : spec_float -> Z }.

Section Matching.
Context {platform : Platform}.

(** [Client.isMatchingID] *)
Definition isMatchingID (responseID : Id) (requestID : Z) : bool :=
  match responseID with
  | IDNil => false
  | IDInt64 id => id =? requestID
  | IDFloat64 id => Float64.to_int64 unrepresentable id =? requestID
  | IDInt id => id =? requestID
  | IDString id =>
      match Strconv.ParseInt id with
      | Some parsedID => parsedID =? requestID
      | None => false
      end
  | IDOther => false
  end.
End Matching.


(** ** Package [mcp]: messages and payloads *)

Record RPCError : Type := mkRPCError { Code : Z; ErrMessage : string }.

Record ServerInfo : Type := mkServerInfo { Name : string; Version : string }.

Record ClientInfo : Type :=
  mkClientInfo { ClientName : string; ClientVersion : string }.

(** The types of package [mcp] whose declarations the client only uses
    through their fields, and the JSON codec ([encoding/json]) it calls on
    them. [Value] is a decoded JSON value held in an [interface{}]. *)
Class Mcp : Type := {
  Value : Type;
  Arguments : Type;
  Tool : Type;
  Resource : Type;
  Prompt : Type;
  ServerCapabilities : Type;
  CallToolResponse : Type;
  GetPromptResponse : Type;
  ReadResourceResponse : Type;
  (** [mcp.Version], the protocol version the client announces *)
  ProtocolVersion : string;
}.

Section Messages.
Context {mcp : Mcp}.

(** The request structs the client puts in [Message.Params]. *)
Inductive Request : Type :=
| InitializeRequest (protocolVersion : string) (clientInfo : ClientInfo)
| ListToolsRequest (cursor : string)
| CallToolRequest (name : string) (arguments : Arguments)
| ListResourcesRequest
| ListPromptsRequest
| GetPromptRequest (name : string) (arguments : Arguments)
| ReadResourceRequest (uri : string).

(** A payload held in an [interface{}]: a request struct of the client, or
    a value decoded from the wire. *)
Inductive Payload : Type :=
| Struct (r : Request)
| Decoded (v : Value).

Record Message : Type := mkMessage {
  ID : Id;
  Method : string;
  Params : option Payload;
  Result : option Value;
  Error : option RPCError;
}.

(** Modelled from the spec: [mcp.NewRequest] and [mcp.NewNotification]
    (package [mcp] is not among the sources). A request carries the id it
    was issued with, as an [int64]; a notification has a method and no
    id. *)
Definition NewRequest (id : Z) (method : string) (params : option Payload)
  : Message :=
  {| ID := IDInt64 id; Method := method; Params := params;
     Result := None; Error := None |}.

Definition NewNotification (method : string) (params : option Payload)
  : Message :=
  {| ID := IDNil; Method := method; Params := params;
     Result := None; Error := None |}.

(** The response structs, with the fields the client reads. *)
Record InitializeResponse : Type := mkInitializeResponse {
  InitServerInfo : ServerInfo;
  InitCapabilities : ServerCapabilities;
}.

Record ListToolsResponse : Type := mkListToolsResponse {
  Tools : list Tool;
  NextCursor : string;
}.

Record ListResourcesResponse : Type :=
  mkListResourcesResponse { Resources : list Resource }.

Record ListPromptsResponse : Type :=
  mkListPromptsResponse { Prompts : list Prompt }.

(** [json.Marshal] followed by [json.Unmarshal] into each target struct,
    with the error of whichever fails. *)
Class Codec : Type := {
  decodeInitialize : Value -> result InitializeResponse;
  decodeListTools : Value -> result ListToolsResponse;
  decodeCallTool : Value -> result CallToolResponse;
  decodeListResources : Value -> result ListResourcesResponse;
  decodeListPrompts : Value -> result ListPromptsResponse;
  decodeGetPrompt : Value -> result GetPromptResponse;
  decodeReadResource : Value -> result ReadResourceResponse;
}.
End Messages.

(** ** The [Transport] interface *)

Module Transport.

(** What [Receive] does: it returns a message, or an error, or it never
    returns (a blocking read on a silent peer). *)
Inductive Received (M T : Type) : Type :=
| RecvMsg (m : M) (t : T)
| RecvErr (e : error) (t : T)
| RecvBlocks.

Arguments RecvMsg {M T} m t.
Arguments RecvErr {M T} e t.
Arguments RecvBlocks {M T}.

(** The interface, over the state [T] of an implementation; every method
    takes the state and returns the new one. *)
Class Interface {mcp : Mcp} (T : Type) : Type := {
  Connect : T -> T * option error;
  Send : Message -> T -> T * option error;
  Receive : T -> Received Message T;
  Close : T -> T * option error;
  IsConnected : T -> bool;
}.

#[global] Hint Mode Interface - ! : typeclass_instances.

End Transport.

(** ** The protocol client engine ([pkg/client/client.go]) *)

Module Client.

(** A [context.Context], seen through the only thing the engine does with
    it: polling [Done()]. It is the number of polls that still find the
    context open; a duration is measured in the same unit. *)
Definition Ctx : Type := nat.

(** [context.WithTimeout(ctx, d)] *)
Definition WithTimeout (ctx : Ctx) (d : nat) : Ctx := Nat.min ctx d.

Section Engine.
Context {mcp : Mcp} {codec : Codec} {platform : Platform}.
Context {T : Type} {tr : Transport.Interface T}.

(** The sentinel error of the package; its message is declared outside
    the sources. *)
Variable ErrNotConnected : error.

Record Client : Type := mkClient {
  transport : T;
  serverInfo : option ServerInfo;
  serverCapabilities : option ServerCapabilities;
  connected : bool;
  initialized : bool;
  requestID : Z;
  timeout : nat;
}.

(** What a call does: it returns a value and leaves the client in a new
    state, or it never returns. *)
Inductive Outcome (A : Type) : Type :=
| Returns (r : A) (c : Client)
| Hangs.

Arguments Returns {A} r c.
Arguments Hangs {A}.

Definition withTransport (t : T) (c : Client) : Client :=
  {| transport := t; serverInfo := serverInfo c;
     serverCapabilities := serverCapabilities c;
     connected := connected c; initialized := initialized c;
     requestID := requestID c; timeout := timeout c |}.

(** [c.connected = false; c.initialized = false] *)
Definition markDisconnected (c : Client) : Client :=
  {| transport := transport c; serverInfo := serverInfo c;
     serverCapabilities := serverCapabilities c;
     connected := false; initialized := false;
     requestID := requestID c; timeout := timeout c |}.

Definition Connect (c : Client) : result unit * Client :=
  if connected c then (Ok tt, c)
  else
    match Transport.Connect (transport c) with
    | (t', Some err) =>
        (Err (wrapf "failed to connect: " err), withTransport t' c)
    | (t', None) =>
        (Ok tt,
         {| transport := t'; serverInfo := serverInfo c;
            serverCapabilities := serverCapabilities c;
            connected := true; initialized := initialized c;
            requestID := requestID c; timeout := timeout c |})
    end.

Definition Disconnect (c : Client) : option error * Client :=
  if negb (connected c) then (None, c)
  else
    let (t', err) := Transport.Close (transport c) in
    (err,
     {| transport := t'; serverInfo := None; serverCapabilities := None;
        connected := false; initialized := false;
        requestID := requestID c; timeout := timeout c |}).

Definition IsConnected (c : Client) : bool := connected c.
Definition IsInitialized (c : Client) : bool := initialized c.
Definition GetServerInfo (c : Client) : option ServerInfo := serverInfo c.
Definition GetServerCapabilities (c : Client)
  : option ServerCapabilities := serverCapabilities c.

(** [Client.handleMessage]: a notification is logged, anything else is
    dropped; the client is left as it was. *)
Definition handleMessage (message : Message) (c : Client) : Client := c.

(** One turn of the [default] branch in the loop of [sendRequest]: a
    [Receive], then the comparison of the ids. *)
Inductive Turn : Type :=
| Matched (response : Message) (c : Client)
| Skipped (c : Client)
| Failed (e : error) (c : Client)
| Blocked.

Definition receiveTurn (id : Z) (c : Client) : Turn :=
  match Transport.Receive (transport c) with
  | Transport.RecvBlocks => Blocked
  | Transport.RecvErr err t' =>
      Failed (wrapf "failed to receive response: " err)
             (markDisconnected (withTransport t' c))
  | Transport.RecvMsg response t' =>
      let c' := withTransport t' c in
      if isMatchingID (ID response) id then Matched response c'
      else Skipped (handleMessage response c')
  end.

(** The loop [for { select { case <-responseCtx.Done(): ...; default:
    ... } }]: each iteration polls the context first. *)
Fixpoint awaitResponse (responseCtx : Ctx) (id : Z) (c : Client)
  : Outcome (result Message) :=
  match responseCtx with
  | O => Returns (Err "request timeout") c
  | S ctx' =>
      match receiveTurn id c with
      | Blocked => Hangs
      | Failed e c' => Returns (Err e) c'
      | Matched response c' => Returns (Ok response) c'
      | Skipped c' => awaitResponse ctx' id c'
      end
  end.

(** [Client.sendRequest], up to the loop: the id is taken, the transport
    is asked whether it is connected, the request is sent. The result is
    the id to wait for, or the error to return. *)
Definition issueRequest (method : string) (params : option Payload)
  (c : Client) : (Z + error) * Client :=
  let id := wrap64 (requestID c + 1) in
  let c :=
    {| transport := transport c; serverInfo := serverInfo c;
       serverCapabilities := serverCapabilities c;
       connected := connected c; initialized := initialized c;
       requestID := id; timeout := timeout c |} in
  let request := NewRequest id method params in
  if negb (Transport.IsConnected (transport c))
  then (inr "transport disconnected", c)
  else
    match Transport.Send request (transport c) with
    | (t', Some err) =>
        (inr (wrapf "failed to send request: " err),
         markDisconnected (withTransport t' c))
    | (t', None) => (inl id, withTransport t' c)
    end.

(** [Client.sendRequest] *)
Definition sendRequest (ctx : Ctx) (method : string)
  (params : option Payload) (c : Client) : Outcome (result Message) :=
  match issueRequest method params c with
  | (inr err, c') => Returns (Err err) c'
  | (inl id, c') => awaitResponse (WithTimeout ctx (timeout c')) id c'
  end.

(** [Client.parseResult] *)
Definition parseResult {A : Type} (decode : Value -> result A)
  (res : option Value) : result A :=
  match res with
  | None => Err "result is nil"
  | Some v => decode v
  end.

(** [Client.CheckConnection] *)
Definition CheckConnection (c : Client) : option error * Client :=
  if negb (Transport.IsConnected (transport c))
  then (Some "transport disconnected", markDisconnected c)
  else (None, c).

(** [Client.Initialize] *)
Definition Initialize (ctx : Ctx) (clientInfo : ClientInfo) (c : Client)
  : Outcome (result unit) :=
  if negb (IsConnected c) then Returns (Err ErrNotConnected) c
  else
    let request := InitializeRequest ProtocolVersion clientInfo in
    match sendRequest ctx "initialize" (Some (Struct request)) c with
    | Hangs => Hangs
    | Returns (Err err) c1 =>
        Returns (Err (wrapf "initialize request failed: " err)) c1
    | Returns (Ok response) c1 =>
        match Error response with
        | Some rpc =>
            Returns (Err (wrapf "initialize error: " (ErrMessage rpc))) c1
        | None =>
            match parseResult decodeInitialize (Result response) with
            | Err err =>
                Returns
                  (Err (wrapf "failed to parse initialize response: " err))
                  c1
            | Ok initResponse =>
                let c2 :=
                  {| transport := transport c1;
                     serverInfo := Some (InitServerInfo initResponse);
                     serverCapabilities :=
                       Some (InitCapabilities initResponse);
                     connected := connected c1; initialized := true;
                     requestID := requestID c1; timeout := timeout c1 |} in
                let notification :=
                  NewNotification "notifications/initialized" None in
                match Transport.Send notification (transport c2) with
                | (t', Some err) =>
                    Returns
                      (Err (wrapf
                              "failed to send initialized notification: "
                              err))
                      (withTransport t' c2)
                | (t', None) => Returns (Ok tt) (withTransport t' c2)
                end
            end
        end
    end.

(** The tail the six operations below share word for word: send the
    request, wrap a failure, turn an error object of the peer into an
    error, decode the result. The three prefixes are those of the
    operation. *)
Definition exchange {A B : Type} (ctx : Ctx) (method : string)
  (params : option Payload) (requestFailed peerError parseFailed : string)
  (decode : Value -> result A) (project : A -> B) (c : Client)
  : Outcome (result B) :=
  match sendRequest ctx method params c with
  | Hangs => Hangs
  | Returns (Err err) c1 => Returns (Err (wrapf requestFailed err)) c1
  | Returns (Ok response) c1 =>
      match Error response with
      | Some rpc => Returns (Err (wrapf peerError (ErrMessage rpc))) c1
      | None =>
          match parseResult decode (Result response) with
          | Err err => Returns (Err (wrapf parseFailed err)) c1
          | Ok v => Returns (Ok (project v)) c1
          end
      end
  end.

(** [Client.ListToolsWithCursor] *)
Definition ListToolsWithCursor (ctx : Ctx) (cursor : string) (c : Client)
  : Outcome (result (list Tool)) :=
  if negb (IsInitialized c) then Returns (Err "client not initialized") c
  else
    let request := ListToolsRequest cursor in
    exchange ctx "tools/list" (Some (Struct request))
      "list tools request failed: " "list tools error: "
      "failed to parse list tools response: "
      decodeListTools Tools c.

(** [Client.ListTools] *)
Definition ListTools (ctx : Ctx) (c : Client)
  : Outcome (result (list Tool)) :=
  ListToolsWithCursor ctx "" c.

(** [Client.CallTool] *)
Definition CallTool (ctx : Ctx) (name : string) (arguments : Arguments)
  (c : Client) : Outcome (result CallToolResponse) :=
  if negb (IsInitialized c) then Returns (Err "client not initialized") c
  else
    match CheckConnection c with
    | (Some err, c0) =>
        Returns (Err (wrapf "connection check failed: " err)) c0
    | (None, c0) =>
        let request := CallToolRequest name arguments in
        exchange ctx "tools/call" (Some (Struct request))
          "call tool request failed: " "call tool error: "
          "failed to parse call tool response: "
          decodeCallTool (fun r => r) c0
    end.

(** [Client.ListResources] *)
Definition ListResources (ctx : Ctx) (c : Client)
  : Outcome (result (list Resource)) :=
  if negb (IsInitialized c) then Returns (Err "client not initialized") c
  else
    exchange ctx "resources/list" (Some (Struct ListResourcesRequest))
      "list resources request failed: " "list resources error: "
      "failed to parse list resources response: "
      decodeListResources Resources c.

(** [Client.ListPrompts] *)
Definition ListPrompts (ctx : Ctx) (c : Client)
  : Outcome (result (list Prompt)) :=
  if negb (IsInitialized c) then Returns (Err "client not initialized") c
  else
    exchange ctx "prompts/list" (Some (Struct ListPromptsRequest))
      "list prompts request failed: " "list prompts error: "
      "failed to parse list prompts response: "
      decodeListPrompts Prompts c.

(** [Client.GetPrompt] *)
Definition GetPrompt (ctx : Ctx) (name : string) (arguments : Arguments)
  (c : Client) : Outcome (result GetPromptResponse) :=
  if negb (IsInitialized c) then Returns (Err "client not initialized") c
  else
    let request := GetPromptRequest name arguments in
    exchange ctx "prompts/get" (Some (Struct request))
      "get prompt request failed: " "get prompt error: "
      "failed to parse get prompt response: "
      decodeGetPrompt (fun r => r) c.

(** [Client.ReadResource] *)
Definition ReadResource (ctx : Ctx) (uri : string) (c : Client)
  : Outcome (result ReadResourceResponse) :=
  if negb (IsInitialized c) then Returns (Err "client not initialized") c
  else
    let request := ReadResourceRequest uri in
    exchange ctx "resources/read" (Some (Struct request))
      "read resource request failed: " "read resource error: "
      "failed to parse read resource response: "
      decodeReadResource (fun r => r) c.

(** [ClientConfig]; the logger and the debug flag only steer logging. *)
Record ClientConfig : Type := mkClientConfig {
  ConfigName : string;
  ConfigVersion : string;
  Timeout : nat;
}.

(** [time.Second], in the unit of [Ctx]. *)
Variable Second : nat.

(** [NewClient] *)
Definition NewClient (transport : T) (config : ClientConfig) : Client :=
  let timeout :=
    if (Timeout config =? 0)%nat then (30 * Second)%nat else Timeout config in
  {| transport := transport; serverInfo := None; serverCapabilities := None;
     connected := false; initialized := false; requestID := 0;
     timeout := timeout |}.

(** The session fields of two states of a client agree. *)
Definition sameSession (c c' : Client) : Prop :=
  connected c' = connected c /\ initialized c' = initialized c /\
  serverInfo c' = serverInfo c /\
  serverCapabilities c' = serverCapabilities c /\
  requestID c' = requestID c /\ timeout c' = timeout c.

(** *** Several goroutines on one client

    [sendRequest] takes no lock around its transport calls, so the
    calls of several goroutines interleave. A caller is a goroutine
    inside [sendRequest]; one step of a caller is one transport call
    with the code around it. *)
Inductive Caller : Type :=
| Calling (ctx : Ctx) (method : string) (params : option Payload)
| Waiting (responseCtx : Ctx) (id : Z)
| Finished (r : result Message).

Definition stepCaller (k : Caller) (c : Client) : Caller * Client :=
  match k with
  | Calling ctx method params =>
      match issueRequest method params c with
      | (inr err, c') => (Finished (Err err), c')
      | (inl id, c') => (Waiting (WithTimeout ctx (timeout c')) id, c')
      end
  | Waiting O id => (Finished (Err "request timeout"), c)
  | Waiting (S ctx') id =>
      match receiveTurn id c with
      | Blocked => (k, c)
      | Failed e c' => (Finished (Err e), c')
      | Matched response c' => (Finished (Ok response), c')
      | Skipped c' => (Waiting ctx' id, c')
      end
  | Finished _ => (k, c)
  end.

Record Pool : Type := mkPool { shared : Client; callers : list Caller }.

Fixpoint replace (i : nat) (k : Caller) (ks : list Caller) : list Caller :=
  match ks, i with
  | [], _ => []
  | _ :: rest, O => k :: rest
  | k0 :: rest, S i' => k0 :: replace i' k rest
  end.

(** The scheduler lets caller [i] take its next step. *)
Definition step (i : nat) (p : Pool) : Pool :=
  match nth_error (callers p) i with
  | None => p
  | Some k =>
      let (k', c') := stepCaller k (shared p) in
      {| shared := c'; callers := replace i k' (callers p) |}
  end.

Fixpoint run (schedule : list nat) (p : Pool) : Pool :=
  match schedule with
  | [] => p
  | i :: rest => run rest (step i p)
  end.

End Engine.

Arguments Returns {mcp T A} r c.
Arguments Finished {mcp} r.
Arguments Waiting {mcp} responseCtx id.
Arguments Hangs {mcp T A}.
Arguments Client {mcp} T.

End Client.

(** ** [net/http], [bufio] and [encoding/json] as the transports use them *)

Module HTTP.

Definition Header : Type := list (string * string).

(** [Header.Get]: the first value of the key, the empty string when the
    key is absent. Keys are in canonical form. *)
Fixpoint Get (h : Header) (key : string) : string :=
  match h with
  | [] => ""
  | (k, v) :: rest => if String.eqb k key then v else Get rest key
  end.

(** [Header.Set] on a key set at most once per request. *)
Definition Set_ (h : Header) (key value : string) : Header :=
  (h ++ [(key, value)])%list.

Record Request : Type := mkRequest {
  ReqMethod : string;
  URL : string;
  ReqHeader : Header;
  ReqBody : option string;
}.

(** A response body is an [io.ReadCloser] over the connection. [chunks]
    are the pieces in which its bytes arrive, in order; [failure] is the
    error that ends the body when it does not end at EOF. The [Timeout] of
    the [http.Client] covers the reading of the body, so that the body of
    a peer that falls silent ends with such an error: a body is a finite
    sequence of pieces. *)
Record Body : Type := mkBody { chunks : list string; failure : option error }.

(** All the bytes of the body. *)
Fixpoint join (pieces : list string) : string :=
  match pieces with
  | [] => EmptyString
  | piece :: rest => piece ++ join rest
  end.

Definition content (b : Body) : string := join (chunks b).

(** [io.EOF] *)
Definition EOF : error := "EOF".

(** The first [k] bytes of [s], and the others. *)
Fixpoint splitAt (k : nat) (s : string) : string * string :=
  match k, s with
  | S k, String c rest =>
      let (front, back) := splitAt k rest in (String c front, back)
  | _, _ => (EmptyString, s)
  end.

(** What a [Read] into [k] bytes takes from the pieces: what is left of
    the first piece that is not empty, as far as it fits. *)
Fixpoint take (k : nat) (pieces : list string) : string * list string :=
  match pieces with
  | [] => (EmptyString, [])
  | piece :: rest =>
      if (String.length piece =? 0)%nat then take k rest
      else if (String.length piece <=? k)%nat then (piece, rest)
      else let (front, back) := splitAt k piece in (front, back :: rest)
  end.

(** [Body.Read(p)] with [len(p) = k]: the bytes read, the error returned
    and the body afterwards. A [Read] waits for the next piece: it returns
    no bytes only at the end of the body, with [io.EOF] or the failure. *)
Definition Read (k : nat) (b : Body) : string * option error * Body :=
  let (data, rest) := take k (chunks b) in
  let b' := {| chunks := rest; failure := failure b |} in
  match rest, data with
  | [], EmptyString =>
      (data,
       Some match failure b with Some err => err | None => EOF end, b')
  | _, _ => (data, None, b')
  end.

Record Response : Type := mkResponse {
  StatusCode : Z;
  RespHeader : Header;
  RespBody : Body;
}.

(** The response with its body read as far as [b]. *)
Definition withBody (b : Body) (resp : Response) : Response :=
  {| StatusCode := StatusCode resp; RespHeader := RespHeader resp;
     RespBody := b |}.

(** [io.ReadAll] *)
Definition ReadAll (b : Body) : result string :=
  match failure b with
  | Some err => Err err
  | None => Ok (content b)
  end.

(** [dropCR] of [bufio]: one trailing carriage return is removed. *)
Fixpoint dropCR (s : string) : string :=
  match s with
  | EmptyString => EmptyString
  | String c EmptyString =>
      if Ascii.eqb c (ascii_of_nat 13) then EmptyString else s
  | String c rest => String c (dropCR rest)
  end.

(** The lines of a text as [bufio.ScanLines] divides it, whatever their
    length. [cur] is the line being read. *)
Fixpoint scanLines (cur : string) (s : string) : list string :=
  match s with
  | EmptyString =>
      match cur with
      | EmptyString => []
      | _ => [dropCR cur]
      end
  | String c rest =>
      if Ascii.eqb c (ascii_of_nat 10)
      then dropCR cur :: scanLines EmptyString rest
      else scanLines (cur ++ String c EmptyString) rest
  end.

(** The lines of all the bytes of the body. A [bufio.Scanner] over the
    body hands out the first of them, up to a line that does not fit its
    buffer (module [Bufio], lemma [Scan_spec]). *)
Definition Lines (b : Body) : list string := scanLines EmptyString (content b).

(** An [*http.Client] with the network behind it: [Do] performs one
    exchange and leaves the network in a new state. [checkURL] is the
    parsing of the URL by [http.NewRequest]. *)
Class Client (N : Type) : Type := {
  Do : Request -> N -> N * result Response;
  checkURL : string -> option error;
}.

#[global] Hint Mode Client ! : typeclass_instances.

(** [http.NewRequest] *)
Definition NewRequest {N : Type} {cl : Client N} (method url : string)
  (body : option string) : result Request :=
  match checkURL (N := N) url with
  | Some err => Err err
  | None =>
      Ok {| ReqMethod := method; URL := url; ReqHeader := [];
            ReqBody := body |}
  end.

Definition SetHeader (key value : string) (r : Request) : Request :=
  {| ReqMethod := ReqMethod r; URL := URL r;
     ReqHeader := Set_ (ReqHeader r) key value; ReqBody := ReqBody r |}.

End HTTP.

(** ** [bufio.Scanner] with the split function [bufio.ScanLines]

    The scanner of Go's standard library, as both loops of the SSE
    transport use it: made by [bufio.NewScanner] on a response body, with
    the split function and the buffer sizes it has by default. It reads
    the body in pieces into a buffer of its own, so that it holds bytes
    of the body beyond the line it hands out. *)

Module Bufio.

Definition startBufSize : nat := 4096.
Definition MaxScanTokenSize : nat := 64 * 1024.

Arguments MaxScanTokenSize : simpl never.
Arguments startBufSize : simpl never.

Definition ErrTooLong : error := "bufio.Scanner: token too long".

(** [r] is the reader, [size] is [len(s.buf)], [held] the bytes
    [s.buf[s.start:s.end]] read from [r] and not yet handed out, and [err]
    the sticky error. *)
Record Scanner : Type := mkScanner {
  r : HTTP.Body;
  size : nat;
  start : nat;
  held : string;
  err : option error;
}.

(** [s.end] *)
Definition end_ (s : Scanner) : nat := (start s + String.length (held s))%nat.

(** [bufio.NewScanner] *)
Definition NewScanner (r : HTTP.Body) : Scanner :=
  {| r := r; size := 0; start := 0; held := EmptyString; err := None |}.

(** [bytes.IndexByte(data, '\n')], as the bytes before the first newline
    and those after it. *)
Fixpoint cutLine (data : string) : option (string * string) :=
  match data with
  | EmptyString => None
  | String c rest =>
      if Ascii.eqb c (ascii_of_nat 10) then Some (EmptyString, rest)
      else
        match cutLine rest with
        | Some (line, after) => Some (String c line, after)
        | None => None
        end
  end.

(** [bufio.ScanLines]: the advance and the token, if there is one. *)
Definition ScanLines (data : string) (atEOF : bool) : nat * option string :=
  if atEOF && (String.length data =? 0)%nat then (0%nat, None)
  else
    match cutLine data with
    | Some (line, _) => (S (String.length line), Some (HTTP.dropCR line))
    | None =>
        if atEOF then (String.length data, Some (HTTP.dropCR data))
        else (0%nat, None)
    end.

(** [data[n:]] *)
Fixpoint drop (n : nat) (data : string) : string :=
  match n, data with
  | S n, String _ rest => drop n rest
  | _, _ => data
  end.

(** [s.advance(n)], for an [n] within the bytes held, as [ScanLines]
    returns it: the errors for other values of [n] are left out. *)
Definition advance (n : nat) (s : Scanner) : Scanner :=
  {| r := r s; size := size s; start := (start s + n)%nat;
     held := drop n (held s); err := err s |}.

(** [s.setErr] *)
Definition setErr (e : error) (s : Scanner) : Scanner :=
  {| r := r s; size := size s; start := start s; held := held s;
     err := match err s with
            | None => Some e
            | Some old => if String.eqb old HTTP.EOF then Some e else Some old
            end |}.

(** The data are moved to the beginning of the buffer. *)
Definition shift (s : Scanner) : Scanner :=
  {| r := r s; size := size s; start := 0; held := held s; err := err s |}.

(** The buffer is replaced by one of twice the size, [startBufSize] at
    first and [MaxScanTokenSize] at most. *)
Definition grow (s : Scanner) : Scanner :=
  let newSize := (size s * 2)%nat in
  let newSize := if (newSize =? 0)%nat then startBufSize else newSize in
  {| r := r s; size := Nat.min newSize MaxScanTokenSize; start := 0;
     held := held s; err := err s |}.

(** One [Read] into the free end of the buffer. A body returns bytes or
    an error, so that the loop which guards against a reader that does
    neither ends after this one [Read]. *)
Definition fill (s : Scanner) : Scanner :=
  let '(data, e, b) := HTTP.Read (size s - end_ s) (r s) in
  let s := {| r := b; size := size s; start := start s;
              held := held s ++ data; err := err s |} in
  match e with
  | Some e => setErr e s
  | None => s
  end.

Definition stopped (s : Scanner) : bool :=
  match err s with Some _ => true | None => false end.

(** The first step of a round of [Scan]: a token is split off the
    bytes held, if they hold one. *)
Definition split (s : Scanner) : Scanner * option string :=
  if negb (String.length (held s) =? 0)%nat || stopped s
  then let (n, token) := ScanLines (held s) (stopped s) in
       (advance n s, token)
  else (s, None).

(** Room is made for more data: the data are moved to the beginning of
    the buffer when space is needed or much of it is unused, and a buffer
    that is full is replaced by a larger one. The result is [false] with
    a full buffer of the largest size. *)
Definition makeRoom (s : Scanner) : Scanner * bool :=
  let s :=
    if (0 <? start s)%nat
       && ((end_ s =? size s)%nat || (size s / 2 <? start s)%nat)
    then shift s else s in
  if (end_ s =? size s)%nat
  then
    if (MaxScanTokenSize <=? size s)%nat then (s, false) else (grow s, true)
  else (s, true).

(** The loop of [Scanner.Scan], run for [rounds] rounds at most. The
    result is the scanner and the token, if [Scan] returns true.
    [ScanLines] returns no error, and no token without an advance: the
    branches of [Scan] for these are left out. *)
Fixpoint scan (rounds : nat) (s : Scanner) : option (Scanner * option string) :=
  match rounds with
  | O => None
  | S rounds =>
      let (s, token) := split s in
      match token with
      | Some token => Some (s, Some token)
      | None =>
          if stopped s
          then Some ({| r := r s; size := size s; start := 0;
                        held := EmptyString; err := err s |}, None)
          else
            let (s, room) := makeRoom s in
            if room then scan rounds (fill s)
            else Some (setErr ErrTooLong s, None)
      end
  end.

(** The bytes not read yet bound the rounds of the loop (lemma
    [scan_returns]). *)
Definition Scan (s : Scanner) : Scanner * option string :=
  match scan (S (S (String.length (HTTP.content (r s))))) s with
  | Some result => result
  | None => (s, None)
  end.

(** The bytes the scanner has not handed out: those it holds and those
    still to be read. *)
Definition text (s : Scanner) : string := held s ++ HTTP.content (r s).

(** The loop [for s.Scan() { line := s.Text(); ... }] whose body returns
    at the first line on which [body] has a result, run for [rounds]
    rounds at most. *)
Fixpoint seek {A : Type} (body : string -> option A) (rounds : nat)
  (s : Scanner) : option (Scanner * option A) :=
  match rounds with
  | O => None
  | S rounds =>
      match Scan s with
      | (s, Some line) =>
          match body line with
          | Some a => Some (s, Some a)
          | None => seek body rounds s
          end
      | (s, None) => Some (s, None)
      end
  end.

(** Every round takes a line off the bytes not handed out, which bound
    the rounds (lemma [seek_returns]). *)
Definition Seek {A : Type} (body : string -> option A) (s : Scanner)
  : Scanner * option A :=
  match seek body (S (String.length (text s))) s with
  | Some result => result
  | None => (s, None)
  end.

(** A scanner as [Scan] leaves it when it returns true: the data are
    within the buffer, and an error was met only at the end of the body. *)
Definition wf (s : Scanner) : Prop :=
  (end_ s <= size s)%nat /\
  (err s <> None -> HTTP.chunks (r s) = []).

(** The rounds the loop of [Scan] can still make. *)
Definition roundsLeft (s : Scanner) : nat :=
  (String.length (HTTP.content (r s)) + (if stopped s then 0 else 1))%nat.

Definition newline : string := String (ascii_of_nat 10) EmptyString.

(** The lines [pre], each with its newline. *)
Fixpoint unlines (pre : list string) : string :=
  match pre with
  | [] => EmptyString
  | line :: rest => line ++ newline ++ unlines rest
  end.

End Bufio.

(** [json.Marshal] and [json.Unmarshal] on messages, and
    [strings.TrimSpace]. *)
Class Wire {mcp : Mcp} : Type := {
  Marshal : Message -> result string;
  Unmarshal : string -> result Message;
  TrimSpace : string -> string;
}.

(** [line[6:]] *)
Definition from6 (line : string) : string :=
  String.substring 6 (String.length line - 6) line.

(** [strings.HasPrefix(line, "data: ")] *)
Definition hasDataPrefix (line : string) : bool := String.prefix "data: " line.

(** ** The streaming HTTP transport ([pkg/transport/http_streaming.go]) *)

Module StreamingHTTPTransport.
Section Impl.
Context {mcp : Mcp} {wire : Wire}.
Context {N : Type} {http : HTTP.Client N}.

Record t : Type := mk {
  baseURL : string;
  endpoint : string;
  client : N;
  sessionID : string;
  connected : bool;
  initialized : bool;
  lastResponse : option Message;
}.

Definition withClient (n : N) (h : t) : t :=
  {| baseURL := baseURL h; endpoint := endpoint h; client := n;
     sessionID := sessionID h; connected := connected h;
     initialized := initialized h; lastResponse := lastResponse h |}.

Definition withSessionID (s : string) (h : t) : t :=
  {| baseURL := baseURL h; endpoint := endpoint h; client := client h;
     sessionID := s; connected := connected h;
     initialized := initialized h; lastResponse := lastResponse h |}.

Definition withLastResponse (r : option Message) (h : t) : t :=
  {| baseURL := baseURL h; endpoint := endpoint h; client := client h;
     sessionID := sessionID h; connected := connected h;
     initialized := initialized h; lastResponse := r |}.

(** [NewStreamingHTTPTransport] *)
Definition New (base ep : string) (n : N) : t :=
  {| baseURL := base; endpoint := ep; client := n; sessionID := "";
     connected := false; initialized := false; lastResponse := None |}.

Definition Connect (h : t) : t * option error :=
  if connected h then (h, None)
  else
    ({| baseURL := baseURL h; endpoint := endpoint h; client := client h;
        sessionID := sessionID h; connected := true;
        initialized := initialized h; lastResponse := lastResponse h |},
     None).

Definition Close (h : t) : t * option error :=
  ({| baseURL := baseURL h; endpoint := endpoint h; client := client h;
      sessionID := ""; connected := false; initialized := false;
      lastResponse := lastResponse h |}, None).

(** The request [Send] builds for [data]. *)
Definition buildRequest (h : t) (data : string) : result HTTP.Request :=
  let url := baseURL h ++ endpoint h in
  match HTTP.NewRequest (N := N) "POST" url (Some data) with
  | Err err => Err err
  | Ok req =>
      let req := HTTP.SetHeader "Accept" "application/json" req in
      let req := HTTP.SetHeader "Content-Type" "application/json" req in
      Ok (if String.eqb (sessionID h) "" then req
          else HTTP.SetHeader "Mcp-Session-Id" (sessionID h) req)
  end.

(** [StreamingHTTPTransport.Send] *)
Definition Send (message : Message) (h : t) : t * option error :=
  if negb (connected h) then (h, Some "transport not connected")
  else
    match Marshal message with
    | Err err => (h, Some (wrapf "failed to marshal message: " err))
    | Ok data =>
        match buildRequest h data with
        | Err err => (h, Some (wrapf "failed to create request: " err))
        | Ok req =>
            match HTTP.Do req (client h) with
            | (n', Err err) =>
                (withClient n' h,
                 Some (wrapf "failed to send request: " err))
            | (n', Ok resp) =>
                let h := withClient n' h in
                let sid := HTTP.Get (HTTP.RespHeader resp) "Mcp-Session-Id" in
                let h := if String.eqb sid "" then h
                         else withSessionID sid h in
                match HTTP.ReadAll (HTTP.RespBody resp) with
                | Err err =>
                    (h, Some (wrapf "failed to read response: " err))
                | Ok body =>
                    if (String.length body =? 0)%nat then (h, None)
                    else
                      match Unmarshal body with
                      | Err err =>
                          (h, Some (wrapf "failed to unmarshal response: "
                                          err))
                      | Ok response =>
                          (withLastResponse (Some response) h, None)
                      end
                end
            end
        end
    end.

(** [StreamingHTTPTransport.Receive] *)
Definition Receive (h : t) : Transport.Received Message t :=
  if negb (connected h)
  then Transport.RecvErr "transport not connected" h
  else
    match lastResponse h with
    | Some response =>
        Transport.RecvMsg response (withLastResponse None h)
    | None => Transport.RecvErr "no response available" h
    end.

Definition IsConnected (h : t) : bool := connected h.

#[global] Instance transport : Transport.Interface t := {|
  Transport.Connect := Connect;
  Transport.Send := Send;
  Transport.Receive := Receive;
  Transport.Close := Close;
  Transport.IsConnected := IsConnected;
|}.

(** A request is a JSON POST to the endpoint of the transport. *)
Definition fixedPost (h : t) (req : HTTP.Request) : Prop :=
  HTTP.ReqMethod req = "POST" /\ HTTP.URL req = baseURL h ++ endpoint h /\
  HTTP.Get (HTTP.ReqHeader req) "Accept" = "application/json" /\
  HTTP.Get (HTTP.ReqHeader req) "Content-Type" = "application/json".

(** Successive calls of [Send], whatever each returns. *)
Fixpoint sendAll (messages : list Message) (h : t) : t :=
  match messages with
  | [] => h
  | m :: rest => sendAll rest (fst (Send m h))
  end.
End Impl.

Arguments t {mcp} N.
End StreamingHTTPTransport.

(** ** The SSE transport *)

Module SSETransport.
Section Impl.
Context {mcp : Mcp} {wire : Wire}.
Context {N : Type} {http : HTTP.Client N}.

(** [sseConnection] is the response of the event stream; its body is in
    the state in which the reads made so far have left it. *)
Record t : Type := mk {
  baseURL : string;
  endpoint : string;
  client : N;
  sessionID : string;
  sessionURL : string;
  connected : bool;
  initialized : bool;
  lastResponse : option Message;
  sseConnection : option HTTP.Response;
}.

Definition withClient (n : N) (h : t) : t :=
  {| baseURL := baseURL h; endpoint := endpoint h; client := n;
     sessionID := sessionID h; sessionURL := sessionURL h;
     connected := connected h; initialized := initialized h;
     lastResponse := lastResponse h; sseConnection := sseConnection h |}.

Definition withLastResponse (r : option Message) (h : t) : t :=
  {| baseURL := baseURL h; endpoint := endpoint h; client := client h;
     sessionID := sessionID h; sessionURL := sessionURL h;
     connected := connected h; initialized := initialized h;
     lastResponse := r; sseConnection := sseConnection h |}.

Definition withStream (s : option HTTP.Response) (h : t) : t :=
  {| baseURL := baseURL h; endpoint := endpoint h; client := client h;
     sessionID := sessionID h; sessionURL := sessionURL h;
     connected := connected h; initialized := initialized h;
     lastResponse := lastResponse h; sseConnection := s |}.

(** [NewSSETransport] *)
Definition New (base ep : string) (n : N) : t :=
  {| baseURL := base; endpoint := ep; client := n; sessionID := "";
     sessionURL := ""; connected := false; initialized := false;
     lastResponse := None; sseConnection := None |}.

Definition Connect (h : t) : t * option error :=
  if connected h then (h, None)
  else
    ({| baseURL := baseURL h; endpoint := endpoint h; client := client h;
        sessionID := sessionID h; sessionURL := sessionURL h;
        connected := true; initialized := initialized h;
        lastResponse := lastResponse h;
        sseConnection := sseConnection h |}, None).

Definition Close (h : t) : t * option error :=
  ({| baseURL := baseURL h; endpoint := endpoint h; client := client h;
      sessionID := ""; sessionURL := ""; connected := false;
      initialized := false; lastResponse := lastResponse h;
      sseConnection := None |}, None).

(** [SSETransport.sendMessageToSession] *)
Definition sendMessageToSession (message : Message) (h : t)
  : t * option error :=
  match Marshal message with
  | Err err => (h, Some (wrapf "failed to marshal message: " err))
  | Ok data =>
      match HTTP.NewRequest (N := N) "POST" (sessionURL h) (Some data) with
      | Err err => (h, Some (wrapf "failed to create request: " err))
      | Ok req =>
          let req := HTTP.SetHeader "Accept" "application/json" req in
          let req := HTTP.SetHeader "Content-Type" "application/json" req in
          match HTTP.Do req (client h) with
          | (n', Err err) =>
              (withClient n' h, Some (wrapf "failed to send message: " err))
          | (n', Ok resp) =>
              let h := withClient n' h in
              match HTTP.ReadAll (HTTP.RespBody resp) with
              | Err err =>
                  (h, Some (wrapf "failed to read response: " err))
              | Ok body =>
                  if (String.length body =? 0)%nat
                  then
                    ({| baseURL := baseURL h; endpoint := endpoint h;
                        client := client h; sessionID := sessionID h;
                        sessionURL := sessionURL h;
                        connected := connected h; initialized := true;
                        lastResponse := None;
                        sseConnection := sseConnection h |}, None)
                  else
                    match Unmarshal body with
                    | Err err =>
                        (h, Some (wrapf "failed to unmarshal response: "
                                        err))
                    | Ok response =>
                        ({| baseURL := baseURL h; endpoint := endpoint h;
                            client := client h; sessionID := sessionID h;
                            sessionURL := sessionURL h;
                            connected := connected h; initialized := true;
                            lastResponse := Some response;
                            sseConnection := sseConnection h |}, None)
                    end
              end
          end
      end
  end.

(** The body of the loop of [sendInitializeRequest] over the lines of the
    stream: at a line that starts with ["data: "] it has the session
    endpoint. *)
Definition endpointLine (line : string) : option string :=
  if hasDataPrefix line then Some (TrimSpace (from6 line)) else None.

(** [SSETransport.sendInitializeRequest] *)
Definition sendInitializeRequest (message : Message) (h : t)
  : t * option error :=
  let sseURL := baseURL h ++ endpoint h in
  match HTTP.NewRequest (N := N) "GET" sseURL None with
  | Err err => (h, Some (wrapf "failed to create SSE request: " err))
  | Ok req =>
      let req := HTTP.SetHeader "Accept" "text/event-stream" req in
      match HTTP.Do req (client h) with
      | (n', Err err) =>
          (withClient n' h,
           Some (wrapf "failed to establish SSE connection: " err))
      | (n', Ok resp) =>
          let h := withClient n' h in
          let scanner := Bufio.NewScanner (HTTP.RespBody resp) in
          match Bufio.Seek endpointLine scanner with
          | (scanner, Some sessionEndpoint) =>
              let h :=
                {| baseURL := baseURL h; endpoint := endpoint h;
                   client := client h; sessionID := sessionID h;
                   sessionURL := baseURL h ++ sessionEndpoint;
                   connected := connected h;
                   initialized := initialized h;
                   lastResponse := lastResponse h;
                   sseConnection :=
                     Some (HTTP.withBody (Bufio.r scanner) resp) |} in
              sendMessageToSession message h
          | (_, None) =>
              (h, Some "failed to get session endpoint from SSE")
          end
      end
  end.

(** [SSETransport.sendNotification] *)
Definition sendNotification (message : Message) (h : t)
  : t * option error :=
  if String.eqb (sessionURL h) "" then (h, Some "session not established")
  else
    match Marshal message with
    | Err err => (h, Some (wrapf "failed to marshal message: " err))
    | Ok data =>
        match HTTP.NewRequest (N := N) "POST" (sessionURL h) (Some data)
        with
        | Err err => (h, Some (wrapf "failed to create request: " err))
        | Ok req =>
            let req := HTTP.SetHeader "Accept" "application/json" req in
            let req :=
              HTTP.SetHeader "Content-Type" "application/json" req in
            match HTTP.Do req (client h) with
            | (n', Err err) =>
                (withClient n' h,
                 Some (wrapf "failed to send notification: " err))
            | (n', Ok resp) =>
                let h := withClient n' h in
                if 400 <=? HTTP.StatusCode resp
                then
                  (h, Some (wrapf "notification failed with status: "
                              (Strconv.FormatInt (HTTP.StatusCode resp))))
                else (h, None)
            end
        end
    end.

(** [SSETransport.sendSessionRequest] *)
Definition sendSessionRequest (message : Message) (h : t)
  : t * option error :=
  if String.eqb (sessionURL h) "" then (h, Some "session not established")
  else sendMessageToSession message h.

(** [SSETransport.Send] *)
Definition Send (message : Message) (h : t) : t * option error :=
  if negb (connected h) then (h, Some "transport not connected")
  else if String.eqb (Method message) "initialize" && negb (initialized h)
  then sendInitializeRequest message h
  else
    match ID message with
    | IDNil => sendNotification message h
    | _ => sendSessionRequest message h
    end.

(** The body of the loop of [Receive] over the lines of the stream: at a
    line that starts with ["data: "] and whose payload decodes it has the
    response. *)
Definition eventLine (line : string) : option Message :=
  if hasDataPrefix line
  then
    match Unmarshal (TrimSpace (from6 line)) with
    | Ok response => Some response
    | Err _ => None
    end
  else None.

(** [SSETransport.Receive] *)
Definition Receive (h : t) : Transport.Received Message t :=
  if negb (connected h)
  then Transport.RecvErr "transport not connected" h
  else
    match lastResponse h with
    | Some response =>
        Transport.RecvMsg response (withLastResponse None h)
    | None =>
        match sseConnection h with
        | Some resp =>
            let scanner := Bufio.NewScanner (HTTP.RespBody resp) in
            match Bufio.Seek eventLine scanner with
            | (scanner, Some response) =>
                Transport.RecvMsg response
                  (withStream (Some (HTTP.withBody (Bufio.r scanner) resp))
                              h)
            | (scanner, None) =>
                Transport.RecvErr "no response available"
                  (withStream (Some (HTTP.withBody (Bufio.r scanner) resp))
                              h)
            end
        | None => Transport.RecvErr "no response available" h
        end
    end.

Definition IsConnected (h : t) : bool := connected h.

#[global] Instance transport : Transport.Interface t := {|
  Transport.Connect := Connect;
  Transport.Send := Send;
  Transport.Receive := Receive;
  Transport.Close := Close;
  Transport.IsConnected := IsConnected;
|}.

(** A line that is not an event [Receive] can return: it does not start
    with ["data: "], or its payload does not decode. *)
Definition skipped (line : string) : Prop :=
  hasDataPrefix line = false \/
  exists err, Unmarshal (TrimSpace (from6 line)) = Err err.

(** The GET that opens the event stream, and the POST of a message to the
    session endpoint. *)
Definition openStream (h : t) : HTTP.Request :=
  {| HTTP.ReqMethod := "GET"; HTTP.URL := baseURL h ++ endpoint h;
     HTTP.ReqHeader := [("Accept", "text/event-stream")];
     HTTP.ReqBody := None |}.

Definition postTo (url data : string) : HTTP.Request :=
  {| HTTP.ReqMethod := "POST"; HTTP.URL := url;
     HTTP.ReqHeader := [("Accept", "application/json");
                        ("Content-Type", "application/json")];
     HTTP.ReqBody := Some data |}.

(** What the POST response leaves in the buffer: nothing when the body is
    empty, the decoded message otherwise. *)
Definition buffers (body : string) (buffered : option Message) : Prop :=
  match buffered with
  | None => body = ""
  | Some response => body <> "" /\ Unmarshal body = Ok response
  end.
End Impl.

Arguments t {mcp} N.
End SSETransport.

(** ** Instrumented transports and a scripted network *)

(** A transport that records the calls made on it, in order. *)
Module Traced.
Section Impl.
Context {mcp : Mcp} {T : Type} {tr : Transport.Interface T}.

Inductive Call : Type :=
| CallConnect
| CallSend (m : Message)
| CallReceive
| CallClose.

Record t : Type := mk { inner : T; calls : list Call }.

Definition logged {A : Type} (call : Call) (s : t) (r : T * A) : t * A :=
  ({| inner := fst r; calls := (calls s ++ [call])%list |}, snd r).

Definition Receive (s : t) : Transport.Received Message t :=
  let log := (calls s ++ [CallReceive])%list in
  match Transport.Receive (inner s) with
  | Transport.RecvMsg m i => Transport.RecvMsg m {| inner := i; calls := log |}
  | Transport.RecvErr e i => Transport.RecvErr e {| inner := i; calls := log |}
  | Transport.RecvBlocks => Transport.RecvBlocks
  end.

#[global] Instance transport : Transport.Interface t := {|
  Transport.Connect s := logged CallConnect s (Transport.Connect (inner s));
  Transport.Send m s := logged (CallSend m) s (Transport.Send m (inner s));
  Transport.Receive := Receive;
  Transport.Close s := logged CallClose s (Transport.Close (inner s));
  Transport.IsConnected s := Transport.IsConnected (inner s);
|}.

(** The messages sent, in order. *)
Fixpoint sent (cs : list Call) : list Message :=
  match cs with
  | [] => []
  | CallSend m :: rest => m :: sent rest
  | _ :: rest => sent rest
  end.
End Impl.

Arguments t {mcp} T.
End Traced.

(** An in-memory duplex stream: what the peer has written waits in
    [inbox], in order, and a [Receive] on an empty [inbox] blocks, as a read
    on a socket or on a pipe does. *)
Module Pipe.
Section Impl.
Context {mcp : Mcp}.

Record t : Type := mk {
  open : bool;
  inbox : list Message;
  outbox : list Message;
}.

Definition Connect (s : t) : t * option error :=
  ({| open := true; inbox := inbox s; outbox := outbox s |}, None).

Definition Send (m : Message) (s : t) : t * option error :=
  if open s
  then ({| open := true; inbox := inbox s;
           outbox := (outbox s ++ [m])%list |}, None)
  else (s, Some "transport not connected").

Definition Receive (s : t) : Transport.Received Message t :=
  if negb (open s) then Transport.RecvErr "transport not connected" s
  else
    match inbox s with
    | [] => Transport.RecvBlocks
    | m :: rest =>
        Transport.RecvMsg m {| open := true; inbox := rest;
                               outbox := outbox s |}
    end.

Definition Close (s : t) : t * option error :=
  ({| open := false; inbox := inbox s; outbox := outbox s |}, None).

#[global] Instance transport : Transport.Interface t := {|
  Transport.Connect := Connect;
  Transport.Send := Send;
  Transport.Receive := Receive;
  Transport.Close := Close;
  Transport.IsConnected := open;
|}.
End Impl.
End Pipe.

(** A network that answers the successive exchanges from a script and
    records the requests it sees. *)
Module Scripted.
Record t : Type := mk {
  replies : list (result HTTP.Response);
  requests : list HTTP.Request;
}.

Definition Do (req : HTTP.Request) (n : t) : t * result HTTP.Response :=
  match replies n with
  | [] =>
      ({| replies := []; requests := (requests n ++ [req])%list |},
       Err "connection refused")
  | r :: rest =>
      ({| replies := rest; requests := (requests n ++ [req])%list |}, r)
  end.

#[global] Instance client : HTTP.Client t := {|
  HTTP.Do := Do;
  HTTP.checkURL _ := None;
|}.

(** A [200 OK] with the given session header and body. *)
Definition ok (session body : string) : result HTTP.Response :=
  Ok {| HTTP.StatusCode := 200;
        HTTP.RespHeader :=
          if String.eqb session "" then []
          else [("Mcp-Session-Id", session)];
        HTTP.RespBody := {| HTTP.chunks := [body]; HTTP.failure := None |} |}.
End Scripted.

(** ** Fixtures: a platform *)

(** The conversion of an unrepresentable [float64] on amd64: the "integer
    indefinite" value. *)
Definition amd64 : Platform := {| unrepresentable := fun _ => int64_min |}.

(** The [float64] two, in normal form. *)
Definition float64_two : spec_float := S754_finite false 4503599627370496 (-51).

(** The first three positive integers as decoded by [encoding/json] into an
    [interface{}]: [float64] values. *)
Definition float64_one : spec_float := S754_finite false 4503599627370496 (-52).
Definition float64_three : spec_float := S754_finite false 6755399441055744 (-51).
Definition float64_four : spec_float := S754_finite false 4503599627370496 (-50).

(** ** Fixtures: a small instance of package [mcp] and of the wire *)

Module Fixture.

Inductive TestValue : Type :=
| VInit (info : ServerInfo)
| VTools (names : list string) (next : string)
| VText (s : string).

#[global] Instance mcp : Mcp := {|
  Value := TestValue;
  Arguments := list (string * string);
  Tool := string;
  Resource := string;
  Prompt := string;
  ServerCapabilities := unit;
  CallToolResponse := string;
  GetPromptResponse := string;
  ReadResourceResponse := string;
  ProtocolVersion := "2025-11-25";
|}.

Definition mismatch : error := "json: cannot unmarshal value into target".

#[global] Instance codec : Codec := {|
  decodeInitialize v :=
    match v with
    | VInit info =>
        Ok {| InitServerInfo := info; InitCapabilities := tt |}
    | _ => Err mismatch
    end;
  decodeListTools v :=
    match v with
    | VTools names next => Ok {| Tools := names; NextCursor := next |}
    | _ => Err mismatch
    end;
  decodeCallTool v :=
    match v with VText s => Ok s | _ => Err mismatch end;
  decodeListResources v :=
    match v with
    | VTools names _ => Ok {| Resources := names |}
    | _ => Err mismatch
    end;
  decodeListPrompts v :=
    match v with
    | VTools names _ => Ok {| Prompts := names |}
    | _ => Err mismatch
    end;
  decodeGetPrompt v :=
    match v with VText s => Ok s | _ => Err mismatch end;
  decodeReadResource v :=
    match v with VText s => Ok s | _ => Err mismatch end;
|}.

#[global] Instance platform : Platform := amd64.

(** A success response to the request [id]. *)
Definition response (id : spec_float) (v : TestValue) : Message :=
  {| ID := IDFloat64 id; Method := ""; Params := None;
     Result := Some v; Error := None |}.

Definition server : ServerInfo := {| Name := "math-server"; Version := "1.0.0" |}.

(** Three pages of two tools each; the last one has no cursor. *)
Definition page1 : TestValue := VTools ["add"; "subtract"] "page-2".
Definition page2 : TestValue := VTools ["multiply"; "divide"] "page-3".
Definition page3 : TestValue := VTools ["power"; "modulo"] "".

(** The bodies the scripted peer sends, and the messages they decode
    to. *)
Definition bodies : list (string * Message) :=
  [ ("init#1", response float64_one (VInit server));
    ("init#2", response float64_two (VInit server));
    ("text#1", response float64_one (VText "one"));
    ("text#2", response float64_two (VText "two"));
    ("text#3", response float64_three (VText "three"));
    ("tools#2/1", response float64_two page1);
    ("tools#3/2", response float64_three page2);
    ("tools#4/3", response float64_four page3) ].

Fixpoint lookup (body : string) (table : list (string * Message))
  : result Message :=
  match table with
  | [] => Err "invalid character looking for beginning of value"
  | (k, m) :: rest => if String.eqb k body then Ok m else lookup body rest
  end.

#[global] Instance wire : Wire := {|
  Marshal m := Ok (Method m);
  Unmarshal body := lookup body bodies;
  TrimSpace s := s;
|}.

Definition clientInfo : ClientInfo :=
  {| ClientName := "my-app"; ClientVersion := "1.0.0" |}.

Definition ErrNotConnected : error := "client not connected".

(** The streaming HTTP transport on a scripted network, with its calls
    recorded. *)
Abbreviation Link := (Traced.t (StreamingHTTPTransport.t Scripted.t)).

Definition dial (replies : list (result HTTP.Response)) : Link :=
  {| Traced.inner :=
       StreamingHTTPTransport.New "http://localhost:8811" "/mcp"
         {| Scripted.replies := replies; Scripted.requests := [] |};
     Traced.calls := [] |}.

(** [NewClient] on that transport, with a timeout of thirty polls. *)
Definition NewClient (replies : list (result HTTP.Response))
  : Client.Client Link :=
  {| Client.transport := dial replies; Client.serverInfo := None;
     Client.serverCapabilities := None; Client.connected := false;
     Client.initialized := false; Client.requestID := 0;
     Client.timeout := 30%nat |}.

(** The client after [Connect]. *)
Definition connectedClient (replies : list (result HTTP.Response))
  : Client.Client Link :=
  snd (Client.Connect (NewClient replies)).

(** The client after [Connect] and [Initialize], when [Initialize]
    returns. *)
Definition session (replies : list (result HTTP.Response))
  : option (result unit * Client.Client Link) :=
  match Client.Initialize ErrNotConnected 30%nat clientInfo
          (connectedClient replies) with
  | Client.Returns r c => Some (r, c)
  | Client.Hangs => None
  end.

(** The peer's answers to a handshake: the response to the request, then
    an empty [202] to the notification. *)
Definition handshake : list (result HTTP.Response) :=
  [Scripted.ok "session-1" "init#1"; Scripted.ok "" ""].

(** The requests the network saw, and the messages the client sent. *)
Definition seen (c : Client.Client Link) : list HTTP.Request :=
  Scripted.requests
    (StreamingHTTPTransport.client (Traced.inner (Client.transport c))).

Definition sentBy (c : Client.Client Link) : list Message :=
  Traced.sent (Traced.calls (Client.transport c)).

(** The client of an established session. *)
Definition established (replies : list (result HTTP.Response))
  : Client.Client Link :=
  match session replies with
  | Some (_, c) => c
  | None => connectedClient replies
  end.

(** A peer whose connection breaks after it answered the handshake
    request. *)
Definition brokenHandshake : list (result HTTP.Response) :=
  [Scripted.ok "session-1" "init#1"; Err "connection reset by peer"].

(** A peer that serves the tools in three pages. *)
Definition paginated : list (result HTTP.Response) :=
  (handshake ++ [Scripted.ok "" "tools#2/1"; Scripted.ok "" "tools#3/2";
                 Scripted.ok "" "tools#4/3"])%list.

(** A peer that acknowledges a request with an empty body and never
    delivers the response. *)
Definition silent : list (result HTTP.Response) :=
  (handshake ++ [Scripted.ok "" ""])%list.

(** A peer that answers a second handshake like the first. *)
Definition twice : list (result HTTP.Response) :=
  (handshake ++ [Scripted.ok "" "init#2"; Scripted.ok "" ""])%list.

(** A peer that answers the requests 2 and 3, each with its own
    response. *)
Definition answering : list (result HTTP.Response) :=
  (handshake ++ [Scripted.ok "" "text#2"; Scripted.ok "" "text#3"])%list.

(** The handshake requests among the messages sent. *)
Definition handshakes (ms : list Message) : list Message :=
  filter (fun m => String.eqb (Method m) "initialize") ms.

(** The tools/list requests among the messages sent. *)
Definition listings (ms : list Message) : list Message :=
  filter (fun m => String.eqb (Method m) "tools/list") ms.

(** What the specification asks of [Initialize] on a session that is
    initialized already: whatever it returns, no further handshake
    request has been sent. *)
Definition doesNotResend (c : Client.Client Link) : Prop :=
  Client.initialized c = true ->
  forall ctx info r c',
    Client.Initialize ErrNotConnected ctx info c = Client.Returns r c' ->
    handshakes (sentBy c') = handshakes (sentBy c).

(** The replies the network still holds. *)
Definition unasked (c : Client.Client Link) : list (result HTTP.Response) :=
  Scripted.replies
    (StreamingHTTPTransport.client (Traced.inner (Client.transport c))).

(** Two goroutines about to call [sendRequest] on the client. *)
Definition twoCallers {T : Type} (c : Client.Client T) : Client.Pool :=
  {| Client.shared := c;
     Client.callers :=
       [Client.Calling 30%nat "tools/call"
          (Some (Struct (CallToolRequest "add" [("a", "1"); ("b", "2")])));
        Client.Calling 30%nat "tools/call"
          (Some (Struct (CallToolRequest "subtract" [("a", "2"); ("b", "1")])))]
  |}.

(** The client of an established session on a stream on which [arrived]
    is what the peer writes after its answer to the handshake. *)
Definition onPipe (arrived : list Message) : Client.Client Pipe.t :=
  let c :=
    {| Client.transport :=
         {| Pipe.open := false;
            Pipe.inbox := response float64_one (VInit server) :: arrived;
            Pipe.outbox := [] |};
       Client.serverInfo := None; Client.serverCapabilities := None;
       Client.connected := false; Client.initialized := false;
       Client.requestID := 0; Client.timeout := 30%nat |} in
  let c := snd (Client.Connect c) in
  match Client.Initialize ErrNotConnected 30%nat clientInfo c with
  | Client.Returns _ c' => c'
  | Client.Hangs => c
  end.

(** The responses to the requests 2 and 3, in the order 3, 2. *)
Definition outOfOrder : list Message :=
  [response float64_three (VText "three"); response float64_two (VText "two")].

(** The streaming HTTP transport after [Connect], facing a peer that
    answers a handshake. *)
Definition streaming : StreamingHTTPTransport.t Scripted.t :=
  fst (StreamingHTTPTransport.Connect
         (StreamingHTTPTransport.New "http://localhost:8811" "/mcp"
            {| Scripted.replies := handshake; Scripted.requests := [] |})).

Definition LF : string := String (ascii_of_nat 10) EmptyString.

(** An event stream: the endpoint event, then the response to the
    handshake as a message event. *)
Definition events : string :=
  "event: endpoint" ++ LF ++ "data: /messages?session=abc" ++ LF ++ LF
  ++ "event: message" ++ LF ++ "data: init#1" ++ LF ++ LF.

(** The SSE transport after [Connect], facing a peer that opens the
    stream above and acknowledges the POST with an empty body. *)
Definition sse : SSETransport.t Scripted.t :=
  fst (SSETransport.Connect
         (SSETransport.New "http://localhost:8811" "/sse"
            {| Scripted.replies :=
                 [Ok {| HTTP.StatusCode := 200; HTTP.RespHeader := [];
                        HTTP.RespBody :=
                          {| HTTP.chunks := [events];
                             HTTP.failure := None |} |};
                  Scripted.ok "" ""];
               Scripted.requests := [] |})).

(** The same, facing a peer that answers the POST with the response in
    its body. *)
Definition sseAnswered : SSETransport.t Scripted.t :=
  fst (SSETransport.Connect
         (SSETransport.New "http://localhost:8811" "/sse"
            {| Scripted.replies :=
                 [Ok {| HTTP.StatusCode := 200; HTTP.RespHeader := [];
                        HTTP.RespBody :=
                          {| HTTP.chunks := [events];
                             HTTP.failure := None |} |};
                  Scripted.ok "" "init#1"];
               Scripted.requests := [] |})).

(** The SSE transport after the handshake, with an empty buffer, on a
    stream whose next piece holds two message events: the response to
    request 1 and, behind it, the response to request 2. *)
Definition ssePieces : SSETransport.t Scripted.t :=
  {| SSETransport.baseURL := "http://localhost:8811";
     SSETransport.endpoint := "/sse";
     SSETransport.client :=
       {| Scripted.replies := []; Scripted.requests := [] |};
     SSETransport.sessionID := "";
     SSETransport.sessionURL := "http://localhost:8811/messages?session=abc";
     SSETransport.connected := true;
     SSETransport.initialized := true;
     SSETransport.lastResponse := None;
     SSETransport.sseConnection :=
       Some {| HTTP.StatusCode := 200; HTTP.RespHeader := [];
               HTTP.RespBody :=
                 {| HTTP.chunks :=
                      ["event: message" ++ LF ++ "data: text#1" ++ LF
                       ++ LF ++ "event: message" ++ LF ++ "data: text#2"
                       ++ LF ++ LF];
                    HTTP.failure := None |} |} |}.

Definition handshakeRequest : Message :=
  NewRequest 1 "initialize"
    (Some (Struct (InitializeRequest ProtocolVersion clientInfo))).

Definition callAdd : option Payload :=
  Some (Struct (CallToolRequest "add" [("a", "1"); ("b", "2")])).

Definition callSubtract : option Payload :=
  Some (Struct (CallToolRequest "subtract" [("a", "2"); ("b", "1")])).

End Fixture.

(** ** The service wrapper of the advanced example ([MCPService]) *)

Module MCPService.
Section Impl.
Context {mcp : Mcp} {codec : Codec} {platform : Platform}.
Context {T : Type} {tr : Transport.Interface T}.

Variable ErrNotConnected : error.
Variable Second : nat.

(** [transport.NewTCPTransport], declared outside the sources. *)
Variable NewTCPTransport : string -> Z -> T.

Record ServiceConfig : Type := mkServiceConfig {
  Host : string;
  Port : Z;
  ClientName : string;
  ClientVersion : string;
  ConnectTimeout : nat;
  OperateTimeout : nat;
}.

Record t : Type := mk {
  client : option (Client.Client T);
  connected : bool;
  config : ServiceConfig;
}.

(** A call returns and leaves the service in a new state, or never
    returns, or dereferences the nil [client]. *)
Inductive Outcome (A : Type) : Type :=
| Returns (r : A) (s : t)
| Hangs
| Panics.

Arguments Returns {A} r s.
Arguments Hangs {A}.
Arguments Panics {A}.

(** [NewMCPService] *)
Definition NewMCPService : t :=
  {| client := None; connected := false;
     config :=
       {| Host := "localhost"; Port := 8811; ClientName := "mcp-service";
          ClientVersion := "1.0.0"; ConnectTimeout := (30 * Second)%nat;
          OperateTimeout := (10 * Second)%nat |} |}.

(** [NewMCPServiceWithConfig] *)
Definition NewMCPServiceWithConfig (config : ServiceConfig) : t :=
  {| client := None; connected := false; config := config |}.

(** [MCPService.Connect] *)
Definition Connect (host : string) (port : Z) (s : t)
  : Outcome (option error) :=
  let cfg :=
    {| Host := host; Port := port; ClientName := ClientName (config s);
       ClientVersion := ClientVersion (config s);
       ConnectTimeout := ConnectTimeout (config s);
       OperateTimeout := OperateTimeout (config s) |} in
  let tcpTransport := NewTCPTransport host port in
  let clientConfig :=
    {| Client.ConfigName := ClientName cfg;
       Client.ConfigVersion := ClientVersion cfg;
       Client.Timeout := ConnectTimeout cfg |} in
  let c := Client.NewClient Second tcpTransport clientConfig in
  let ctx : Client.Ctx := ConnectTimeout cfg in
  match Client.Connect c with
  | (Err err, c1) =>
      Returns (Some (wrapf "connection failed: " err))
              {| client := Some c1; connected := connected s; config := cfg |}
  | (Ok _, c1) =>
      let clientInfo := mkClientInfo (ClientName cfg) (ClientVersion cfg) in
      match Client.Initialize ErrNotConnected ctx clientInfo c1 with
      | Client.Hangs => Hangs
      | Client.Returns (Err err) c2 =>
          Returns (Some (wrapf "initialization failed: " err))
                  {| client := Some c2; connected := connected s;
                     config := cfg |}
      | Client.Returns (Ok _) c2 =>
          Returns None {| client := Some c2; connected := true; config := cfg |}
      end
  end.

(** [MCPService.Disconnect] *)
Definition Disconnect (s : t) : option error * t :=
  match client s with
  | Some c =>
      let (err, c') := Client.Disconnect c in
      (err, {| client := Some c'; connected := false; config := config s |})
  | None => (None, s)
  end.

(** [MCPService.ListTools] *)
Definition ListTools (s : t) : Outcome (result (list Tool)) :=
  if negb (connected s) then Returns (Err "service not connected") s
  else
    let ctx : Client.Ctx := OperateTimeout (config s) in
    match client s with
    | None => Panics
    | Some c =>
        match Client.ListTools ctx c with
        | Client.Hangs => Hangs
        | Client.Returns r c' =>
            Returns r {| client := Some c'; connected := connected s;
                         config := config s |}
        end
    end.

(** [MCPService.ExecuteTool] *)
Definition ExecuteTool (name : string) (args : Arguments) (s : t)
  : Outcome (result CallToolResponse) :=
  if negb (connected s) then Returns (Err "service not connected") s
  else
    let ctx : Client.Ctx := (OperateTimeout (config s) * 3)%nat in
    match client s with
    | None => Panics
    | Some c =>
        match Client.CallTool ctx name args c with
        | Client.Hangs => Hangs
        | Client.Returns r c' =>
            Returns r {| client := Some c'; connected := connected s;
                         config := config s |}
        end
    end.

(** [MCPService.IsConnected] *)
Definition IsConnected (s : t) : bool :=
  connected s && match client s with Some _ => true | None => false end.

(** [MCPService.GetServerInfo] *)
Definition GetServerInfo (s : t) : result (string * string) :=
  if negb (connected s) then Err "service not connected"
  else Ok ("connected-server", "unknown-version").

(** [MCPService.HealthCheck] *)
Definition HealthCheck (s : t) : Outcome (option error) :=
  if negb (connected s) then Returns (Some "service not connected") s
  else
    let ctx : Client.Ctx := (5 * Second)%nat in
    match client s with
    | None => Panics
    | Some c =>
        match Client.ListTools ctx c with
        | Client.Hangs => Hangs
        | Client.Returns r c' =>
            Returns (match r with Ok _ => None | Err err => Some err end)
                    {| client := Some c'; connected := connected s;
                       config := config s |}
        end
    end.

(** The calls a user of the service makes, and the service after a
    sequence of them; [None] when a call does not return. *)
Inductive Call : Type :=
| DoConnect (host : string) (port : Z)
| DoDisconnect
| DoListTools
| DoExecuteTool (name : string) (args : Arguments)
| DoHealthCheck.

Inductive Ending : Type :=
| Ended (s : t)
| Hung
| Panicked.

Definition after {A : Type} (o : Outcome A) : Ending :=
  match o with
  | Returns _ s => Ended s
  | Hangs => Hung
  | Panics => Panicked
  end.

Definition call (k : Call) (s : t) : Ending :=
  match k with
  | DoConnect host port => after (Connect host port s)
  | DoDisconnect => Ended (snd (Disconnect s))
  | DoListTools => after (ListTools s)
  | DoExecuteTool name args => after (ExecuteTool name args s)
  | DoHealthCheck => after (HealthCheck s)
  end.

Fixpoint calls (ks : list Call) (s : t) : Ending :=
  match ks with
  | [] => Ended s
  | k :: rest =>
      match call k s with
      | Ended s' => calls rest s'
      | Hung => Hung
      | Panicked => Panicked
      end
  end.

(** Whenever the service says it is connected it holds a client. *)
Definition holdsClient (s : t) : Prop :=
  connected s = true -> client s <> None.
End Impl.

Arguments Returns {mcp T A} r s.
Arguments Hangs {mcp T A}.
Arguments Panics {mcp T A}.
Arguments Ended {mcp T} s.
Arguments Hung {mcp T}.
Arguments Panicked {mcp T}.
Arguments t {mcp} T.
End MCPService.

(** ** Further fixtures *)

(** A transport to a peer that is not there. *)
Module Refusing.
Section Impl.
Context {mcp : Mcp}.

Definition t : Type := unit.

#[global] Instance transport : Transport.Interface t := {|
  Transport.Connect s := (s, Some "dial tcp: connection refused");
  Transport.Send _ s := (s, Some "transport not connected");
  Transport.Receive s := Transport.RecvErr "transport not connected" s;
  Transport.Close s := (s, None);
  Transport.IsConnected _ := false;
|}.
End Impl.
End Refusing.

Module Cases.
Import Fixture.

(** The client of an established session on a stream with its calls
    recorded; [arrived] is what the peer writes after its answer to the
    handshake. *)
Definition onTracedPipe (arrived : list Message)
  : Client.Client (Traced.t Pipe.t) :=
  let c :=
    {| Client.transport :=
         {| Traced.inner :=
              {| Pipe.open := false;
                 Pipe.inbox := response float64_one (VInit server) :: arrived;
                 Pipe.outbox := [] |};
            Traced.calls := [] |};
       Client.serverInfo := None; Client.serverCapabilities := None;
       Client.connected := false; Client.initialized := false;
       Client.requestID := 0; Client.timeout := 30%nat |} in
  snd (Client.Connect c).

(** A notification of the peer, and its error response to request 2. *)
Definition progress : Message :=
  {| ID := IDNil; Method := "notifications/progress"; Params := None;
     Result := None; Error := None |}.

Definition toolNotFound : Message :=
  {| ID := IDFloat64 float64_two; Method := ""; Params := None;
     Result := None;
     Error := Some {| Code := -32601; ErrMessage := "tool not found: X" |} |}.

Definition emptyResponse : Message :=
  {| ID := IDFloat64 float64_two; Method := ""; Params := None;
     Result := None; Error := None |}.

(** The stream from which the service wrapper dials: the peer answers the
    handshake and one tools/list request. *)
Definition dialPipe (host : string) (port : Z) : Pipe.t :=
  {| Pipe.open := false;
     Pipe.inbox := [response float64_one (VInit server);
                    response float64_two page3];
     Pipe.outbox := [] |}.

Definition dialRefusing (host : string) (port : Z) : Refusing.t := tt.

(** A streaming HTTP transport that holds a session token and a buffered
    response. *)
Definition tokened : StreamingHTTPTransport.t Scripted.t :=
  {| StreamingHTTPTransport.baseURL := "http://localhost:8811";
     StreamingHTTPTransport.endpoint := "/mcp";
     StreamingHTTPTransport.client :=
       {| Scripted.replies := [Scripted.ok "" ""; Scripted.ok "session-2" "text#2"];
          Scripted.requests := [] |};
     StreamingHTTPTransport.sessionID := "session-1";
     StreamingHTTPTransport.connected := true;
     StreamingHTTPTransport.initialized := false;
     StreamingHTTPTransport.lastResponse :=
       Some (response float64_one (VText "one")) |}.

(** The SSE transport after the handshake of [sse], facing a peer that
    then answers a request in the POST body and rejects a notification. *)
Definition sseSession : SSETransport.t Scripted.t :=
  {| SSETransport.baseURL := "http://localhost:8811";
     SSETransport.endpoint := "/sse";
     SSETransport.client :=
       {| Scripted.replies :=
            [Scripted.ok "" "text#2";
             Ok {| HTTP.StatusCode := 404; HTTP.RespHeader := [];
                   HTTP.RespBody := {| HTTP.chunks := ["not found"];
                                       HTTP.failure := None |} |}];
          Scripted.requests := [] |};
     SSETransport.sessionID := "";
     SSETransport.sessionURL := "http://localhost:8811/messages?session=abc";
     SSETransport.connected := true;
     SSETransport.initialized := true;
     SSETransport.lastResponse := Some (response float64_one (VInit server));
     SSETransport.sseConnection :=
       Some {| HTTP.StatusCode := 200; HTTP.RespHeader := [];
               HTTP.RespBody :=
                 {| HTTP.chunks :=
                      ["event: ping" ++ LF; "data: not json" ++ LF ++ LF];
                    HTTP.failure := None |} |} |}.

(** The SSE transport after [Connect], facing a peer whose stream names no
    endpoint. *)
Definition sseNoEndpoint : SSETransport.t Scripted.t :=
  fst (SSETransport.Connect
         (SSETransport.New "http://localhost:8811" "/sse"
            {| Scripted.replies :=
                 [Ok {| HTTP.StatusCode := 200; HTTP.RespHeader := [];
                        HTTP.RespBody :=
                          {| HTTP.chunks := ["event: ping" ++ LF ++ "retry: 3" ++ LF];
                             HTTP.failure := None |} |}];
               Scripted.requests := [] |})).

(** The SSE transport after the handshake, with an empty buffer, on a
    stream whose next event has a payload of 64 KiB. *)
Definition padding : string :=
  String.concat "" (List.repeat "x" (64 * 1024)).

Definition sseLongLine : SSETransport.t Scripted.t :=
  {| SSETransport.baseURL := "http://localhost:8811";
     SSETransport.endpoint := "/sse";
     SSETransport.client :=
       {| Scripted.replies := []; Scripted.requests := [] |};
     SSETransport.sessionID := "";
     SSETransport.sessionURL := "http://localhost:8811/messages?session=abc";
     SSETransport.connected := true;
     SSETransport.initialized := true;
     SSETransport.lastResponse := None;
     SSETransport.sseConnection :=
       Some {| HTTP.StatusCode := 200; HTTP.RespHeader := [];
               HTTP.RespBody :=
                 {| HTTP.chunks :=
                      ["data: " ++ padding ++ LF ++ LF];
                    HTTP.failure := None |} |} |}.

Definition toolsListRequest : Message :=
  NewRequest 2 "tools/list" (Some (Struct (ListToolsRequest ""))).

Definition initializedNotification : Message :=
  NewNotification "notifications/initialized" None.

Definition defaults : Client.ClientConfig :=
  {| Client.ConfigName := "my-app"; Client.ConfigVersion := "1.0.0";
     Client.Timeout := 0%nat |}.

(** Clients just made by [NewClient], with a second of one poll. *)
Definition freshPipe : Client.Client Pipe.t :=
  Client.NewClient 1%nat (dialPipe "localhost" 8811) defaults.

Definition freshRefusing : Client.Client Refusing.t :=
  Client.NewClient 1%nat (dialRefusing "localhost" 8811) defaults.

(** An established session whose stream has since been closed under the
    client. *)
Definition cutOff : Client.Client Pipe.t :=
  let c := onPipe [] in
  Client.withTransport (fst (Pipe.Close (Client.transport c))) c.

(** An established session, with its calls recorded, on which a page of
    tools arrives. *)
Definition listing : Client.Client (Traced.t Pipe.t) :=
  match Client.Initialize ErrNotConnected 30%nat clientInfo
          (onTracedPipe [response float64_two page2]) with
  | Client.Returns _ c => c
  | Client.Hangs => onTracedPipe []
  end.
End Cases.

(** A transport that is a stream to a peer that is there, or a transport
    to a peer that is not. *)
Module Dialed.
Section Impl.
Context {mcp : Mcp}.

Definition t : Type := (Pipe.t + Refusing.t)%type.

Definition lift {A : Type} (r : Pipe.t * A) : t * A := (inl (fst r), snd r).

Definition Receive (s : t) : Transport.Received Message t :=
  match s with
  | inl p =>
      match Pipe.Receive p with
      | Transport.RecvMsg m p' => Transport.RecvMsg m (inl p')
      | Transport.RecvErr e p' => Transport.RecvErr e (inl p')
      | Transport.RecvBlocks => Transport.RecvBlocks
      end
  | inr _ => Transport.RecvErr "transport not connected" s
  end.

#[global] Instance transport : Transport.Interface t := {|
  Transport.Connect s :=
    match s with
    | inl p => lift (Pipe.Connect p)
    | inr _ => (s, Some "dial tcp: connection refused")
    end;
  Transport.Send m s :=
    match s with
    | inl p => lift (Pipe.Send m p)
    | inr _ => (s, Some "transport not connected")
    end;
  Transport.Receive := Receive;
  Transport.Close s :=
    match s with
    | inl p => lift (Pipe.Close p)
    | inr _ => (s, None)
    end;
  Transport.IsConnected s :=
    match s with
    | inl p => Pipe.open p
    | inr _ => false
    end;
|}.
End Impl.
End Dialed.

Module ServiceCases.
Import Fixture.

(** Only [localhost] answers. *)
Definition dial (host : string) (port : Z) : Dialed.t :=
  if String.eqb host "localhost" then inl (Cases.dialPipe host port)
  else inr tt.

(** The service of [NewMCPService], with a second of one poll. *)
Definition service : MCPService.t Dialed.t := MCPService.NewMCPService 1%nat.

(** The service after a [Connect] to the peer that answers. *)
Definition connectedService : MCPService.t Dialed.t :=
  match MCPService.Connect ErrNotConnected 1%nat dial "localhost" 8811
          service with
  | MCPService.Returns _ s => s
  | _ => service
  end.
End ServiceCases.

(** * Properties *)

Unset Implicit Arguments.

(** ** Decimal conversions *)

Module StrconvFacts.
Import Strconv.

Lemma digit_of_digit_char (d : Z) :
  0 <= d <= 9 -> digit_of (digit_char d) = Some d.
Proof.
  intros Hd.
  assert (Hcases : d = 0 \/ d = 1 \/ d = 2 \/ d = 3 \/ d = 4 \/ d = 5 \/
                   d = 6 \/ d = 7 \/ d = 8 \/ d = 9) by lia.
  repeat (destruct Hcases as [-> | Hcases]; [reflexivity |]).
  subst d; reflexivity.
Qed.

Lemma digit_of_range (c : ascii) (d : Z) :
  digit_of c = Some d -> 0 <= d <= 9 /\ Z.of_nat (nat_of_ascii c) = 48 + d.
Proof.
  unfold digit_of.
  set (k := Z.of_nat (nat_of_ascii c)).
  destruct (48 <=? k) eqn:Hlo; cbn [andb]; [| discriminate].
  destruct (k <=? 57) eqn:Hhi; [| discriminate].
  intros [= <-].
  apply Z.leb_le in Hlo. apply Z.leb_le in Hhi. lia.
Qed.

Lemma digit_not_sign (c : ascii) (d : Z) :
  digit_of c = Some d -> Ascii.eqb c "+" = false /\ Ascii.eqb c "-" = false.
Proof.
  intros H. apply digit_of_range in H as [Hd Hc].
  split; apply Ascii.eqb_neq; intros ->.
  - change (Z.of_nat (nat_of_ascii "+")) with 43 in Hc. lia.
  - change (Z.of_nat (nat_of_ascii "-")) with 45 in Hc. lia.
Qed.

(** Parsing the digits written for [n] in front of [acc] continues on
    [acc] with [n] accumulated. *)
Lemma parse_format_digits (fuel : nat) :
  forall n acc,
    0 <= n < 10 ^ Z.of_nat fuel -> n <= uint64_max ->
    parse_uint_loop (format_digits fuel n acc) 0 = parse_uint_loop acc n.
Proof.
  induction fuel as [| fuel IH]; intros n acc Hn Hmax.
  - simpl in Hn. assert (n = 0) by lia. subst n. reflexivity.
  - cbn [format_digits].
    assert (Hmod : 0 <= n mod 10 <= 9) by (pose proof (Z.mod_pos_bound n 10); lia).
    destruct (n <? 10) eqn:Hlt.
    + apply Z.ltb_lt in Hlt.
      cbn [parse_uint_loop].
      rewrite digit_of_digit_char by exact Hmod.
      rewrite Z.mod_small by lia.
      replace (cutoff <=? 0) with false by reflexivity.
      replace (0 * 10 + n) with n by lia.
      replace (uint64_max <? n) with false; [reflexivity |].
      symmetry. apply Z.ltb_ge. exact Hmax.
    + apply Z.ltb_ge in Hlt.
      rewrite IH.
      * cbn [parse_uint_loop].
        rewrite digit_of_digit_char by exact Hmod.
        assert (Hdiv : n / 10 <= uint64_max / 10)
          by (apply Z.div_le_mono; lia).
        replace (cutoff <=? n / 10) with false
          by (symmetry; apply Z.leb_gt; unfold cutoff; lia).
        replace (n / 10 * 10 + n mod 10) with n
          by (pose proof (Z.div_mod n 10); lia).
        replace (uint64_max <? n) with false; [reflexivity |].
        symmetry. apply Z.ltb_ge. exact Hmax.
      * split; [apply Z.div_pos; lia |].
        apply Z.div_lt_upper_bound; [lia |].
        rewrite Nat2Z.inj_succ, Z.pow_succ_r in Hn by lia. lia.
      * pose proof (Z.div_le_upper_bound n 10 n). 
        assert (n / 10 <= n) by (apply Z.div_le_upper_bound; lia). lia.
Qed.

Lemma format_digits_head (fuel : nat) :
  forall n acc, 0 <= n ->
    exists c rest d,
      format_digits (S fuel) n acc = String c rest /\ digit_of c = Some d.
Proof.
  induction fuel as [| fuel IH]; intros n acc Hn.
  - cbn [format_digits].
    assert (Hmod : 0 <= n mod 10 <= 9) by (pose proof (Z.mod_pos_bound n 10); lia).
    destruct (n <? 10); eexists _, _, _; split; try reflexivity;
      apply digit_of_digit_char; exact Hmod.
  - remember (S fuel) as f eqn:Hf.
    cbn [format_digits].
    assert (Hmod : 0 <= n mod 10 <= 9) by (pose proof (Z.mod_pos_bound n 10); lia).
    destruct (n <? 10).
    + eexists _, _, _; split; [reflexivity |].
      apply digit_of_digit_char; exact Hmod.
    + subst f. apply IH. apply Z.div_pos; lia.
Qed.

Lemma ParseUint_format_digits (n : Z) :
  0 <= n <= uint64_max -> ParseUint (format_digits 20 n "") = Some n.
Proof.
  intros Hn.
  destruct (format_digits_head 19 n "") as (c & rest & d & Heq & _); [lia |].
  unfold ParseUint. rewrite Heq.
  change (parse_uint_loop (String c rest) 0 = Some n).
  rewrite <- Heq, parse_format_digits; [reflexivity | | lia].
  unfold uint64_max in Hn. change (Z.of_nat 20) with 20. lia.
Qed.

(** Reading back what [FormatInt] wrote. *)
Lemma ParseInt_FormatInt (n : Z) :
  in_int64 n = true -> ParseInt (FormatInt n) = Some n.
Proof.
  unfold in_int64, int64_min, int64_max.
  intros H. apply andb_prop in H as [Hlo Hhi].
  apply Z.leb_le in Hlo. apply Z.leb_le in Hhi.
  unfold FormatInt.
  destruct (n <? 0) eqn:Hneg.
  - apply Z.ltb_lt in Hneg.
    cbn [ParseInt].
    replace (Ascii.eqb "-" "+") with false by reflexivity.
    replace (Ascii.eqb "-" "-") with true by reflexivity.
    rewrite ParseUint_format_digits by (unfold uint64_max; lia).
    cbn [negb andb].
    replace (2 ^ 63 <? - n) with false by (symmetry; apply Z.ltb_ge; lia).
    f_equal. lia.
  - apply Z.ltb_ge in Hneg.
    destruct (format_digits_head 19 n "") as (c & rest & d & Heq & Hd);
      [lia |].
    pose proof (ParseUint_format_digits n) as Hparse.
    rewrite Heq in *.
    apply digit_not_sign in Hd as [Hplus Hminus].
    cbn [ParseInt]. rewrite Hplus, Hminus.
    rewrite Hparse by (unfold uint64_max; lia).
    cbn [negb andb].
    replace (2 ^ 63 <=? n) with false by (symmetry; apply Z.leb_gt; lia).
    reflexivity.
Qed.

Lemma parse_uint_loop_all_digits (s : string) :
  forall n v, parse_uint_loop s n = Some v -> all_digits s = true.
Proof.
  induction s as [| c rest IH]; intros n v H; [reflexivity |].
  cbn [parse_uint_loop all_digits] in *.
  destruct (digit_of c); [| discriminate].
  destruct (cutoff <=? n); [discriminate |].
  destruct (uint64_max <? n * 10 + z); [discriminate |].
  eapply IH; eassumption.
Qed.

Lemma ParseUint_numeric (s : string) (v : Z) :
  ParseUint s = Some v -> nonempty s = true /\ all_digits s = true.
Proof.
  destruct s as [| c rest]; [discriminate |].
  unfold ParseUint. intros H. split; [reflexivity |].
  eapply parse_uint_loop_all_digits; eassumption.
Qed.

(** Only a signed decimal numeral is parsed. *)
Lemma ParseInt_not_numeric (s : string) :
  numeric s = false -> ParseInt s = None.
Proof.
  destruct s as [| c rest]; [reflexivity |].
  intros Hnum. cbn [ParseInt numeric] in *.
  destruct (Ascii.eqb c "+") eqn:Hplus; cbn [orb] in Hnum.
  - destruct (ParseUint rest) eqn:Hp; [| reflexivity].
    apply ParseUint_numeric in Hp as [Hne Hall].
    rewrite Hne, Hall in Hnum. discriminate.
  - destruct (Ascii.eqb c "-") eqn:Hminus.
    + destruct (ParseUint rest) eqn:Hp; [| reflexivity].
      apply ParseUint_numeric in Hp as [Hne Hall].
      rewrite Hne, Hall in Hnum. discriminate.
    + destruct (ParseUint (String c rest)) eqn:Hp; [| reflexivity].
      apply ParseUint_numeric in Hp as [_ Hall].
      rewrite Hall in Hnum. discriminate.
Qed.
End StrconvFacts.

Module Float64Facts.
Import Float64.

Lemma trunc_denotes (f : spec_float) (n : Z) :
  denotes f n -> trunc f = Some n.
Proof.
  destruct f as [s | s | | s m e]; simpl; try contradiction.
  - intros ->. reflexivity.
  - destruct (0 <=? e) eqn:He.
    + intros ->. f_equal. destruct s; lia.
    + apply Z.leb_gt in He. intros [Hm Hn].
      assert (Hpow : 0 < 2 ^ (- e)) by (apply Z.pow_pos_nonneg; lia).
      rewrite Hm, Z.div_mul by lia.
      f_equal. destruct s; lia.
Qed.

Lemma to_int64_denotes {platform : Platform} (f : spec_float) (n : Z) :
  denotes f n -> in_int64 n = true -> to_int64 unrepresentable f = n.
Proof.
  intros Hd Hn. unfold to_int64.
  rewrite (trunc_denotes f n Hd), Hn. reflexivity.
Qed.
End Float64Facts.

(** ** Request ids *)

(** C5. A response id that is the integer [n] (as an [int64] or an [int]),
    a [float64] whose value is [n], or the decimal string of [n], matches the
    request issued with id [n]; a nil id and a string that is not a decimal
    numeral match no request id. *)
Theorem isMatchingID_across_representations
  {platform : Platform} (n : Z) (Hn : in_int64 n = true) :
  isMatchingID (IDInt64 n) n = true /\
  isMatchingID (IDInt n) n = true /\
  (forall f, Float64.denotes f n -> isMatchingID (IDFloat64 f) n = true) /\
  isMatchingID (IDString (Strconv.FormatInt n)) n = true /\
  (forall requestID, isMatchingID IDNil requestID = false) /\
  (forall s requestID,
      Strconv.numeric s = false -> isMatchingID (IDString s) requestID = false).
Proof.
  repeat split.
  - apply Z.eqb_refl.
  - apply Z.eqb_refl.
  - intros f Hf. cbn [isMatchingID].
    rewrite (Float64Facts.to_int64_denotes f n Hf Hn). apply Z.eqb_refl.
  - cbn [isMatchingID].
    rewrite (StrconvFacts.ParseInt_FormatInt n Hn). apply Z.eqb_refl.
  - intros s requestID Hs. cbn [isMatchingID].
    rewrite (StrconvFacts.ParseInt_not_numeric s Hs). reflexivity.
Qed.

Lemma isMatchingID_across_representations_witness :
  in_int64 2 = true /\
  isMatchingID (platform := amd64) (IDFloat64 float64_two) 2 = true /\
  isMatchingID (platform := amd64) (IDString "2") 2 = true /\
  isMatchingID (platform := amd64) (IDString "two") 2 = false.
Proof.
  pose proof (isMatchingID_across_representations (platform := amd64) 2
                eq_refl) as (_ & _ & Hfloat & Hstring & _ & Hbad).
  split; [reflexivity |].
  split; [apply Hfloat; vm_compute; split; reflexivity |].
  split; [exact Hstring |].
  apply Hbad. reflexivity.
Defined.

(** ** The engine *)

Section EngineFacts.
Context {mcp : Mcp} {codec : Codec} {platform : Platform}.
Context {T : Type} {tr : Transport.Interface T}.
Variable ErrNotConnected : error.

Import Client.

(** C3. Each list, call, read and get operation invoked on a session that
    is not initialized returns the not-initialized error and leaves the
    client, its transport included, exactly as it was: no method of the
    transport is called. *)
Theorem not_initialized_stays_local
  (c : Client T) (ctx : Ctx) (cursor name uri : string) (args : Arguments)
  (Hinit : initialized c = false) :
  ListTools ctx c = Returns (Err "client not initialized") c /\
  ListToolsWithCursor ctx cursor c = Returns (Err "client not initialized") c /\
  CallTool ctx name args c = Returns (Err "client not initialized") c /\
  ListResources ctx c = Returns (Err "client not initialized") c /\
  ReadResource ctx uri c = Returns (Err "client not initialized") c /\
  ListPrompts ctx c = Returns (Err "client not initialized") c /\
  GetPrompt ctx name args c = Returns (Err "client not initialized") c.
Proof.
  unfold ListTools, ListToolsWithCursor, CallTool, ListResources,
    ReadResource, ListPrompts, GetPrompt, IsInitialized.
  rewrite Hinit. cbn [negb]. repeat split.
Qed.

Lemma sameSession_refl (c : Client T) : sameSession c c.
Proof. repeat split. Qed.

Lemma sameSession_trans (c1 c2 c3 : Client T) :
  sameSession c1 c2 -> sameSession c2 c3 -> sameSession c1 c3.
Proof.
  unfold sameSession. intros (? & ? & ? & ? & ? & ?) (? & ? & ? & ? & ? & ?).
  repeat split; congruence.
Qed.

Lemma receiveTurn_cases (id : Z) (c : Client T) :
  match receiveTurn id c with
  | Matched response c' =>
      sameSession c c' /\ isMatchingID (ID response) id = true /\
      Transport.Receive (transport c) = Transport.RecvMsg response (transport c')
  | Skipped c' =>
      sameSession c c' /\
      exists m, isMatchingID (ID m) id = false /\
                Transport.Receive (transport c) = Transport.RecvMsg m (transport c')
  | Failed e c' =>
      connected c' = false /\ initialized c' = false /\
      exists err, e = wrapf "failed to receive response: " err /\
                  Transport.Receive (transport c) = Transport.RecvErr err (transport c')
  | Blocked => Transport.Receive (transport c) = Transport.RecvBlocks
  end.
Proof.
  unfold receiveTurn.
  destruct (Transport.Receive (transport c)) as [m t' | err t' |].
  - destruct (isMatchingID (ID m) id) eqn:Hid.
    + repeat split; assumption.
    + split; [repeat split |]. exists m. split; [assumption | reflexivity].
  - repeat split. exists err. split; reflexivity.
  - reflexivity.
Qed.

(** A response handed back by the loop carries the awaited id, and the
    session is as it was when the wait began. *)
Lemma awaitResponse_ok (ctx : Ctx) :
  forall id (c : Client T) response c',
    awaitResponse ctx id c = Returns (Ok response) c' ->
    sameSession c c' /\ isMatchingID (ID response) id = true.
Proof.
  induction ctx as [| ctx IH]; intros id c response c' H.
  - discriminate.
  - cbn [awaitResponse] in H.
    pose proof (receiveTurn_cases id c) as Hturn.
    destruct (receiveTurn id c) as [m c1 | c1 | e c1 |].
    + injection H as -> ->. destruct Hturn as (Hs & Hid & _). auto.
    + destruct Hturn as (Hs & _).
      apply IH in H as [Hs' Hid].
      split; [eapply sameSession_trans; eassumption | assumption].
    + discriminate.
    + discriminate.
Qed.

Lemma sendRequest_ok (ctx : Ctx) (method : string) (params : option Payload)
  (c : Client T) (response : Message) (c' : Client T) :
  sendRequest ctx method params c = Returns (Ok response) c' ->
  connected c' = connected c /\ initialized c' = initialized c /\
  requestID c' = wrap64 (requestID c + 1) /\
  isMatchingID (ID response) (wrap64 (requestID c + 1)) = true.
Proof.
  unfold sendRequest, issueRequest. cbn [transport timeout].
  destruct (negb (Transport.IsConnected (transport c))); [discriminate |].
  destruct (Transport.Send _ (transport c)) as [t' [err |]]; [discriminate |].
  intros H. apply awaitResponse_ok in H as [(Hc & Hi & _ & _ & Hr & _) Hid].
  cbn in Hc, Hi, Hr. auto.
Qed.

(** A failed [Send] of a request and a failed [Receive] both mark the
    client disconnected and not initialized. *)
Lemma issueRequest_send_error (method : string) (params : option Payload)
  (c : Client T) (t' : T) (err : error) :
  Transport.IsConnected (transport c) = true ->
  Transport.Send (NewRequest (wrap64 (requestID c + 1)) method params)
                 (transport c) = (t', Some err) ->
  exists c',
    issueRequest method params c
    = (inr (wrapf "failed to send request: " err), c') /\
    connected c' = false /\ initialized c' = false.
Proof.
  intros Hconn Hsend. unfold issueRequest. cbn [transport].
  rewrite Hconn, Hsend. cbn [negb].
  eexists. repeat split.
Qed.

Lemma awaitResponse_receive_error (ctx : Ctx) (id : Z) (c : Client T)
  (t' : T) (err : error) :
  Transport.Receive (transport c) = Transport.RecvErr err t' ->
  exists c',
    awaitResponse (S ctx) id c
    = Returns (Err (wrapf "failed to receive response: " err)) c' /\
    connected c' = false /\ initialized c' = false.
Proof.
  intros Hrecv. cbn [awaitResponse]. unfold receiveTurn. rewrite Hrecv.
  eexists. repeat split.
Qed.

(** A [Receive] that blocks keeps the loop from ever polling the context
    again: no deadline ends the wait. *)
Lemma awaitResponse_blocked (ctx : Ctx) (id : Z) (c : Client T) :
  Transport.Receive (transport c) = Transport.RecvBlocks ->
  awaitResponse (S ctx) id c = Hangs.
Proof.
  intros Hrecv. cbn [awaitResponse]. unfold receiveTurn. rewrite Hrecv.
  reflexivity.
Qed.

(** A caller that reads the response to another caller's request drops
    it: the message is consumed from the transport and kept nowhere. *)
Lemma receiveTurn_drops_foreign_response (mine : Z) (c : Client T)
  (m : Message) (t' : T) :
  Transport.Receive (transport c) = Transport.RecvMsg m t' ->
  isMatchingID (ID m) mine = false ->
  receiveTurn mine c = Skipped (withTransport t' c).
Proof.
  intros Hrecv Hid. unfold receiveTurn. rewrite Hrecv, Hid. reflexivity.
Qed.

(** C10. [Initialize] records the server's info and capabilities and sets
    [initialized] before it sends the [initialized] notification; when
    that send fails, [Initialize] returns the error and the session stays
    connected and initialized, with the server's info and capabilities
    retained. *)
Theorem Initialize_notification_failure_keeps_session
  (ctx : Ctx) (info : ClientInfo) (c c1 : Client T) (response : Message)
  (initResponse : InitializeResponse) (t2 : T) (err : error)
  (Hconn : connected c = true)
  (Hreq : sendRequest ctx "initialize"
            (Some (Struct (InitializeRequest ProtocolVersion info))) c
          = Returns (Ok response) c1)
  (Hnoerr : Error response = None)
  (Hparse : parseResult decodeInitialize (Result response) = Ok initResponse)
  (Hsend : Transport.Send (NewNotification "notifications/initialized" None)
                          (transport c1) = (t2, Some err)) :
  exists c',
    Initialize ErrNotConnected ctx info c
    = Returns (Err (wrapf "failed to send initialized notification: " err)) c' /\
    connected c' = true /\
    initialized c' = true /\
    serverInfo c' = Some (InitServerInfo initResponse) /\
    serverCapabilities c' = Some (InitCapabilities initResponse) /\
    transport c' = t2.
Proof.
  unfold Initialize, IsConnected.
  rewrite Hconn. cbn [negb]. rewrite Hreq, Hnoerr, Hparse.
  cbn [transport]. rewrite Hsend.
  eexists. split; [reflexivity |].
  apply sendRequest_ok in Hreq as (Hc & _).
  cbn. repeat split. congruence.
Qed.

(** The scheduler model agrees with the sequential code: a caller that
    runs alone ends as [sendRequest] does. *)
Lemma run_solo_await (ctx : Ctx) :
  forall id (c : Client T) r c',
    awaitResponse ctx id c = Returns r c' ->
    exists n,
      run (repeat 0%nat n) {| shared := c; callers := [Waiting ctx id] |}
      = {| shared := c'; callers := [Finished r] |}.
Proof.
  induction ctx as [| ctx IH]; intros id c r c' H.
  - injection H as <- <-. exists 1%nat. reflexivity.
  - cbn [awaitResponse] in H.
    destruct (receiveTurn id c) as [m c1 | c1 | e c1 |] eqn:Hturn.
    + injection H as <- <-. exists 1%nat.
      cbn. rewrite Hturn. reflexivity.
    + destruct (IH id c1 r c' H) as [n Hn].
      exists (S n). cbn [repeat run]. unfold step at 1.
      cbn [callers nth_error shared stepCaller]. rewrite Hturn.
      cbn [replace]. exact Hn.
    + injection H as <- <-. exists 1%nat.
      cbn. rewrite Hturn. reflexivity.
    + discriminate.
Qed.

Lemma run_solo (ctx : Ctx) (method : string) (params : option Payload)
  (c : Client T) (r : result Message) (c' : Client T) :
  sendRequest ctx method params c = Returns r c' ->
  exists n,
    run (repeat 0%nat n)
        {| shared := c; callers := [Calling ctx method params] |}
    = {| shared := c'; callers := [Finished r] |}.
Proof.
  unfold sendRequest. intros H.
  destruct (issueRequest method params c) as [[id | err] c1] eqn:Hissue.
  - destruct (run_solo_await _ _ _ _ _ H) as [n Hn].
    exists (S n). cbn [repeat run]. unfold step at 1.
    cbn [callers nth_error shared stepCaller]. rewrite Hissue.
    cbn [replace]. exact Hn.
  - injection H as <- <-. exists 1%nat.
    cbn. rewrite Hissue. reflexivity.
Qed.
End EngineFacts.

(** ** What reaches the transport *)

Section WireFacts.
Context {mcp : Mcp} {codec : Codec} {platform : Platform}.
Context {T : Type} {tr : Transport.Interface T}.
Variable ErrNotConnected : error.

Import Client.

Local Abbreviation sentOn c := (Traced.sent (Traced.calls (transport c))).

Lemma sent_app (xs ys : list Traced.Call) :
  Traced.sent (xs ++ ys) = (Traced.sent xs ++ Traced.sent ys)%list.
Proof.
  induction xs as [| x xs IH]; [reflexivity |].
  destruct x; cbn [Traced.sent app]; rewrite IH; reflexivity.
Qed.

(** Waiting for a response sends nothing. *)
Lemma awaitResponse_sends_nothing (ctx : Ctx) :
  forall id (c : Client (Traced.t T)) r c',
    awaitResponse ctx id c = Returns r c' -> sentOn c' = sentOn c.
Proof.
  induction ctx as [| ctx IH]; intros id c r c' H.
  - injection H as <- <-. reflexivity.
  - cbn [awaitResponse] in H. unfold receiveTurn in H.
    cbn [Transport.Receive Traced.transport] in H. unfold Traced.Receive in H.
    destruct (Transport.Receive (Traced.inner (transport c)))
      as [m i | err i |].
    + destruct (isMatchingID (ID m) id).
      * injection H as <- <-. cbn. rewrite sent_app, app_nil_r. reflexivity.
      * apply IH in H. rewrite H. cbn. rewrite sent_app, app_nil_r.
        reflexivity.
    + injection H as <- <-. cbn. rewrite sent_app, app_nil_r. reflexivity.
    + discriminate.
Qed.

(** A request that goes out is one message on the transport: the
    request, with the next id. *)
Lemma sendRequest_sends_once (ctx : Ctx) (method : string)
  (params : option Payload) (c : Client (Traced.t T)) r c' :
  Transport.IsConnected (transport c) = true ->
  sendRequest ctx method params c = Returns r c' ->
  sentOn c'
  = (sentOn c ++ [NewRequest (wrap64 (requestID c + 1)) method params])%list.
Proof.
  intros Hconn. unfold sendRequest, issueRequest. cbn [transport].
  rewrite Hconn. cbn [negb].
  cbn [Transport.Send Traced.transport]. unfold Traced.logged.
  destruct (Transport.Send _ (Traced.inner (transport c))) as [i [err |]];
    cbn [fst snd].
  - intros H. injection H as <- <-. cbn. rewrite sent_app. reflexivity.
  - intros H. apply awaitResponse_sends_nothing in H. rewrite H.
    cbn. rewrite sent_app. reflexivity.
Qed.

(** [ListToolsWithCursor], and so [ListTools], sends one request whatever
    the response says about further pages. *)
Lemma ListToolsWithCursor_sends_once (ctx : Ctx) (cursor : string)
  (c : Client (Traced.t T)) r c' :
  initialized c = true ->
  Transport.IsConnected (transport c) = true ->
  ListToolsWithCursor ctx cursor c = Returns r c' ->
  sentOn c'
  = (sentOn c
     ++ [NewRequest (wrap64 (requestID c + 1)) "tools/list"
           (Some (Struct (ListToolsRequest cursor)))])%list.
Proof.
  intros Hinit Hlive. unfold ListToolsWithCursor, IsInitialized, exchange.
  rewrite Hinit. cbn [negb].
  destruct (sendRequest ctx "tools/list" _ c) as [[response | err] c1 |]
    eqn:Hreq; [| | discriminate];
    apply (sendRequest_sends_once _ _ _ _ _ _ Hlive) in Hreq.
  - destruct (Error response);
      [| destruct (parseResult decodeListTools (Result response))];
      intros H; injection H as <- <-; exact Hreq.
  - intros H; injection H as <- <-; exact Hreq.
Qed.

(** C7, as the code has it. [Initialize] does not look at [initialized]:
    on a connected client whose transport is connected, every call that
    returns has sent a new handshake request, with the next request id,
    over the transport, whether or not the session was initialized
    already. *)
Theorem Initialize_always_sends_handshake
  (ctx : Ctx) (info : ClientInfo) (c : Client (Traced.t T))
  (r : result unit) (c' : Client (Traced.t T))
  (Hconn : connected c = true)
  (Hlive : Transport.IsConnected (transport c) = true)
  (Hret : Initialize ErrNotConnected ctx info c = Returns r c') :
  exists rest,
    sentOn c'
    = (sentOn c
       ++ NewRequest (wrap64 (requestID c + 1)) "initialize"
            (Some (Struct (InitializeRequest ProtocolVersion info)))
       :: rest)%list.
Proof.
  unfold Initialize, IsConnected in Hret. rewrite Hconn in Hret.
  cbn [negb] in Hret.
  destruct (sendRequest ctx "initialize" _ c) as [[response | err] c1 |]
    eqn:Hreq; [| | discriminate];
    apply (sendRequest_sends_once _ _ _ _ _ _ Hlive) in Hreq.
  - destruct (Error response) as [rpc |].
    + injection Hret as <- <-. exists []. exact Hreq.
    + destruct (parseResult decodeInitialize (Result response))
        as [initResponse | err].
      * cbn [transport Transport.Send Traced.transport] in Hret.
        unfold Traced.logged in Hret.
        destruct (Transport.Send _ (Traced.inner (transport c1)))
          as [i [err |]]; cbn [fst snd] in Hret;
          injection Hret as <- <-; cbn;
          rewrite sent_app, Hreq, <- app_assoc; cbn;
          eexists; reflexivity.
      * injection Hret as <- <-. exists []. exact Hreq.
  - injection Hret as <- <-. exists []. exact Hreq.
Qed.
End WireFacts.

(** On the recording transport the log of calls stays empty. *)
Lemma not_initialized_stays_local_witness :
  let c := Fixture.connectedClient Fixture.handshake in
  Client.initialized c = false /\
  Client.CallTool 30%nat "add" [] c
  = Client.Returns (Err "client not initialized") c /\
  Traced.sent (Traced.calls (Client.transport c)) = [] /\
  Fixture.seen c = [].
Proof.
  intros c. split; [reflexivity |].
  split.
  - apply (not_initialized_stays_local c 30%nat "" "add" "" [] eq_refl).
  - split; reflexivity.
Defined.

(** ** The engine at work: concrete sessions *)

Section Scenarios.
Import Client Fixture.

Lemma Initialize_notification_failure_keeps_session_witness :
  exists c',
    Initialize ErrNotConnected 30%nat clientInfo
               (connectedClient brokenHandshake)
    = Returns
        (Err ("failed to send initialized notification: "
              ++ "failed to send request: connection reset by peer")) c' /\
    connected c' = true /\ initialized c' = true /\
    serverInfo c' = Some server.
Proof.
  edestruct (Initialize_notification_failure_keeps_session ErrNotConnected
               30%nat clientInfo (connectedClient brokenHandshake))
    as (c' & Hret & Hconn & Hinit & Hinfo & _).
  - reflexivity.
  - reflexivity.
  - reflexivity.
  - reflexivity.
  - reflexivity.
  - exists c'. repeat split; assumption.
Defined.

(** C6, at the input where the code departs from it. The peer answers the
    handshake request and its connection then breaks: the [Send] of the
    notification returns an I/O error, [Initialize] returns it, and the
    session is left connected and initialized. The next operation is not
    stopped locally: it goes to the wire and only then fails. *)
Theorem Initialize_send_error_leaves_session_alive :
  exists c' c'',
    Initialize ErrNotConnected 30%nat clientInfo
               (connectedClient brokenHandshake)
    = Returns
        (Err ("failed to send initialized notification: "
              ++ "failed to send request: connection reset by peer")) c' /\
    connected c' = true /\ initialized c' = true /\
    ListTools 30%nat c'
    = Returns
        (Err ("list tools request failed: failed to send request: "
              ++ "failed to send request: connection refused")) c'' /\
    List.length (seen c'') = S (List.length (seen c')) /\
    connected c'' = false /\ initialized c'' = false.
Proof.
  eexists. eexists.
  split; [vm_compute; reflexivity |].
  split; [reflexivity |]. split; [reflexivity |].
  split; [vm_compute; reflexivity |].
  split; [reflexivity |]. split; reflexivity.
Qed.

(** C7 fails on the code: on an initialized session a second [Initialize]
    sends a second handshake request. *)
Lemma Initialize_twice_resends : ~ doesNotResend (established twice).
Proof.
  unfold doesNotResend. intros H.
  specialize (H eq_refl 30%nat clientInfo).
  destruct (Initialize ErrNotConnected 30%nat clientInfo (established twice))
    as [r c' |] eqn:Hret; [| vm_compute in Hret; discriminate].
  specialize (H r c' eq_refl).
  vm_compute in Hret. injection Hret as <- <-.
  vm_compute in H. discriminate.
Qed.

Lemma Initialize_always_sends_handshake_witness :
  initialized (established twice) = true /\
  exists c' rest,
    Initialize ErrNotConnected 30%nat clientInfo (established twice)
    = Returns (Ok tt) c' /\
    sentBy c'
    = (sentBy (established twice)
       ++ NewRequest 2 "initialize"
            (Some (Struct (InitializeRequest ProtocolVersion clientInfo)))
       :: rest)%list.
Proof.
  split; [reflexivity |].
  destruct (Initialize ErrNotConnected 30%nat clientInfo (established twice))
    as [r c' |] eqn:Hret; [| vm_compute in Hret; discriminate].
  assert (Hconn : connected (established twice) = true) by reflexivity.
  assert (Hlive : Transport.IsConnected (transport (established twice))
                  = true) by reflexivity.
  destruct (Initialize_always_sends_handshake ErrNotConnected 30%nat
              clientInfo (established twice) r c' Hconn Hlive Hret)
    as [rest Hsent].
  assert (Hr : r = Ok tt)
    by (vm_compute in Hret; injection Hret as <- _; reflexivity).
  subst r. exists c', rest. split; [reflexivity | exact Hsent].
Defined.

(** C2, at the input where the code departs from it. The peer serves six
    tools in three pages. [ListTools] sends one request, with no cursor,
    and returns the two tools of the first page although that page names
    a next cursor; the other two pages are never asked for. *)
Theorem ListTools_returns_first_page_only :
  initialized (established paginated) = true /\
  decodeListTools page1
  = Ok {| Tools := ["add"; "subtract"]; NextCursor := "page-2" |} /\
  exists c',
    ListTools 30%nat (established paginated)
    = Returns (Ok ["add"; "subtract"]) c' /\
    listings (sentBy c')
    = [NewRequest 2 "tools/list" (Some (Struct (ListToolsRequest "")))] /\
    unasked c' = [Scripted.ok "" "tools#3/2"; Scripted.ok "" "tools#4/3"].
Proof.
  split; [reflexivity |]. split; [reflexivity |].
  eexists. split; [vm_compute; reflexivity |].
  split; reflexivity.
Qed.

(** C4, at the inputs where the code departs from it. The peer accepts the
    request and never delivers a response. On the streaming HTTP transport,
    whatever the deadline [S ctx], the operation returns the error of
    [Receive], not a timeout, and marks the session disconnected and not
    initialized, so that the next operation is refused. On a stream, where
    [Receive] blocks, the operation never returns, whatever the deadline. *)
Theorem silent_peer_is_not_a_timeout :
  initialized (established silent) = true /\
  initialized (onPipe []) = true /\
  forall ctx : Ctx,
    (exists c',
        ListTools (S ctx) (established silent)
        = Returns
            (Err ("list tools request failed: "
                  ++ "failed to receive response: no response available")) c' /\
        connected c' = false /\ initialized c' = false /\
        ListTools (S ctx) c' = Returns (Err "client not initialized") c') /\
    ListTools (S ctx) (onPipe []) = Hangs.
Proof.
  split; [vm_compute; reflexivity |]. split; [vm_compute; reflexivity |].
  intros ctx.
  split.
  - eexists. split; [vm_compute; reflexivity |].
    split; [reflexivity |]. split; reflexivity.
  - vm_compute. reflexivity.
Qed.

Lemma blocked_pool_is_stuck (p : Pool (T := Pipe.t)) :
  (forall i, step i p = p) -> forall schedule, run schedule p = p.
Proof.
  intros Hstep schedule.
  induction schedule as [| i rest IH]; [reflexivity |].
  cbn [run]. rewrite Hstep. exact IH.
Qed.

(** C1, at the inputs where the code departs from it. Two goroutines call
    [sendRequest] on one client; the peer answers each request with the
    matching response. On the streaming HTTP transport, run one after the
    other, each caller gets its own response; interleaved, the first caller
    reads the response to the second and drops it, and neither caller gets
    a response. On a stream on which the two responses arrive in the order
    3, 2, the caller of request 2 reads the response to request 3 and drops
    it, then gets its own; the caller of request 3 waits from then on,
    whatever the schedule. *)
Theorem concurrent_callers_lose_responses :
  let p := twoCallers (established answering) in
  let q := run [0; 1; 0; 0]%nat (twoCallers (onPipe outOfOrder)) in
  callers (run [0; 0; 1; 1]%nat p)
  = [Finished (Ok (response float64_two (VText "two")));
     Finished (Ok (response float64_three (VText "three")))] /\
  callers (run [0; 1; 0; 0; 1]%nat p)
  = [Finished (Err "failed to receive response: no response available");
     Finished (Err "failed to receive response: no response available")] /\
  unasked (shared (run [0; 1; 0; 0; 1]%nat p)) = [] /\
  callers q
  = [Finished (Ok (response float64_two (VText "two"))); Waiting 30%nat 3] /\
  Pipe.inbox (transport (shared q)) = [] /\
  forall schedule, run schedule q = q.
Proof.
  intros p q.
  split; [vm_compute; reflexivity |]. split; [vm_compute; reflexivity |].
  split; [vm_compute; reflexivity |]. split; [vm_compute; reflexivity |].
  split; [vm_compute; reflexivity |].
  apply blocked_pool_is_stuck.
  intros [| [| [| i]]]; vm_compute; reflexivity.
Qed.
End Scenarios.

(** ** The streaming HTTP transport *)

Section StreamingFacts.
Context {mcp : Mcp} {wire : Wire}.
Context {N : Type} {http : HTTP.Client N}.

Import StreamingHTTPTransport.

(** [Receive] leaves the endpoint and the session token alone. *)
Lemma Receive_keeps_session (h : t N) :
  match Receive h with
  | Transport.RecvMsg _ h' | Transport.RecvErr _ h' =>
      baseURL h' = baseURL h /\ endpoint h' = endpoint h /\
      sessionID h' = sessionID h /\ connected h' = connected h
  | Transport.RecvBlocks => False
  end.
Proof.
  unfold Receive.
  destruct (connected h) eqn:Hconn; cbn [negb];
    [| rewrite Hconn; repeat split].
  destruct (lastResponse h); cbn; rewrite Hconn; repeat split.
Qed.

Lemma buildRequest_shape (h : t N) (data : string) :
  HTTP.checkURL (N := N) (baseURL h ++ endpoint h) = None ->
  exists req,
    buildRequest h data = Ok req /\
    HTTP.ReqMethod req = "POST" /\
    HTTP.URL req = baseURL h ++ endpoint h /\
    HTTP.ReqBody req = Some data /\
    HTTP.Get (HTTP.ReqHeader req) "Mcp-Session-Id" = sessionID h.
Proof.
  intros Hurl. unfold buildRequest, HTTP.NewRequest. rewrite Hurl.
  destruct (String.eqb (sessionID h) "") eqn:Hsid.
  - eexists. split; [reflexivity |]. cbn.
    apply String.eqb_eq in Hsid. rewrite Hsid. repeat split.
  - eexists. split; [reflexivity |]. cbn. repeat split.
Qed.

(** C9, with the case in which the code departs from it. A [Send] on the
    connected transport POSTs the encoded message to the one endpoint
    [baseURL ++ endpoint], with the session token held so far as the
    [Mcp-Session-Id] header (no header while there is none). When the
    exchange succeeds, a token in
    the response header replaces the one held, and an absent one leaves
    it; endpoint and connection are unchanged, so the same holds of every
    later [Send]. When the response has a body that decodes, the [Send]
    succeeds and the next [Receive] returns that message and empties the
    buffer. But when the response has an empty body, the [Send] succeeds
    and leaves the buffer as it was: the next [Receive] then hands out
    the response buffered by an earlier [Send], which is not the body of
    the most recent POST response. *)
Theorem streaming_receive_after_empty_body
  (h : t N) (m : Message) (data : string)
  (Hconn : connected h = true)
  (Hdata : Marshal m = Ok data)
  (Hurl : HTTP.checkURL (N := N) (baseURL h ++ endpoint h) = None) :
  exists req,
    buildRequest h data = Ok req /\
    HTTP.ReqMethod req = "POST" /\
    HTTP.URL req = baseURL h ++ endpoint h /\
    HTTP.ReqBody req = Some data /\
    HTTP.Get (HTTP.ReqHeader req) "Mcp-Session-Id" = sessionID h /\
    forall n' resp,
      HTTP.Do req (client h) = (n', Ok resp) ->
      let h' := fst (Send m h) in
      let token := HTTP.Get (HTTP.RespHeader resp) "Mcp-Session-Id" in
      client h' = n' /\
      baseURL h' = baseURL h /\ endpoint h' = endpoint h /\
      connected h' = true /\
      sessionID h' = (if String.eqb token "" then sessionID h else token) /\
      (forall body response,
          HTTP.ReadAll (HTTP.RespBody resp) = Ok body ->
          body <> "" ->
          Unmarshal body = Ok response ->
          snd (Send m h) = None /\
          lastResponse h' = Some response /\
          exists h'',
            Receive h' = Transport.RecvMsg response h'' /\
            lastResponse h'' = None /\ sessionID h'' = sessionID h') /\
      (HTTP.ReadAll (HTTP.RespBody resp) = Ok "" ->
       snd (Send m h) = None /\
       lastResponse h' = lastResponse h /\
       forall older,
         lastResponse h = Some older ->
         exists h'',
           Receive h' = Transport.RecvMsg older h'' /\
           lastResponse h'' = None /\ sessionID h'' = sessionID h').
Proof.
  destruct (buildRequest_shape h data Hurl)
    as (req & Hreq & Hmeth & Hu & Hbody & Hhdr).
  exists req. repeat (split; [assumption |]).
  intros n' resp Hdo. unfold Send.
  rewrite Hconn, Hdata, Hreq, Hdo. cbn [negb].
  set (token := HTTP.Get (HTTP.RespHeader resp) "Mcp-Session-Id").
  set (h1 := if String.eqb token "" then withClient n' h
             else withSessionID token (withClient n' h)).
  assert (Hfields :
    client h1 = n' /\ baseURL h1 = baseURL h /\ endpoint h1 = endpoint h /\
    connected h1 = true /\
    sessionID h1 = (if String.eqb token "" then sessionID h else token) /\
    lastResponse h1 = lastResponse h).
  { subst h1. destruct (String.eqb token ""); cbn; rewrite Hconn;
      repeat split. }
  destruct Hfields as (Hc1 & Hb1 & He1 & Hconn1 & Hs1 & Hl1).
  assert (Hreceive :
    forall (h2 : t N) response,
      connected h2 = true -> lastResponse h2 = Some response ->
      exists h'',
        Receive h2 = Transport.RecvMsg response h'' /\
        lastResponse h'' = None /\ sessionID h'' = sessionID h2).
  { intros h2 response Hconn2 Hlast2. unfold Receive.
    rewrite Hconn2, Hlast2. cbn [negb].
    eexists. split; [reflexivity |]. split; reflexivity. }
  destruct (HTTP.ReadAll (HTTP.RespBody resp)) as [body | err].
  - destruct (String.length body =? 0)%nat eqn:Hlen.
    + cbn [fst snd]. repeat (split; [assumption |]). split.
      * intros body' response [= <-] Hne _.
        destruct body; [contradiction | discriminate].
      * intros _. split; [reflexivity |]. split; [exact Hl1 |].
        intros older Hold. apply Hreceive; [exact Hconn1 | congruence].
    + destruct (Unmarshal body) as [response | err] eqn:Hun; cbn [fst snd].
      * cbn. repeat (split; [assumption |]). split.
        -- intros body' response' [= <-] _ Hun'.
           rewrite Hun in Hun'. injection Hun' as <-.
           split; [reflexivity |]. split; [reflexivity |].
           apply (Hreceive (withLastResponse (Some response) h1));
             [exact Hconn1 | reflexivity].
        -- intros [= ->]. discriminate.
      * repeat (split; [assumption |]). split.
        -- intros body' response' [= <-] _ Hun'. congruence.
        -- intros [= ->]. discriminate.
  - cbn [fst snd]. repeat (split; [assumption |]). split.
    + intros body response Hread. discriminate.
    + intros Hread. discriminate.
Qed.
End StreamingFacts.

Lemma streaming_receive_after_empty_body_witness :
  let h := fst (StreamingHTTPTransport.Send Fixture.handshakeRequest
                  Fixture.streaming) in
  let h' := fst (StreamingHTTPTransport.Send Cases.initializedNotification h) in
  StreamingHTTPTransport.connected h = true /\
  StreamingHTTPTransport.sessionID h = "session-1" /\
  StreamingHTTPTransport.lastResponse h
  = Some (Fixture.response float64_one (Fixture.VInit Fixture.server)) /\
  StreamingHTTPTransport.Send Cases.initializedNotification h = (h', None) /\
  List.map HTTP.ReqBody (Scripted.requests (StreamingHTTPTransport.client h'))
  = [Some "initialize"; Some "notifications/initialized"] /\
  List.map HTTP.URL (Scripted.requests (StreamingHTTPTransport.client h'))
  = ["http://localhost:8811/mcp"; "http://localhost:8811/mcp"] /\
  exists h'',
    StreamingHTTPTransport.Receive h'
    = Transport.RecvMsg
        (Fixture.response float64_one (Fixture.VInit Fixture.server)) h'' /\
    StreamingHTTPTransport.lastResponse h'' = None.
Proof.
  intros h h'.
  assert (Hconn : StreamingHTTPTransport.connected h = true) by reflexivity.
  assert (Hdata : Marshal Cases.initializedNotification
                  = Ok "notifications/initialized") by reflexivity.
  assert (Hurl : HTTP.checkURL (N := Scripted.t)
                   (StreamingHTTPTransport.baseURL h
                    ++ StreamingHTTPTransport.endpoint h) = None)
    by reflexivity.
  destruct (streaming_receive_after_empty_body h Cases.initializedNotification
              "notifications/initialized" Hconn Hdata Hurl)
    as (req & Hreq & _ & _ & _ & _ & Hsend).
  injection Hreq as <-.
  edestruct Hsend as (_ & _ & _ & _ & _ & _ & Hempty); [reflexivity |].
  destruct Hempty as (Herr & _ & Hstale); [reflexivity |].
  destruct (Hstale
              (Fixture.response float64_one (Fixture.VInit Fixture.server)))
    as (h'' & Hrecv & Hnone & _); [reflexivity |].
  split; [exact Hconn |]. split; [reflexivity |]. split; [reflexivity |].
  split.
  { unfold h'. rewrite (surjective_pairing (StreamingHTTPTransport.Send _ h)).
    rewrite Herr. reflexivity. }
  split; [reflexivity |]. split; [reflexivity |].
  exists h''. split; [exact Hrecv | exact Hnone].
Defined.

(** ** The reader of a response body and [bufio.Scanner] *)

Section ReaderFacts.
Local Open Scope nat_scope.
Import HTTP.

Lemma length_append (a b : string) :
  String.length (a ++ b) = String.length a + String.length b.
Proof. induction a as [| c a IH]; cbn; [reflexivity | rewrite IH; reflexivity]. Qed.

Lemma append_nil_r (a : string) : a ++ "" = a.
Proof. induction a as [| c a IH]; cbn; [reflexivity | rewrite IH; reflexivity]. Qed.

Lemma append_assoc (a b c : string) : (a ++ b) ++ c = a ++ b ++ c.
Proof. induction a as [| x a IH]; cbn; [reflexivity | rewrite IH; reflexivity]. Qed.

Lemma length_zero (a : string) : String.length a = 0 -> a = "".
Proof. destruct a; [reflexivity | discriminate]. Qed.

Lemma splitAt_spec (k : nat) (s : string) :
  fst (splitAt k s) ++ snd (splitAt k s) = s /\
  String.length (fst (splitAt k s)) = Nat.min k (String.length s).
Proof.
  revert s. induction k as [| k IH]; intros s.
  - destruct s; cbn; split; reflexivity.
  - destruct s as [| c s]; cbn; [split; reflexivity |].
    specialize (IH s). destruct (splitAt k s) as [front back].
    cbn in *. destruct IH as [-> ->]. split; reflexivity.
Qed.

Lemma take_spec (k : nat) (pieces : list string) :
  join pieces = fst (take k pieces) ++ join (snd (take k pieces)) /\
  String.length (fst (take k pieces)) <= k /\
  (0 < k -> fst (take k pieces) = "" -> snd (take k pieces) = []).
Proof.
  induction pieces as [| piece rest IH]; cbn [take join].
  - cbn. repeat split; lia.
  - destruct (String.length piece =? 0) eqn:Hempty.
    + apply Nat.eqb_eq, length_zero in Hempty. subst piece. exact IH.
    + apply Nat.eqb_neq in Hempty.
      destruct (String.length piece <=? k) eqn:Hfits.
      * apply Nat.leb_le in Hfits. cbn [fst snd]. repeat split; [assumption |].
        intros _ ->. contradiction.
      * apply Nat.leb_gt in Hfits.
        destruct (splitAt_spec k piece) as [Happ Hlen].
        destruct (splitAt k piece) as [front back]. cbn [fst snd] in *.
        repeat split.
        -- cbn [join]. rewrite <- append_assoc, Happ. reflexivity.
        -- lia.
        -- intros Hk ->. cbn in Hlen. lia.
Qed.

Lemma join_nil_content (b : Body) : chunks b = [] -> content b = "".
Proof. unfold content. intros ->. reflexivity. Qed.

Lemma Read_spec (k : nat) (b : Body) :
  let '(data, e, b') := Read k b in
  content b = data ++ content b' /\
  String.length data <= k /\
  failure b' = failure b /\
  (e <> None -> data = "" /\ chunks b' = []) /\
  (0 < k -> e = None -> data <> "").
Proof.
  unfold Read, content.
  destruct (take_spec k (chunks b)) as (Hjoin & Hlen & Hend).
  destruct (take k (chunks b)) as [data rest]. cbn [fst snd] in *.
  destruct rest as [| piece rest].
  - destruct data as [| c data]; cbn [chunks failure];
      repeat split; try assumption; try congruence.
  - cbn [chunks failure]. repeat split; try assumption; try congruence.
    intros Hk _ Hdata. specialize (Hend Hk Hdata). discriminate.
Qed.
End ReaderFacts.

Section ScannerFacts.
Local Open Scope nat_scope.
Import HTTP Bufio.

Lemma cutLine_spec (data line after : string) :
  cutLine data = Some (line, after) ->
  data = line ++ newline ++ after /\ cutLine line = None.
Proof.
  revert line after. induction data as [| c data IH]; intros line after;
    cbn [cutLine]; [discriminate |].
  destruct (Ascii.eqb c (ascii_of_nat 10)) eqn:Hc.
  - intros [= <- <-]. apply Ascii.eqb_eq in Hc. subst c. split; reflexivity.
  - destruct (cutLine data) as [[line' after'] |]; [| discriminate].
    intros [= <- <-]. destruct (IH _ _ eq_refl) as [-> Hnone].
    split; [reflexivity |]. cbn [cutLine]. rewrite Hc, Hnone. reflexivity.
Qed.

Lemma scanLines_line (line : string) :
  cutLine line = None ->
  forall cur after,
    scanLines cur (line ++ newline ++ after)
    = dropCR (cur ++ line) :: scanLines "" after.
Proof.
  induction line as [| c line IH]; intros Hnone cur after.
  - cbn. rewrite append_nil_r. reflexivity.
  - cbn [cutLine] in Hnone.
    destruct (Ascii.eqb c (ascii_of_nat 10)) eqn:Hc; [discriminate |].
    destruct (cutLine line) as [[? ?] |] eqn:Hline; [discriminate |].
    cbn [append scanLines]. rewrite Hc.
    rewrite (IH eq_refl). rewrite append_assoc. reflexivity.
Qed.

Lemma scanLines_last (line : string) :
  cutLine line = None ->
  forall cur,
    scanLines cur line
    = match cur ++ line with "" => [] | _ => [dropCR (cur ++ line)] end.
Proof.
  induction line as [| c line IH]; intros Hnone cur.
  - cbn. rewrite append_nil_r. reflexivity.
  - cbn [cutLine] in Hnone.
    destruct (Ascii.eqb c (ascii_of_nat 10)) eqn:Hc; [discriminate |].
    destruct (cutLine line) as [[? ?] |] eqn:Hline; [discriminate |].
    cbn [scanLines]. rewrite Hc. rewrite (IH eq_refl).
    rewrite append_assoc. reflexivity.
Qed.

Lemma drop_app (a b : string) : drop (String.length a) (a ++ b) = b.
Proof.
  induction a as [| c a IH]; cbn; [destruct b; reflexivity | exact IH].
Qed.

Lemma drop_all (a : string) : drop (String.length a) a = "".
Proof. rewrite <- (append_nil_r a) at 2. apply drop_app. Qed.

Lemma drop_line (line after : string) :
  drop (S (String.length line)) (line ++ newline ++ after) = after.
Proof.
  induction line as [| c line IH]; cbn; [destruct after; reflexivity |].
  exact IH.
Qed.

Lemma advance_0 (s : Scanner) : advance 0 s = s.
Proof.
  destruct s. unfold advance. cbn. rewrite Nat.add_0_r. reflexivity.
Qed.

Lemma fill_spec (s : Scanner) :
  err s = None -> end_ s < size s ->
  wf (fill s) /\ text (fill s) = text s /\
  failure (r (fill s)) = failure (r s) /\ roundsLeft (fill s) < roundsLeft s /\
  size (fill s) = size s.
Proof.
  intros Herr Hroom. unfold fill.
  pose proof (Read_spec (size s - end_ s) (r s)) as Hread.
  destruct (Read (size s - end_ s) (r s)) as [[data e] b].
  destruct Hread as (Hcontent & Hlen & Hfail & Hend & Hsome).
  unfold wf, text, roundsLeft, stopped, end_ in *.
  destruct e as [e |].
  - destruct Hend as [-> Hnil]; [discriminate |].
    cbn. rewrite Herr. cbn. rewrite Hcontent, append_nil_r.
    cbn [append]. repeat split; try assumption; try lia.
    intros _. exact Hnil.
  - cbn. rewrite Herr. rewrite Hcontent, append_assoc.
    assert (Hdata : data <> "") by (apply Hsome; [lia | reflexivity]).
    rewrite !length_append.
    assert (0 < String.length data)
      by (destruct data; [contradiction | cbn; lia]).
    repeat split; try assumption; try lia; try congruence.
Qed.

Lemma split_spec (s : Scanner) :
  wf s ->
  match split s with
  | (s', Some line) =>
      wf s' /\ r s' = r s /\
      scanLines "" (text s) = line :: scanLines "" (text s') /\
      String.length (text s') < String.length (text s)
  | (s', None) => s' = s
  end.
Proof.
  intros [Hend Hclosed]. unfold split.
  destruct (negb (String.length (held s) =? 0) || stopped s) eqn:Hsplit;
    [| reflexivity].
  unfold ScanLines.
  destruct (stopped s && (String.length (held s) =? 0)) eqn:Hdone;
    [apply advance_0 |].
  destruct (cutLine (held s)) as [[line after] |] eqn:Hcut.
  - (* a line that ends in a newline *)
    destruct (cutLine_spec _ _ _ Hcut) as [Hheld Hline].
    unfold wf, text, end_, advance in *. cbn [r size start held err].
    rewrite Hheld, drop_line. rewrite Hheld in Hend.
    rewrite !append_assoc, !length_append in *. cbn [append] in *.
    rewrite (scanLines_line line Hline "" (after ++ content (r s))).
    cbn in *. repeat split; try assumption; lia.
  - destruct (stopped s) eqn:Hstop; [| apply advance_0].
    (* the last line, at the end of the data *)
    cbn [andb] in Hdone. apply Nat.eqb_neq in Hdone.
    assert (Hnil : chunks (r s) = []).
    { apply Hclosed. unfold stopped in Hstop.
      destruct (err s); [discriminate | discriminate]. }
    unfold wf, text, end_, advance in *. cbn [r size start held err].
    rewrite drop_all, (join_nil_content _ Hnil), append_nil_r.
    rewrite (scanLines_last _ Hcut "").
    destruct (held s) as [| c rest]; [contradiction |].
    cbn in *. repeat split; try assumption; lia.
Qed.

Lemma makeRoom_spec (s : Scanner) :
  wf s ->
  match makeRoom s with
  | (s', room) =>
      r s' = r s /\ held s' = held s /\ err s' = err s /\
      if room then end_ s' < size s'
      else MaxScanTokenSize <= String.length (held s)
  end.
Proof.
  intros [Hend _]. unfold makeRoom.
  set (s1 := if (0 <? start s)
                && ((end_ s =? size s) || (size s / 2 <? start s))
             then shift s else s).
  assert (H1 : r s1 = r s /\ held s1 = held s /\ err s1 = err s /\
               size s1 = size s /\ end_ s1 <= size s1 /\
               (end_ s1 = size s1 -> start s1 = 0)).
  { subst s1.
    destruct ((0 <? start s)
              && ((end_ s =? size s) || (size s / 2 <? start s))) eqn:Hshift.
    - unfold end_, shift in *. cbn. repeat split; lia.
    - repeat split; [assumption |]. intros Hfull.
      apply andb_false_iff in Hshift. destruct Hshift as [Hstart | Hcond].
      + apply Nat.ltb_ge in Hstart. lia.
      + apply orb_false_iff in Hcond. destruct Hcond as [Hne _].
        apply Nat.eqb_neq in Hne. contradiction. }
  clearbody s1. destruct H1 as (Hr & Hheld & Herr & Hsize & Hend1 & Hfull).
  destruct (end_ s1 =? size s1) eqn:Hfull1.
  - apply Nat.eqb_eq in Hfull1. specialize (Hfull Hfull1).
    unfold end_ in *. rewrite Hfull in *. cbn [Nat.add] in *.
    destruct (MaxScanTokenSize <=? size s1) eqn:Hmax.
    + apply Nat.leb_le in Hmax. repeat split; try assumption.
      rewrite <- Hheld. lia.
    + apply Nat.leb_gt in Hmax. unfold grow. cbn [r size start held err].
      repeat split; try assumption.
      unfold MaxScanTokenSize, startBufSize in *. cbn [Nat.add].
      destruct (size s1 * 2 =? 0) eqn:Hz.
      * apply Nat.eqb_eq in Hz. apply Nat.min_glb_lt; lia.
      * apply Nat.eqb_neq in Hz. apply Nat.min_glb_lt; lia.
  - apply Nat.eqb_neq in Hfull1. repeat split; try assumption. lia.
Qed.

Lemma scan_spec (rounds : nat) :
  forall s, wf s -> roundsLeft s < rounds ->
  exists s' token,
    scan rounds s = Some (s', token) /\
    failure (r s') = failure (r s) /\
    match token with
    | Some line =>
        wf s' /\
        scanLines "" (text s) = line :: scanLines "" (text s') /\
        String.length (text s') < String.length (text s)
    | None =>
        chunks (r s') = [] \/ MaxScanTokenSize <= String.length (text s)
    end.
Proof.
  induction rounds as [| rounds IH]; intros s Hwf Hleft; [lia |].
  cbn [scan]. pose proof (split_spec s Hwf) as Hsplit.
  destruct (split s) as [s0 [line |]].
  - destruct Hsplit as (Hwf0 & Hr0 & Hlines & Hlen).
    exists s0, (Some line). rewrite Hr0.
    split; [reflexivity |]. split; [reflexivity |].
    split; [exact Hwf0 |]. split; assumption.
  - subst s0. destruct (stopped s) eqn:Hstop.
    + eexists _, None. split; [reflexivity |]. split; [reflexivity |].
      left. cbn. apply Hwf. unfold stopped in Hstop.
      destruct (err s); [discriminate | discriminate].
    + assert (Herr : err s = None)
        by (unfold stopped in Hstop; destruct (err s);
            [discriminate | reflexivity]).
      pose proof (makeRoom_spec s Hwf) as Hroom.
      destruct (makeRoom s) as [s1 room].
      destruct Hroom as (Hr1 & Hheld1 & Herr1 & Hroom).
      assert (Htext1 : text s1 = text s)
        by (unfold text; rewrite Hr1, Hheld1; reflexivity).
      destruct room.
      * rewrite Herr in Herr1.
        destruct (fill_spec s1 Herr1 Hroom)
          as (Hwf2 & Htext2 & Hfail2 & Hleft2 & _).
        assert (Hleft1 : roundsLeft s1 = roundsLeft s)
          by (unfold roundsLeft, stopped; rewrite Hr1, Herr1, Herr; reflexivity).
        destruct (IH (fill s1) Hwf2) as (s' & token & Hscan & Hfail' & Htok);
          [lia |].
        exists s', token. split; [exact Hscan |].
        split; [congruence |].
        rewrite Htext2, Htext1 in Htok. exact Htok.
      * eexists _, None. split; [reflexivity |].
        split; [cbn; rewrite Hr1; reflexivity |]. right.
        unfold text. rewrite length_append. lia.
Qed.

Lemma NewScanner_wf (b : Body) : wf (NewScanner b).
Proof. split; [cbn; lia | intros H; contradiction H; reflexivity]. Qed.

(** [Scan] returns: the rounds it is given are enough for the loop. *)
Lemma scan_returns (s : Scanner) :
  wf s -> scan (S (S (String.length (content (r s))))) s = Some (Scan s).
Proof.
  intros Hwf. unfold Scan.
  destruct (scan_spec (S (S (String.length (content (r s))))) s Hwf)
    as (s' & token & -> & _); [| reflexivity].
  unfold roundsLeft. destruct (stopped s); lia.
Qed.

(** What [Scan] returns: a line is the first of the lines of the bytes
    not handed out, and the others are left; without a line the body is
    at its end, or there are [MaxScanTokenSize] bytes or more. *)
Lemma Scan_spec (s : Scanner) :
  wf s ->
  match Scan s with
  | (s', token) =>
      failure (r s') = failure (r s) /\
      match token with
      | Some line =>
          wf s' /\
          scanLines "" (text s) = line :: scanLines "" (text s') /\
          String.length (text s') < String.length (text s)
      | None =>
          chunks (r s') = [] \/ MaxScanTokenSize <= String.length (text s)
      end
  end.
Proof.
  intros Hwf. unfold Scan.
  destruct (scan_spec (S (S (String.length (content (r s))))) s Hwf)
    as (s' & token & -> & Hspec).
  - unfold roundsLeft. destruct (stopped s); lia.
  - exact Hspec.
Qed.

(** A line held in the buffer is handed out without a [Read]. *)
Lemma Scan_held (s : Scanner) (line after : string) :
  held s = line ++ newline ++ after ->
  cutLine line = None ->
  Scan s
  = ({| r := r s; size := size s; start := start s + S (String.length line);
        held := after; err := err s |}, Some (dropCR line)).
Proof.
  intros Hheld Hline.
  assert (Hcut : cutLine (held s) = Some (line, after)).
  { rewrite Hheld. clear Hheld.
    induction line as [| c line IH]; [reflexivity |].
    cbn [cutLine] in Hline.
    destruct (Ascii.eqb c (ascii_of_nat 10)) eqn:Hc; [discriminate |].
    destruct (cutLine line) as [[? ?] |]; [discriminate |].
    cbn [append cutLine]. rewrite Hc, (IH eq_refl). reflexivity. }
  unfold Scan. cbn [scan]. unfold split, ScanLines. rewrite Hcut.
  assert (Hlen : (String.length (held s) =? 0) = false).
  { rewrite Hheld, length_append. cbn. apply Nat.eqb_neq. lia. }
  rewrite Hlen, andb_false_r. cbn [negb orb].
  unfold advance. rewrite Hheld, drop_line. reflexivity.
Qed.

Lemma min_sizes : Nat.min startBufSize MaxScanTokenSize = startBufSize.
Proof. reflexivity. Qed.

(** The first [Scan] of a scanner reads the first piece of the body, whole
    when it fits the first buffer, and hands out its first line. *)
Lemma Scan_first (b : Body) (more : list string) (line after : string) :
  chunks b = (line ++ newline ++ after) :: more ->
  String.length (line ++ newline ++ after) <= startBufSize ->
  cutLine line = None ->
  Scan (NewScanner b)
  = ({| r := {| chunks := more; failure := failure b |};
        size := startBufSize; start := S (String.length line);
        held := after; err := None |}, Some (dropCR line)).
Proof.
  intros Hchunks Hfits Hline.
  set (piece := line ++ newline ++ after) in *.
  assert (Hpiece : (String.length piece =? 0) = false).
  { subst piece. rewrite length_append. cbn. apply Nat.eqb_neq. lia. }
  assert (Hroom :
    makeRoom (NewScanner b)
    = ({| r := b; size := startBufSize; start := 0; held := "";
          err := None |}, true)) by reflexivity.
  assert (Hfill :
    fill {| r := b; size := startBufSize; start := 0; held := "";
            err := None |}
    = {| r := {| chunks := more; failure := failure b |};
         size := startBufSize; start := 0; held := piece; err := None |}).
  { unfold fill, end_, Read.
    cbn [start held size r err String.length Nat.add].
    rewrite Nat.sub_0_r, Hchunks. cbn [take]. rewrite Hpiece.
    apply Nat.leb_le in Hfits. rewrite Hfits.
    destruct piece as [| c piece]; [discriminate |].
    destruct more; reflexivity. }
  unfold Scan. cbn [scan]. unfold split at 1.
  cbn [NewScanner held stopped err String.length Nat.eqb negb orb].
  change {| r := b; size := 0; start := 0; held := ""; err := None |}
    with (NewScanner b).
  rewrite Hroom, Hfill.
  unfold split, ScanLines. cbn [held stopped err negb orb andb].
  rewrite Hpiece. cbn [negb orb].
  assert (Hcut : cutLine piece = Some (line, after)).
  { subst piece. clear - Hline.
    induction line as [| c line IH]; [reflexivity |].
    cbn [cutLine] in Hline.
    destruct (Ascii.eqb c (ascii_of_nat 10)) eqn:Hc; [discriminate |].
    destruct (cutLine line) as [[? ?] |]; [discriminate |].
    cbn [append cutLine]. rewrite Hc, (IH eq_refl). reflexivity. }
  rewrite Hcut. unfold advance. cbn [r size start held err].
  subst piece. rewrite drop_line. reflexivity.
Qed.

Section Seeking.
Context {A : Type} (body : string -> option A).

(** The loop returns, and what it returns comes from a line of the bytes
    not handed out; what it leaves of a body of less than
    [MaxScanTokenSize] bytes when it finds nothing is the end. *)
Lemma seek_spec (rounds : nat) :
  forall s, wf s -> String.length (text s) < rounds ->
  exists s' found,
    seek body rounds s = Some (s', found) /\
    failure (r s') = failure (r s) /\
    match found with
    | Some a =>
        exists line, In line (scanLines "" (text s)) /\ body line = Some a
    | None =>
        chunks (r s') = [] \/ MaxScanTokenSize <= String.length (text s)
    end.
Proof.
  induction rounds as [| rounds IH]; intros s Hwf Hlen; [lia |].
  cbn [seek]. pose proof (Scan_spec s Hwf) as Hscan.
  destruct (Scan s) as [s1 [line |]].
  - destruct Hscan as (Hfail & Hwf1 & Hlines & Hshorter).
    destruct (body line) as [a |] eqn:Hbody.
    + exists s1, (Some a). split; [reflexivity |]. split; [exact Hfail |].
      exists line. rewrite Hlines. split; [left; reflexivity | exact Hbody].
    + destruct (IH s1 Hwf1) as (s' & found & Hseek & Hfail' & Hfound);
        [lia |].
      exists s', found. split; [exact Hseek |].
      split; [congruence |]. destruct found as [a |].
      * destruct Hfound as (l & Hin & Hl). exists l.
        rewrite Hlines. split; [right; exact Hin | exact Hl].
      * destruct Hfound as [Hnil | Hlong]; [left; exact Hnil | right; lia].
  - destruct Hscan as (Hfail & Hend).
    exists s1, None. split; [reflexivity |]. split; assumption.
Qed.

Lemma seek_returns (s : Scanner) :
  wf s -> seek body (S (String.length (text s))) s = Some (Seek body s).
Proof.
  intros Hwf. unfold Seek.
  destruct (seek_spec (S (String.length (text s))) s Hwf)
    as (s' & found & -> & _); [lia | reflexivity].
Qed.

Lemma Seek_spec (s : Scanner) :
  wf s ->
  match Seek body s with
  | (s', found) =>
      failure (r s') = failure (r s) /\
      match found with
      | Some a =>
          exists line, In line (scanLines "" (text s)) /\ body line = Some a
      | None =>
          chunks (r s') = [] \/ MaxScanTokenSize <= String.length (text s)
      end
  end.
Proof.
  intros Hwf. unfold Seek.
  destruct (seek_spec (S (String.length (text s))) s Hwf)
    as (s' & found & -> & Hspec); [lia | exact Hspec].
Qed.

Lemma length_unlines (pre : list string) :
  List.length pre <= String.length (unlines pre).
Proof.
  induction pre as [| l pre IH]; cbn [unlines List.length]; [lia |].
  rewrite !length_append. cbn. lia.
Qed.

(** Lines held in the buffer: the loop passes over those without a result
    and returns at the first with one, without a [Read]. *)
Lemma seek_held (pre : list string) (line after : string) (a : A) :
  Forall (fun l => cutLine l = None /\ body (dropCR l) = None) pre ->
  cutLine line = None ->
  body (dropCR line) = Some a ->
  forall rounds s,
    List.length pre < rounds ->
    held s = unlines pre ++ line ++ newline ++ after ->
    exists s',
      seek body rounds s = Some (s', Some a) /\
      r s' = r s /\ held s' = after.
Proof.
  intros Hpre Hline Hbody.
  induction Hpre as [| l pre [Hl Hskip] _ IH]; intros rounds s Hrounds Hheld;
    (destruct rounds as [| rounds]; [cbn in Hrounds; lia |]); cbn [seek].
  - cbn [unlines append] in Hheld.
    rewrite (Scan_held s line after Hheld Hline), Hbody.
    eexists. split; [reflexivity |]. split; reflexivity.
  - cbn [unlines] in Hheld. rewrite !append_assoc in Hheld.
    rewrite (Scan_held s l _ Hheld Hl), Hskip.
    cbn [List.length] in Hrounds.
    edestruct (IH rounds) as (s' & Hseek & Hr & Hafter);
      [lia | | exists s'; split; [exact Hseek |]; split; [exact Hr | exact Hafter]].
    reflexivity.
Qed.

(** The same from a new scanner, when the lines come in the first piece
    of the body and the piece fits the first buffer: what follows them in
    the piece stays in the buffer, and the body is left at its next
    piece. *)
Lemma Seek_first (b : Body) (pre : list string) (line after : string)
  (more : list string) (a : A) :
  chunks b = (unlines pre ++ line ++ newline ++ after) :: more ->
  String.length (unlines pre ++ line ++ newline ++ after) <= startBufSize ->
  Forall (fun l => cutLine l = None /\ body (dropCR l) = None) pre ->
  cutLine line = None ->
  body (dropCR line) = Some a ->
  exists s',
    Seek body (NewScanner b) = (s', Some a) /\
    r s' = {| chunks := more; failure := failure b |} /\
    held s' = after.
Proof.
  intros Hchunks Hfits Hpre Hline Hbody. unfold Seek. cbn [seek].
  destruct Hpre as [| l pre [Hl Hskip] Hpre].
  - cbn [unlines append] in *.
    rewrite (Scan_first b more line after Hchunks Hfits Hline), Hbody.
    eexists. split; [reflexivity |]. split; reflexivity.
  - cbn [unlines] in *. rewrite !append_assoc in *.
    rewrite (Scan_first b more l _ Hchunks Hfits Hl), Hskip.
    destruct (seek_held pre line after a Hpre Hline Hbody
                (String.length (text (NewScanner b)))
                {| r := {| chunks := more; failure := failure b |};
                   size := startBufSize; start := S (String.length l);
                   held := unlines pre ++ line ++ newline ++ after;
                   err := None |})
      as (s' & Hseek & Hr & Hafter); [| reflexivity |].
    + unfold text, NewScanner, content. cbn [held r append].
      rewrite Hchunks. cbn [join]. rewrite !length_append.
      change (String.length newline) with 1.
      pose proof (length_unlines pre). lia.
    + rewrite Hseek. exists s'. split; [reflexivity |].
      split; [exact Hr | exact Hafter].
Qed.
End Seeking.

(** *** Lines beyond the largest buffer *)

Lemma cutLine_prefix (a b : string) :
  cutLine (a ++ b) = None -> cutLine a = None.
Proof.
  induction a as [| c a IH]; cbn [append cutLine]; [reflexivity |].
  destruct (Ascii.eqb c (ascii_of_nat 10)); [discriminate |].
  destruct (cutLine (a ++ b)) as [[? ?] |]; [discriminate |].
  intros _. rewrite (IH eq_refl). reflexivity.
Qed.

Lemma append_prefix (a x b y : string) :
  a ++ x = b ++ y -> String.length a <= String.length b ->
  exists d, b = a ++ d.
Proof.
  revert b. induction a as [| c a IH]; intros b Heq Hlen.
  - exists b. reflexivity.
  - destruct b as [| c' b]; [cbn in Hlen; lia |].
    cbn [append] in Heq. injection Heq as -> Heq.
    destruct (IH b Heq) as [d ->]; [cbn in Hlen; lia |].
    exists d. reflexivity.
Qed.

Lemma makeRoom_size (s : Scanner) :
  size s <= MaxScanTokenSize -> size (fst (makeRoom s)) <= MaxScanTokenSize.
Proof.
  intros Hsize. unfold makeRoom.
  set (s1 := if (0 <? start s)
                && ((end_ s =? size s) || (size s / 2 <? start s))
             then shift s else s).
  assert (H1 : size s1 = size s)
    by (subst s1; destruct ((0 <? start s) && _); reflexivity).
  destruct (end_ s1 =? size s1); [| cbn [fst]; lia].
  destruct (MaxScanTokenSize <=? size s1); cbn [fst]; [lia |].
  unfold grow. cbn [size]. apply Nat.le_min_r.
Qed.

Lemma fill_more (s : Scanner) :
  err s = None -> content (r s) <> "" -> err (fill s) = None.
Proof.
  intros Herr Hmore. unfold fill.
  pose proof (Read_spec (size s - end_ s) (r s)) as Hread.
  destruct (Read (size s - end_ s) (r s)) as [[data e] b].
  destruct Hread as (Hcontent & _ & _ & Hend & _).
  destruct e as [e |]; [| exact Herr].
  destruct Hend as [-> Hnil]; [discriminate |].
  rewrite Hcontent, (join_nil_content _ Hnil) in Hmore. contradiction.
Qed.

(** A line that does not end within [MaxScanTokenSize] bytes stops the
    scanner: [Scan] returns false, whatever follows. *)
Lemma scan_too_long (long rest : string) :
  cutLine long = None ->
  MaxScanTokenSize <= String.length long ->
  forall rounds s,
    wf s -> size s <= MaxScanTokenSize -> err s = None ->
    text s = long ++ rest -> roundsLeft s < rounds ->
    exists s', scan rounds s = Some (s', None).
Proof.
  intros Hline Hlong.
  induction rounds as [| rounds IH]; intros s Hwf Hsize Herr Htext Hleft;
    [lia |].
  assert (Hstop : stopped s = false) by (unfold stopped; rewrite Herr; reflexivity).
  assert (Hheld : String.length (held s) <= size s)
    by (destruct Hwf as [Hend _]; unfold end_ in Hend; lia).
  destruct (append_prefix (held s) (content (r s)) long rest Htext)
    as [d Hd]; [lia |].
  assert (Hcut : cutLine (held s) = None)
    by (apply (cutLine_prefix _ d); rewrite <- Hd; exact Hline).
  assert (Hsplit : split s = (s, None)).
  { unfold split, ScanLines. rewrite Hstop, Hcut. cbn [andb orb].
    destruct (negb (String.length (held s) =? 0));
      [rewrite advance_0 |]; reflexivity. }
  cbn [scan]. rewrite Hsplit, Hstop.
  pose proof (makeRoom_spec s Hwf) as Hroom.
  pose proof (makeRoom_size s Hsize) as Hsize1.
  destruct (makeRoom s) as [s1 room]. cbn [fst] in Hsize1.
  destruct Hroom as (Hr1 & Hheld1 & Herr1 & Hroom).
  destruct room; [| eexists; reflexivity].
  rewrite Herr in Herr1.
  destruct (fill_spec s1 Herr1 Hroom) as (Hwf2 & Htext2 & _ & Hleft2 & Hsize2).
  assert (Htext1 : text s1 = text s)
    by (unfold text; rewrite Hr1, Hheld1; reflexivity).
  apply IH.
  - exact Hwf2.
  - lia.
  - apply fill_more; [exact Herr1 |].
    intros Hnone. unfold end_ in Hroom.
    assert (Hlen : String.length (text s1) = String.length (held s1))
      by (unfold text; rewrite Hnone, append_nil_r; reflexivity).
    rewrite Htext1, Htext, length_append in Hlen. lia.
  - congruence.
  - assert (roundsLeft s1 = roundsLeft s)
      by (unfold roundsLeft, stopped; rewrite Hr1, Herr1, Herr; reflexivity).
    lia.
Qed.

Lemma Seek_too_long {A : Type} (body : string -> option A) (b : Body)
  (long rest : string) :
  content b = long ++ rest ->
  cutLine long = None ->
  MaxScanTokenSize <= String.length long ->
  exists s', Seek body (NewScanner b) = (s', None).
Proof.
  intros Hcontent Hline Hlong.
  destruct (scan_too_long long rest Hline Hlong
              (S (S (String.length (content b)))) (NewScanner b))
    as (s' & Hscan).
  - apply NewScanner_wf.
  - cbn. lia.
  - reflexivity.
  - exact Hcontent.
  - unfold roundsLeft. cbn. lia.
  - unfold Seek. cbn [seek]. unfold Scan.
    cbn [r NewScanner] in *. rewrite Hscan. eexists. reflexivity.
Qed.
End ScannerFacts.

(** ** The SSE transport *)

Section SSEFacts.
Context {mcp : Mcp} {wire : Wire}.
Context {N : Type} {http : HTTP.Client N}.

Import SSETransport.

Lemma eventLine_skipped (line : string) :
  skipped line <-> eventLine line = None.
Proof.
  unfold skipped, eventLine. destruct (hasDataPrefix line).
  - destruct (Unmarshal (TrimSpace (from6 line))) as [response | err].
    + split; [intros [H | [e H]]; discriminate | discriminate].
    + split; [reflexivity | intros _; right; exists err; reflexivity].
  - split; [reflexivity | intros _; left; reflexivity].
Qed.

(** A scanner on a body at its end finds nothing and leaves the body as
    it is. *)
Lemma Seek_at_end {A : Type} (body : string -> option A) (b : HTTP.Body) :
  HTTP.chunks b = [] ->
  exists scanner,
    Bufio.Seek body (Bufio.NewScanner b) = (scanner, None) /\
    Bufio.r scanner = b.
Proof.
  destruct b as [pieces failure]. cbn [HTTP.chunks]. intros ->.
  eexists. split; reflexivity.
Qed.

(** C8, with the cases in which the code departs from it. On the
    connected SSE transport, a [Send] of the handshake request on a
    transport that is not initialized opens the event stream with a GET
    on [baseURL ++ endpoint], takes the first
    line of the stream that starts with ["data: "] as the session
    endpoint, POSTs the handshake to [baseURL] followed by that endpoint
    and keeps the response of the GET, and a [Receive] returns the
    buffered response when there is one and empties the buffer. But the
    stream is read through a scanner that is dropped on return, and the
    bytes it has read ahead are dropped with it: of a piece of the stream
    read in one go, all that follows the endpoint line, or the event a
    [Receive] returns, is lost, whatever it is ([tail]). The next
    [Receive] with an empty buffer reads on from the next piece, and
    returns ["no response available"] when there is none. *)
Theorem sse_bytes_read_ahead_are_lost (h : t N) (Hconn : connected h = true) :
  (forall m data n1 resp pre line tail more n2 resp2 body buffered,
      initialized h = false ->
      Method m = "initialize" ->
      Marshal m = Ok data ->
      HTTP.checkURL (N := N) (baseURL h ++ endpoint h) = None ->
      HTTP.Do (openStream h) (client h) = (n1, Ok resp) ->
      let piece := Bufio.unlines pre ++ line ++ Bufio.newline ++ tail in
      HTTP.chunks (HTTP.RespBody resp) = piece :: more ->
      (String.length piece <= Bufio.startBufSize)%nat ->
      Forall (fun l => Bufio.cutLine l = None /\
                       hasDataPrefix (HTTP.dropCR l) = false) pre ->
      Bufio.cutLine line = None ->
      hasDataPrefix (HTTP.dropCR line) = true ->
      let url := baseURL h ++ TrimSpace (from6 (HTTP.dropCR line)) in
      HTTP.checkURL (N := N) url = None ->
      HTTP.Do (postTo url data) n1 = (n2, Ok resp2) ->
      HTTP.ReadAll (HTTP.RespBody resp2) = Ok body ->
      buffers body buffered ->
      exists h',
        Send m h = (h', None) /\
        sessionURL h' = url /\
        sseConnection h'
        = Some {| HTTP.StatusCode := HTTP.StatusCode resp;
                  HTTP.RespHeader := HTTP.RespHeader resp;
                  HTTP.RespBody :=
                    {| HTTP.chunks := more;
                       HTTP.failure := HTTP.failure (HTTP.RespBody resp) |}
               |} /\
        lastResponse h' = buffered /\
        client h' = n2 /\
        connected h' = true /\ initialized h' = true) /\
  (forall response,
      lastResponse h = Some response ->
      exists h',
        Receive h = Transport.RecvMsg response h' /\
        lastResponse h' = None /\
        sseConnection h' = sseConnection h /\
        sessionURL h' = sessionURL h /\ client h' = client h /\
        connected h' = true) /\
  (forall resp pre line tail more response,
      lastResponse h = None ->
      sseConnection h = Some resp ->
      let piece := Bufio.unlines pre ++ line ++ Bufio.newline ++ tail in
      HTTP.chunks (HTTP.RespBody resp) = piece :: more ->
      (String.length piece <= Bufio.startBufSize)%nat ->
      Forall (fun l => Bufio.cutLine l = None /\ skipped (HTTP.dropCR l))
             pre ->
      Bufio.cutLine line = None ->
      hasDataPrefix (HTTP.dropCR line) = true ->
      Unmarshal (TrimSpace (from6 (HTTP.dropCR line))) = Ok response ->
      exists h',
        Receive h = Transport.RecvMsg response h' /\
        sseConnection h'
        = Some {| HTTP.StatusCode := HTTP.StatusCode resp;
                  HTTP.RespHeader := HTTP.RespHeader resp;
                  HTTP.RespBody :=
                    {| HTTP.chunks := more;
                       HTTP.failure := HTTP.failure (HTTP.RespBody resp) |}
               |} /\
        lastResponse h' = None /\
        sessionURL h' = sessionURL h /\ client h' = client h /\
        connected h' = true) /\
  (forall resp,
      lastResponse h = None ->
      sseConnection h = Some resp ->
      HTTP.chunks (HTTP.RespBody resp) = [] ->
      Receive h = Transport.RecvErr "no response available" h).
Proof.
  split; [| split; [| split]].
  - intros m data n1 resp pre line tail more n2 resp2 body buffered
      Hinit Hmeth Hdata Hurl Hget piece Hchunks Hfits Hpre Hline Hprefix
      url Hurl2 Hpost Hread Hbuf.
    unfold Send. rewrite Hconn, Hmeth, Hinit. cbn [negb andb String.eqb].
    replace (String.eqb "initialize" "initialize") with true by reflexivity.
    cbn [andb].
    unfold sendInitializeRequest, HTTP.NewRequest. rewrite Hurl.
    change (HTTP.SetHeader "Accept" "text/event-stream" _)
      with (openStream h).
    rewrite Hget.
    destruct (Seek_first endpointLine (HTTP.RespBody resp) pre line tail more
                (TrimSpace (from6 (HTTP.dropCR line))))
      as (scanner & Hseek & Hr & _); try assumption.
    { apply (Forall_impl _ (P := fun l =>
               Bufio.cutLine l = None /\
               hasDataPrefix (HTTP.dropCR l) = false)); [| exact Hpre].
      intros l [Hl Hno]. split; [exact Hl |].
      unfold endpointLine. rewrite Hno. reflexivity. }
    { unfold endpointLine. rewrite Hprefix. reflexivity. }
    rewrite Hseek, Hr.
    unfold sendMessageToSession, HTTP.NewRequest.
    cbn [sessionURL baseURL client withClient].
    fold url. rewrite Hdata, Hurl2.
    change (HTTP.SetHeader "Content-Type" "application/json" _)
      with (postTo url data).
    rewrite Hpost, Hread.
    destruct buffered as [response |]; cbn [buffers] in Hbuf.
    + destruct Hbuf as [Hne Hdec].
      destruct body as [| a body]; [contradiction |].
      cbn [String.length Nat.eqb]. rewrite Hdec.
      eexists. split; [reflexivity |]. cbn. rewrite Hconn. repeat split.
    + subst body. cbn [String.length Nat.eqb].
      eexists. split; [reflexivity |]. cbn. rewrite Hconn. repeat split.
  - intros response Hlast. unfold Receive.
    rewrite Hconn, Hlast. cbn [negb].
    eexists. split; [reflexivity |]. cbn. rewrite Hconn. repeat split.
  - intros resp pre line tail more response Hlast Hstream piece Hchunks
      Hfits Hpre Hline Hprefix Hdec.
    unfold Receive. rewrite Hconn, Hlast, Hstream. cbn [negb].
    destruct (Seek_first eventLine (HTTP.RespBody resp) pre line tail more
                response)
      as (scanner & Hseek & Hr & _); try assumption.
    { apply (Forall_impl _ (P := fun l =>
               Bufio.cutLine l = None /\ skipped (HTTP.dropCR l)));
        [| exact Hpre].
      intros l [Hl Hskip]. split; [exact Hl |].
      apply eventLine_skipped. exact Hskip. }
    { unfold eventLine. rewrite Hprefix, Hdec. reflexivity. }
    rewrite Hseek, Hr.
    eexists. split; [reflexivity |]. cbn. rewrite Hlast, Hconn.
    repeat split.
  - intros resp Hlast Hstream Hchunks.
    unfold Receive. rewrite Hconn, Hlast, Hstream. cbn [negb].
    destruct (Seek_at_end eventLine (HTTP.RespBody resp) Hchunks)
      as (scanner & -> & ->).
    destruct h, resp. cbn in *. subst. reflexivity.
Qed.
End SSEFacts.

Lemma sse_bytes_read_ahead_are_lost_witness :
  let h := Fixture.sse in
  let h' := fst (SSETransport.Send Fixture.handshakeRequest h) in
  SSETransport.connected h = true /\
  SSETransport.Send Fixture.handshakeRequest h = (h', None) /\
  SSETransport.sessionURL h' = "http://localhost:8811/messages?session=abc" /\
  List.map HTTP.URL (Scripted.requests (SSETransport.client h'))
  = ["http://localhost:8811/sse";
     "http://localhost:8811/messages?session=abc"] /\
  SSETransport.lastResponse h' = None /\
  SSETransport.Receive h' = Transport.RecvErr "no response available" h' /\
  let b := fst (SSETransport.Send Fixture.handshakeRequest Fixture.sseAnswered) in
  (exists b',
      SSETransport.Receive b
      = Transport.RecvMsg
          (Fixture.response float64_one (Fixture.VInit Fixture.server)) b' /\
      SSETransport.lastResponse b' = None) /\
  exists p',
    SSETransport.Receive Fixture.ssePieces
    = Transport.RecvMsg
        (Fixture.response float64_one (Fixture.VText "one")) p' /\
    SSETransport.Receive p' = Transport.RecvErr "no response available" p'.
Proof.
  intros h h'.
  assert (Hconn : SSETransport.connected h = true) by reflexivity.
  assert (Hconn' : SSETransport.connected h' = true) by reflexivity.
  destruct (sse_bytes_read_ahead_are_lost h Hconn) as (Hsend & _).
  destruct (sse_bytes_read_ahead_are_lost h' Hconn') as (_ & _ & _ & Hended).
  split; [exact Hconn |].
  edestruct Hsend
    with (m := Fixture.handshakeRequest) (data := "initialize")
         (pre := ["event: endpoint"]) (line := "data: /messages?session=abc")
         (tail := (Fixture.LF ++ "event: message" ++ Fixture.LF
                   ++ "data: init#1" ++ Fixture.LF ++ Fixture.LF)%string)
         (more := @nil string)
         (body := "") (buffered := @None Message)
    as (h1 & Hh1 & Hurl & Hstream & Hlast & Hclient & _).
  - reflexivity.
  - reflexivity.
  - reflexivity.
  - reflexivity.
  - reflexivity.
  - reflexivity.
  - apply Nat.leb_le. vm_compute. reflexivity.
  - repeat constructor.
  - reflexivity.
  - reflexivity.
  - reflexivity.
  - reflexivity.
  - reflexivity.
  - reflexivity.
  - assert (Hh' : h1 = h') by (unfold h'; rewrite Hh1; reflexivity).
    subst h1.
    split; [exact Hh1 |]. split; [exact Hurl |].
    split; [rewrite Hclient; reflexivity |]. split; [exact Hlast |].
    split; [apply (Hended _ Hlast Hstream); reflexivity |].
    intros b. split.
    + assert (Hb : SSETransport.connected b = true) by reflexivity.
      destruct (sse_bytes_read_ahead_are_lost b Hb) as (_ & Hbuffered & _).
      destruct (Hbuffered
                  (Fixture.response float64_one (Fixture.VInit Fixture.server)))
        as (b' & Hrecv & Hnone & _); [reflexivity |].
      exists b'. split; [exact Hrecv | exact Hnone].
    + assert (Hp : SSETransport.connected Fixture.ssePieces = true)
        by reflexivity.
      destruct (sse_bytes_read_ahead_are_lost Fixture.ssePieces Hp)
        as (_ & _ & Hevent & _).
      edestruct Hevent
        with (pre := ["event: message"]) (line := "data: text#1")
             (tail := (Fixture.LF ++ "event: message" ++ Fixture.LF
                       ++ "data: text#2" ++ Fixture.LF ++ Fixture.LF)%string)
             (more := @nil string)
        as (p' & Hrecv & Hstream' & Hlast' & _ & _ & Hp').
      * reflexivity.
      * reflexivity.
      * reflexivity.
      * apply Nat.leb_le. vm_compute. reflexivity.
      * repeat constructor.
      * reflexivity.
      * reflexivity.
      * reflexivity.
      * exists p'. split; [exact Hrecv |].
        destruct (sse_bytes_read_ahead_are_lost p' Hp')
          as (_ & _ & _ & Hended').
        apply (Hended' _ Hlast' Hstream'). reflexivity.
Defined.

(** * Further properties of the engine *)

Section MatchingFacts.
Context {platform : Platform}.

Lemma isMatchingID_injective (responseID : Id) (n m : Z) :
  isMatchingID responseID n = true -> isMatchingID responseID m = true ->
  n = m.
Proof.
  destruct responseID as [| z | f | z | s |]; cbn [isMatchingID];
    try discriminate.
  - intros Hn Hm. apply Z.eqb_eq in Hn, Hm. congruence.
  - intros Hn Hm. apply Z.eqb_eq in Hn, Hm. congruence.
  - intros Hn Hm. apply Z.eqb_eq in Hn, Hm. congruence.
  - destruct (Strconv.ParseInt s) as [v |]; [| discriminate].
    intros Hn Hm. apply Z.eqb_eq in Hn, Hm. congruence.
Qed.

(** X1. A response id matches at most one request id, whatever its dynamic
    type. *)
Theorem isMatchingID_at_most_one_request (responseID : Id) (n m : Z) :
  isMatchingID responseID n = true -> isMatchingID responseID m = true ->
  n = m.
Proof.
  intros Hn Hm.
  destruct responseID as [| z | f | z | s |]; cbn [isMatchingID] in Hn, Hm;
    try discriminate.
  - apply Z.eqb_eq in Hn, Hm. congruence.
  - apply Z.eqb_eq in Hn, Hm. congruence.
  - apply Z.eqb_eq in Hn, Hm. congruence.
  - destruct (Strconv.ParseInt s) as [v |]; [| discriminate].
    apply Z.eqb_eq in Hn, Hm. congruence.
Qed.
End MatchingFacts.

Lemma isMatchingID_at_most_one_request_witness :
  isMatchingID (platform := amd64) (IDString "+007") 7 = true /\ 7 = 7.
Proof.
  assert (H : isMatchingID (platform := amd64) (IDString "+007") 7 = true)
    by reflexivity.
  split; [exact H |].
  exact (isMatchingID_at_most_one_request (platform := amd64) _ 7 7 H H).
Defined.

Lemma wrap64_succ (n : Z) :
  int64_min <= n < int64_max -> wrap64 (n + 1) = n + 1.
Proof.
  unfold wrap64, int64_min, int64_max. intros Hn.
  rewrite Z.mod_small by lia. lia.
Qed.

Section EngineMore.
Context {mcp : Mcp} {codec : Codec} {platform : Platform}.
Context {T : Type} {tr : Transport.Interface T}.
Variable ErrNotConnected : error.

Import Client.

(** X2. [Connect] on a connected client does nothing. A [Connect] that
    succeeds marks the client connected and changes nothing else of the
    session, and a second [Connect] is then a no-op; one that fails returns
    the transport's error behind ["failed to connect: "] and leaves the
    client not connected. *)
Theorem Connect_once (c : Client T) :
  (connected c = true -> Connect c = (Ok tt, c)) /\
  (forall c',
      Connect c = (Ok tt, c') ->
      connected c' = true /\ Connect c' = (Ok tt, c') /\
      initialized c' = initialized c /\ serverInfo c' = serverInfo c /\
      serverCapabilities c' = serverCapabilities c /\
      requestID c' = requestID c /\ timeout c' = timeout c /\
      (connected c = true /\ transport c' = transport c \/
       connected c = false /\
       Transport.Connect (transport c) = (transport c', None))) /\
  (forall e c',
      Connect c = (Err e, c') ->
      connected c = false /\ connected c' = false /\
      initialized c' = initialized c /\ serverInfo c' = serverInfo c /\
      serverCapabilities c' = serverCapabilities c /\
      requestID c' = requestID c /\ timeout c' = timeout c /\
      exists err,
        e = wrapf "failed to connect: " err /\
        Transport.Connect (transport c) = (transport c', Some err)).
Proof.
  unfold Connect.
  destruct (connected c) eqn:Hconn.
  - split; [reflexivity |]. split.
    + intros c' [= <-]. rewrite Hconn.
      repeat (split; [reflexivity |]). left. split; reflexivity.
    + intros e c' H. discriminate.
  - split; [discriminate |].
    destruct (Transport.Connect (transport c)) as [t' [err |]].
    + split; [intros c' H; discriminate |].
      intros e c' [= <- <-]. cbn. rewrite Hconn.
      repeat (split; [reflexivity |]). exists err. split; reflexivity.
    + split; [| intros e c' H; discriminate].
      intros c' [= <-]. cbn.
      repeat (split; [reflexivity |]). right. split; reflexivity.
Qed.

(** X3. [Disconnect] on a connected client closes the transport, returns
    what [Close] returned, and resets the session: not connected, not
    initialized, no server info or capabilities. The request counter is
    kept. Afterwards a second [Disconnect] does nothing, [Initialize] is
    refused with [ErrNotConnected] and the operations are refused as not
    initialized. *)
Theorem Disconnect_resets_session (c : Client T) (ctx : Ctx)
  (info : ClientInfo) (Hconn : connected c = true) :
  let c' := snd (Disconnect c) in
  fst (Disconnect c) = snd (Transport.Close (transport c)) /\
  transport c' = fst (Transport.Close (transport c)) /\
  connected c' = false /\ initialized c' = false /\
  serverInfo c' = None /\ serverCapabilities c' = None /\
  requestID c' = requestID c /\
  Disconnect c' = (None, c') /\
  Initialize ErrNotConnected ctx info c' = Returns (Err ErrNotConnected) c' /\
  ListTools ctx c' = Returns (Err "client not initialized") c'.
Proof.
  unfold Disconnect. rewrite Hconn. cbn [negb].
  destruct (Transport.Close (transport c)) as [t' err].
  cbn. repeat split.
Qed.

Lemma awaitResponse_err (ctx : Ctx) :
  forall id (c : Client T) e c',
    awaitResponse ctx id c = Returns (Err e) c' ->
    (e = "request timeout" /\ sameSession c c') \/
    (connected c' = false /\ initialized c' = false /\
     exists err, e = wrapf "failed to receive response: " err).
Proof.
  induction ctx as [| ctx IH]; intros id c e c' H.
  - injection H as <- <-. left. split; [reflexivity | apply sameSession_refl].
  - cbn [awaitResponse] in H.
    pose proof (receiveTurn_cases id c) as Hturn.
    destruct (receiveTurn id c) as [m c1 | c1 | e1 c1 |].
    + discriminate.
    + destruct Hturn as (Hs & _).
      apply IH in H as [[He Hs'] | Hdead].
      * left. split; [exact He |]. eapply sameSession_trans; eassumption.
      * right. exact Hdead.
    + injection H as <- <-.
      destruct Hturn as (Hc & Hi & err & He & _).
      right. split; [exact Hc |]. split; [exact Hi |]. exists err. exact He.
    + discriminate.
Qed.

(** What every returning wait keeps: the server info and capabilities, the
    request counter and the timeout. *)
Lemma awaitResponse_keeps (ctx : Ctx) :
  forall id (c : Client T) r c',
    awaitResponse ctx id c = Returns r c' ->
    serverInfo c' = serverInfo c /\
    serverCapabilities c' = serverCapabilities c /\
    requestID c' = requestID c /\ timeout c' = timeout c /\
    (initialized c' = true -> initialized c = true) /\
    (connected c' = true -> connected c = true).
Proof.
  induction ctx as [| ctx IH]; intros id c r c' H.
  - injection H as <- <-. repeat split; auto.
  - cbn [awaitResponse] in H. unfold receiveTurn in H.
    destruct (Transport.Receive (transport c)) as [m t' | err t' |].
    + destruct (isMatchingID (ID m) id).
      * injection H as <- <-. cbn. repeat split; auto.
      * apply IH in H. cbn in H. exact H.
    + injection H as <- <-. cbn. repeat split; discriminate.
    + discriminate.
Qed.

Lemma sendRequest_keeps (ctx : Ctx) (method : string)
  (params : option Payload) (c : Client T) r c' :
  sendRequest ctx method params c = Returns r c' ->
  serverInfo c' = serverInfo c /\
  serverCapabilities c' = serverCapabilities c /\
  requestID c' = wrap64 (requestID c + 1) /\ timeout c' = timeout c /\
  (initialized c' = true -> initialized c = true) /\
  (connected c' = true -> connected c = true).
Proof.
  unfold sendRequest, issueRequest. cbn [transport timeout].
  destruct (negb (Transport.IsConnected (transport c))).
  - intros [= <- <-]. cbn. repeat split; auto.
  - destruct (Transport.Send _ (transport c)) as [t' [err |]].
    + intros [= <- <-]. cbn. repeat split; discriminate.
    + intros H. apply awaitResponse_keeps in H. cbn in H. exact H.
Qed.

(** X4. When [sendRequest] returns an error it is one of four. On
    ["transport disconnected"] nothing was sent and the session flags are
    as before; on ["request timeout"] the flags are as before; on a failed
    [Send] or [Receive] the client is marked not connected and not
    initialized. In every case the call has used up one request id. *)
Theorem sendRequest_errors (ctx : Ctx) (method : string)
  (params : option Payload) (c : Client T) (e : error) (c' : Client T)
  (Hret : sendRequest ctx method params c = Returns (Err e) c') :
  requestID c' = wrap64 (requestID c + 1) /\
  ((e = "transport disconnected" /\ transport c' = transport c /\
    connected c' = connected c /\ initialized c' = initialized c) \/
   (e = "request timeout" /\
    connected c' = connected c /\ initialized c' = initialized c) \/
   (connected c' = false /\ initialized c' = false /\
    exists err,
      e = wrapf "failed to send request: " err \/
      e = wrapf "failed to receive response: " err)).
Proof.
  split; [apply (sendRequest_keeps _ _ _ _ _ _ Hret) |].
  revert Hret. unfold sendRequest, issueRequest. cbn [transport timeout].
  destruct (negb (Transport.IsConnected (transport c))).
  - intros [= <- <-]. left. repeat split.
  - destruct (Transport.Send _ (transport c)) as [t' [err |]].
    + intros [= <- <-]. right. right. cbn. repeat split.
      exists err. left. reflexivity.
    + intros H. apply awaitResponse_err in H
        as [[He (Hc & Hi & _)] | (Hc & Hi & err & He)].
      * right. left. cbn in Hc, Hi. auto.
      * right. right. split; [exact Hc |]. split; [exact Hi |].
        exists err. right. exact He.
Qed.

(** X5. A response that [sendRequest] returns carries the id that this call
    issued and matches no other request id; the transport was connected,
    and the session flags are as before. *)
Theorem sendRequest_returns_own_response (ctx : Ctx) (method : string)
  (params : option Payload) (c : Client T) (response : Message)
  (c' : Client T)
  (Hret : sendRequest ctx method params c = Returns (Ok response) c') :
  let id := wrap64 (requestID c + 1) in
  isMatchingID (ID response) id = true /\
  (forall other, isMatchingID (ID response) other = true -> other = id) /\
  requestID c' = id /\
  Transport.IsConnected (transport c) = true /\
  connected c' = connected c /\ initialized c' = initialized c.
Proof.
  intros id.
  destruct (sendRequest_ok _ _ _ _ _ _ Hret) as (Hc & Hi & Hr & Hid).
  split; [exact Hid |]. split.
  - intros other Hother.
    exact (isMatchingID_injective _ _ _ Hother Hid).
  - split; [exact Hr |]. split; [| split; assumption].
    revert Hret. unfold sendRequest, issueRequest. cbn [transport].
    destruct (Transport.IsConnected (transport c)); [reflexivity |].
    discriminate.
Qed.

Lemma awaitResponse_initialized (ctx : Ctx) (id : Z) (c : Client T) r c' :
  awaitResponse ctx id c = Returns r c' ->
  initialized c' = true -> initialized c = true.
Proof. intros H. apply (awaitResponse_keeps _ _ _ _ _ H). Qed.

(** X6. When [Initialize] returns an error: the client was not connected,
    the error is [ErrNotConnected] and nothing changed; or the
    notification could not be sent and the session is marked initialized;
    or the server info and capabilities are as before and the session is
    not newly marked initialized. *)
Theorem Initialize_errors (ctx : Ctx) (info : ClientInfo) (c : Client T)
  (e : error) (c' : Client T)
  (Hret : Initialize ErrNotConnected ctx info c = Returns (Err e) c') :
  (connected c = false /\ e = ErrNotConnected /\ c' = c) \/
  (connected c = true /\
   ((initialized c' = true /\
     exists err, e = wrapf "failed to send initialized notification: " err) \/
    (serverInfo c' = serverInfo c /\
     serverCapabilities c' = serverCapabilities c /\
     (initialized c' = true -> initialized c = true)))).
Proof.
  revert Hret. unfold Initialize, IsConnected.
  destruct (connected c) eqn:Hconn; cbn [negb].
  - intros Hret. right. split; [reflexivity |].
    destruct (sendRequest ctx "initialize" _ c) as [[response | err] c1 |]
      eqn:Hreq; [| | discriminate];
      pose proof (sendRequest_keeps _ _ _ _ _ _ Hreq)
        as (Hinfo & Hcaps & _ & _ & Hinit & _).
    + destruct (Error response) as [rpc |].
      * injection Hret as <- <-. right. auto.
      * destruct (parseResult decodeInitialize (Result response))
          as [initResponse | err].
        -- cbn [transport] in Hret.
           destruct (Transport.Send _ (transport c1)) as [t' [err |]];
             [| discriminate].
           injection Hret as <- <-. left. cbn. split; [reflexivity |].
           exists err. reflexivity.
        -- injection Hret as <- <-. right. auto.
    + injection Hret as <- <-. right. auto.
  - intros [= <- <-]. left. auto.
Qed.

(** X7. What [CallTool] returns is read off the response of the peer: an
    error object is returned as an error with the peer's message, also
    when a result is present; without an error object a missing result is
    the error ["result is nil"], and a result is decoded. The session stays
    initialized. *)
Theorem CallTool_reads_response (ctx : Ctx) (name : string)
  (args : Arguments) (c c1 : Client T) (response : Message)
  (Hinit : initialized c = true)
  (Hlive : Transport.IsConnected (transport c) = true)
  (Hreq : sendRequest ctx "tools/call"
            (Some (Struct (CallToolRequest name args))) c
          = Returns (Ok response) c1) :
  CallTool ctx name args c
  = Returns
      (match Error response, Result response with
       | Some rpc, _ => Err (wrapf "call tool error: " (ErrMessage rpc))
       | None, None =>
           Err (wrapf "failed to parse call tool response: " "result is nil")
       | None, Some v =>
           match decodeCallTool v with
           | Ok r => Ok r
           | Err err =>
               Err (wrapf "failed to parse call tool response: " err)
           end
       end) c1 /\
  initialized c1 = true /\ connected c1 = connected c.
Proof.
  unfold CallTool, IsInitialized, CheckConnection, exchange.
  rewrite Hinit, Hlive. cbn [negb]. rewrite Hreq.
  destruct (sendRequest_ok _ _ _ _ _ _ Hreq) as (Hc & Hi & _).
  split; [| split; congruence].
  destruct (Error response) as [rpc |]; [reflexivity |].
  destruct (Result response) as [v |]; cbn [parseResult]; [| reflexivity].
  destruct (decodeCallTool v); reflexivity.
Qed.

(** X8. On a transport that reports it is not connected, [CallTool]
    returns the connection-check error, marks the client not connected and
    not initialized and uses no request id. [ListTools] returns
    ["transport disconnected"] behind its prefix, uses up a request id and
    leaves the client marked connected and initialized. Neither calls the
    transport's [Send]. *)
Theorem dead_transport_is_noticed_by_CallTool_only (ctx : Ctx)
  (name : string) (args : Arguments) (c : Client T)
  (Hinit : initialized c = true)
  (Hdead : Transport.IsConnected (transport c) = false) :
  CallTool ctx name args c
  = Returns (Err "connection check failed: transport disconnected")
            (markDisconnected c) /\
  exists c',
    ListTools ctx c
    = Returns (Err "list tools request failed: transport disconnected") c' /\
    transport c' = transport c /\
    initialized c' = true /\ connected c' = connected c /\
    requestID c' = wrap64 (requestID c + 1).
Proof.
  unfold CallTool, ListTools, ListToolsWithCursor, IsInitialized,
    CheckConnection, exchange, sendRequest, issueRequest.
  rewrite Hinit. cbn [negb transport]. rewrite Hdead. cbn [negb].
  split; [reflexivity |].
  eexists. split; [reflexivity |]. cbn. auto.
Qed.

(** X9. A client made by [NewClient] has the configured timeout, or thirty
    seconds when none is configured; it is not connected, so [Initialize]
    and [Disconnect] do nothing and the operations are refused; the first
    request it issues has id 1. *)
Theorem NewClient_is_fresh (Second : nat) (t : T) (config : ClientConfig)
  (ctx : Ctx) (info : ClientInfo) (method : string)
  (params : option Payload) :
  let c := NewClient Second t config in
  transport c = t /\
  timeout c = (if (Timeout config =? 0)%nat then (30 * Second)%nat
               else Timeout config) /\
  Initialize ErrNotConnected ctx info c = Returns (Err ErrNotConnected) c /\
  ListTools ctx c = Returns (Err "client not initialized") c /\
  Disconnect c = (None, c) /\
  requestID (snd (issueRequest method params c)) = 1.
Proof.
  cbn. repeat split.
  unfold issueRequest, NewClient. cbn [transport requestID].
  destruct (negb (Transport.IsConnected t)); [reflexivity |].
  destruct (Transport.Send _ t) as [t' [err |]]; reflexivity.
Qed.
End EngineMore.

Section EngineWitnesses.
Import Client Fixture Cases.

Lemma Connect_once_witness :
  connected (snd (Connect freshPipe)) = true /\
  Connect (snd (Connect freshPipe)) = (Ok tt, snd (Connect freshPipe)) /\
  connected (snd (Connect freshRefusing)) = false /\
  exists err,
    fst (Connect freshRefusing) = Err (wrapf "failed to connect: " err).
Proof.
  destruct (Connect_once freshPipe) as (_ & Hok & _).
  destruct (Connect_once freshRefusing) as (_ & _ & Hfail).
  assert (H1 : Connect freshPipe = (Ok tt, snd (Connect freshPipe)))
    by reflexivity.
  assert (H2 : Connect freshRefusing
               = (Err "failed to connect: dial tcp: connection refused",
                  snd (Connect freshRefusing))) by reflexivity.
  destruct (Hok _ H1) as (Hc & Hagain & _).
  destruct (Hfail _ _ H2) as (_ & Hc' & _ & _ & _ & _ & _ & err & He & _).
  split; [exact Hc |]. split; [exact Hagain |]. split; [exact Hc' |].
  exists err. rewrite <- He. reflexivity.
Defined.

Lemma Disconnect_resets_session_witness :
  connected (onPipe []) = true /\ initialized (onPipe []) = true /\
  requestID (onPipe []) = 1 /\
  let c' := snd (Disconnect (onPipe [])) in
  connected c' = false /\ initialized c' = false /\ serverInfo c' = None /\
  requestID c' = 1 /\ Disconnect c' = (None, c').
Proof.
  assert (Hconn : connected (onPipe []) = true) by reflexivity.
  destruct (Disconnect_resets_session ErrNotConnected (onPipe []) 30%nat
              clientInfo Hconn)
    as (_ & _ & Hc & Hi & Hinfo & _ & Hr & Hagain & _).
  split; [exact Hconn |]. split; [reflexivity |]. split; [reflexivity |].
  intros c'. repeat split; assumption.
Defined.

Lemma sendRequest_errors_witness :
  exists c',
    sendRequest 0%nat "tools/list" None (onPipe [])
    = Returns (Err "request timeout") c' /\
    requestID c' = 2 /\ initialized c' = true.
Proof.
  eexists. split; [vm_compute; reflexivity |].
  match goal with
  | |- requestID ?c = _ /\ _ =>
      assert (Hret : sendRequest 0%nat "tools/list" None (onPipe [])
                     = Returns (Err "request timeout") c)
        by (vm_compute; reflexivity);
      destruct (sendRequest_errors _ _ _ _ _ _ Hret) as [Hid _]
  end.
  split; [exact Hid | reflexivity].
Defined.

Lemma sendRequest_returns_own_response_witness :
  exists c',
    sendRequest 30%nat "tools/list" (Some (Struct (ListToolsRequest "")))
                (onPipe [progress; response float64_two page3])
    = Returns (Ok (response float64_two page3)) c' /\
    requestID c' = 2 /\
    forall other,
      isMatchingID (IDFloat64 float64_two) other = true -> other = 2.
Proof.
  eexists. split; [vm_compute; reflexivity |].
  match goal with
  | |- requestID ?c = _ /\ _ =>
      assert (Hret : sendRequest 30%nat "tools/list"
                       (Some (Struct (ListToolsRequest "")))
                       (onPipe [progress; response float64_two page3])
                     = Returns (Ok (response float64_two page3)) c)
        by (vm_compute; reflexivity);
      destruct (sendRequest_returns_own_response _ _ _ _ _ _ Hret)
        as (_ & Honly & Hid & _)
  end.
  split; [exact Hid | exact Honly].
Defined.

Lemma Initialize_errors_witness :
  Initialize ErrNotConnected 30%nat clientInfo freshPipe
  = Returns (Err ErrNotConnected) freshPipe /\
  connected freshPipe = false.
Proof.
  assert (Hret : Initialize ErrNotConnected 30%nat clientInfo freshPipe
                 = Returns (Err ErrNotConnected) freshPipe) by reflexivity.
  split; [exact Hret |].
  destruct (Initialize_errors _ _ _ _ _ _ Hret) as [(Hc & _) | (Hc & _)].
  - exact Hc.
  - vm_compute in Hc. discriminate.
Defined.

Lemma CallTool_reads_response_witness :
  exists c1,
    CallTool 30%nat "X" [] (onPipe [toolNotFound])
    = Returns (Err "call tool error: tool not found: X") c1 /\
    initialized c1 = true.
Proof.
  assert (Hinit : initialized (onPipe [toolNotFound]) = true) by reflexivity.
  assert (Hlive : Transport.IsConnected (transport (onPipe [toolNotFound]))
                  = true) by reflexivity.
  eexists. split; [vm_compute; reflexivity |].
  match goal with
  | |- initialized ?c = true =>
      assert (Hreq : sendRequest 30%nat "tools/call"
                       (Some (Struct (CallToolRequest "X" [])))
                       (onPipe [toolNotFound])
                     = Returns (Ok toolNotFound) c)
        by (vm_compute; reflexivity);
      destruct (CallTool_reads_response _ _ _ _ _ _ Hinit Hlive Hreq)
        as (_ & Hi & _)
  end.
  exact Hi.
Defined.

Lemma dead_transport_is_noticed_by_CallTool_only_witness :
  initialized cutOff = true /\
  Transport.IsConnected (transport cutOff) = false /\
  CallTool 30%nat "add" [] cutOff
  = Returns (Err "connection check failed: transport disconnected")
            (markDisconnected cutOff) /\
  exists c',
    ListTools 30%nat cutOff
    = Returns (Err "list tools request failed: transport disconnected") c' /\
    initialized c' = true /\ requestID c' = 2.
Proof.
  assert (Hinit : initialized cutOff = true) by reflexivity.
  assert (Hdead : Transport.IsConnected (transport cutOff) = false)
    by reflexivity.
  destruct (dead_transport_is_noticed_by_CallTool_only (mcp := Fixture.mcp)
              30%nat "add"
              (@nil (string * string)) cutOff Hinit Hdead)
    as (Hcall & c' & Hlist & _ & Hi & _ & Hid).
  split; [exact Hinit |]. split; [exact Hdead |]. split; [exact Hcall |].
  exists c'. split; [exact Hlist |]. split; [exact Hi | exact Hid].
Defined.
End EngineWitnesses.

(** ** Waiting on a stream *)

Section StreamFacts.
Context {mcp : Mcp} {platform : Platform}.
Import Client.

Local Abbreviation arrived c inbox :=
  (withTransport {| Pipe.open := true; Pipe.inbox := inbox;
                    Pipe.outbox := Pipe.outbox (transport c) |} c).

Lemma arrived_self (c : Client Pipe.t) :
  Pipe.open (transport c) = true ->
  arrived c (Pipe.inbox (transport c)) = c.
Proof.
  destruct c as [[o i ob] si sc co ini rid to]. cbn. intros ->. reflexivity.
Qed.

(** X10. On a stream, a wait reads past the messages that do not carry its
    id (responses to other requests, notifications) and drops them. When a
    matching response stands after fewer such messages than the deadline
    allows polls, the wait returns it and leaves what follows; when the
    first [ctx] messages are all foreign, the wait consumes them and times
    out. *)
Theorem awaitResponse_reads_past_foreign_messages
  (id : Z) (pre : list Message) :
  forall (ctx : Ctx) (c : Client Pipe.t),
    Pipe.open (transport c) = true ->
    Forall (fun x => isMatchingID (ID x) id = false) pre ->
    (forall m rest,
        Pipe.inbox (transport c) = (pre ++ m :: rest)%list ->
        isMatchingID (ID m) id = true ->
        (List.length pre < ctx)%nat ->
        awaitResponse ctx id c = Returns (Ok m) (arrived c rest)) /\
    (forall rest,
        Pipe.inbox (transport c) = (pre ++ rest)%list ->
        ctx = List.length pre ->
        awaitResponse ctx id c = Returns (Err "request timeout")
                                         (arrived c rest)).
Proof.
  induction pre as [| x pre IH]; intros ctx c Hopen Hpre.
  - split.
    + intros m rest Hin Hm Hlt.
      destruct ctx as [| ctx]; [inversion Hlt |].
      cbn [awaitResponse]. unfold receiveTurn.
      cbn [Transport.Receive Pipe.transport]. unfold Pipe.Receive.
      rewrite Hopen, Hin. cbn [negb app]. rewrite Hm. reflexivity.
    + intros rest Hin ->. cbn [List.length awaitResponse].
      cbn [app] in Hin. rewrite <- Hin, arrived_self by exact Hopen.
      reflexivity.
  - inversion Hpre as [| ? ? Hx Hpre']; subst.
    assert (Hstep :
      forall ctx' tail,
        Pipe.inbox (transport c) = (x :: tail)%list ->
        awaitResponse (S ctx') id c = awaitResponse ctx' id (arrived c tail)).
    { intros ctx' tail Hin. cbn [awaitResponse]. unfold receiveTurn.
      cbn [Transport.Receive Pipe.transport]. unfold Pipe.Receive.
      rewrite Hopen, Hin. cbn [negb]. rewrite Hx. reflexivity. }
    split.
    + intros m rest Hin Hm Hlt.
      destruct ctx as [| ctx]; [inversion Hlt |].
      rewrite (Hstep ctx (pre ++ m :: rest)%list Hin).
      destruct (IH ctx (arrived c (pre ++ m :: rest)%list) eq_refl Hpre')
        as [Hmatch _].
      rewrite (Hmatch m rest eq_refl Hm) by (cbn in Hlt; lia).
      reflexivity.
    + intros rest Hin ->. cbn [List.length].
      rewrite (Hstep (List.length pre) (pre ++ rest)%list Hin).
      destruct (IH (List.length pre) (arrived c (pre ++ rest)%list)
                  eq_refl Hpre')
        as [_ Hout].
      rewrite (Hout rest eq_refl eq_refl). reflexivity.
Qed.
End StreamFacts.

Lemma awaitResponse_reads_past_foreign_messages_witness :
  let c := Fixture.onPipe [Cases.progress;
                           Fixture.response float64_three (Fixture.VText "three");
                           Fixture.response float64_two (Fixture.VText "two");
                           Cases.progress] in
  Client.awaitResponse 30%nat 2 c
  = Client.Returns (Ok (Fixture.response float64_two (Fixture.VText "two")))
      (Client.withTransport
         {| Pipe.open := true; Pipe.inbox := [Cases.progress];
            Pipe.outbox := Pipe.outbox (Client.transport c) |} c) /\
  Client.awaitResponse 2%nat 2 c
  = Client.Returns (Err "request timeout")
      (Client.withTransport
         {| Pipe.open := true;
            Pipe.inbox := [Fixture.response float64_two (Fixture.VText "two");
                           Cases.progress];
            Pipe.outbox := Pipe.outbox (Client.transport c) |} c).
Proof.
  intros c.
  assert (Hopen : Pipe.open (Client.transport c) = true) by reflexivity.
  assert (Hpre : Forall (fun x => isMatchingID (ID x) 2 = false)
                   [Cases.progress;
                    Fixture.response float64_three (Fixture.VText "three")])
    by (repeat constructor).
  split.
  - destruct (awaitResponse_reads_past_foreign_messages 2 _ 30%nat c
                Hopen Hpre) as [Hmatch _].
    apply Hmatch; [reflexivity | reflexivity | cbn; lia].
  - destruct (awaitResponse_reads_past_foreign_messages 2 _ 2%nat c
                Hopen Hpre) as [_ Hout].
    apply Hout; reflexivity.
Defined.

(** ** More on what reaches the transport *)

Section WireMore.
Context {mcp : Mcp} {codec : Codec} {platform : Platform}.
Context {T : Type} {tr : Transport.Interface T}.
Variable ErrNotConnected : error.

Import Client.

Local Abbreviation sentOn c := (Traced.sent (Traced.calls (transport c))).

Lemma sendRequest_ok_live (U : Type) (tu : Transport.Interface U)
  (ctx : Ctx) (method : string) (params : option Payload)
  (c : Client U) response c' :
  sendRequest ctx method params c = Returns (Ok response) c' ->
  Transport.IsConnected (transport c) = true.
Proof.
  unfold sendRequest, issueRequest. cbn [transport].
  destruct (Transport.IsConnected (transport c)); [reflexivity |].
  discriminate.
Qed.

(** X11. When [Initialize] succeeds the client was connected and is now
    initialized; it holds the server info and capabilities decoded from a
    response that carries the id of the handshake request and no error
    object; and exactly two messages went out, the handshake request with
    the next request id and then the [initialized] notification. *)
Theorem Initialize_success (ctx : Ctx) (info : ClientInfo)
  (c c' : Client (Traced.t T))
  (Hret : Initialize ErrNotConnected ctx info c = Returns (Ok tt) c') :
  let id := wrap64 (requestID c + 1) in
  connected c = true /\ connected c' = true /\ initialized c' = true /\
  requestID c' = id /\
  (exists response initResponse,
      isMatchingID (ID response) id = true /\
      Error response = None /\
      parseResult decodeInitialize (Result response) = Ok initResponse /\
      serverInfo c' = Some (InitServerInfo initResponse) /\
      serverCapabilities c' = Some (InitCapabilities initResponse)) /\
  sentOn c'
  = (sentOn c
     ++ [NewRequest id "initialize"
           (Some (Struct (InitializeRequest ProtocolVersion info)));
         NewNotification "notifications/initialized" None])%list.
Proof.
  intros id. revert Hret. unfold Initialize, IsConnected.
  destruct (connected c) eqn:Hconn; cbn [negb]; [| discriminate].
  destruct (sendRequest ctx "initialize" _ c) as [[response | err] c1 |]
    eqn:Hreq; [| discriminate | discriminate].
  pose proof (sendRequest_ok_live _ _ _ _ _ _ _ _ Hreq) as Hlive.
  pose proof (sendRequest_sends_once _ _ _ _ _ _ Hlive Hreq) as Hsent.
  destruct (sendRequest_ok _ _ _ _ _ _ Hreq) as (Hc & _ & Hr & Hid).
  destruct (Error response) as [rpc |] eqn:Herr; [discriminate |].
  destruct (parseResult decodeInitialize (Result response))
    as [initResponse | err] eqn:Hparse; [| discriminate].
  cbn [transport Transport.Send Traced.transport]. unfold Traced.logged.
  destruct (Transport.Send _ (Traced.inner (transport c1))) as [i [err |]];
    cbn [fst snd]; [discriminate |].
  intros [= <-]. cbn.
  split; [reflexivity |]. split; [congruence |]. split; [reflexivity |].
  split; [exact Hr |]. split.
  - exists response, initResponse. repeat split; assumption.
  - rewrite sent_app, Hsent, <- app_assoc. reflexivity.
Qed.

(** X12. [ListToolsWithCursor] on an initialized session over a connected
    transport sends one tools/list request, with the cursor it was given
    and the next request id, whatever it returns. When it returns tools
    they are those of the one page decoded from the response to that
    request; the next cursor of the page is not returned. *)
Theorem ListToolsWithCursor_one_page (ctx : Ctx) (cursor : string)
  (c : Client (Traced.t T)) (r : result (list Tool))
  (c' : Client (Traced.t T))
  (Hinit : initialized c = true)
  (Hlive : Transport.IsConnected (transport c) = true)
  (Hret : ListToolsWithCursor ctx cursor c = Returns r c') :
  let id := wrap64 (requestID c + 1) in
  sentOn c'
  = (sentOn c
     ++ [NewRequest id "tools/list"
           (Some (Struct (ListToolsRequest cursor)))])%list /\
  forall tools,
    r = Ok tools ->
    initialized c' = true /\
    exists response page,
      isMatchingID (ID response) id = true /\
      Error response = None /\
      parseResult decodeListTools (Result response) = Ok page /\
      tools = Tools page.
Proof.
  intros id. revert Hret.
  unfold ListToolsWithCursor, IsInitialized, exchange.
  rewrite Hinit. cbn [negb].
  destruct (sendRequest ctx "tools/list" _ c) as [[response | err] c1 |]
    eqn:Hreq; [| | discriminate];
    pose proof (sendRequest_sends_once _ _ _ _ _ _ Hlive Hreq) as Hsent.
  - destruct (sendRequest_ok _ _ _ _ _ _ Hreq) as (_ & Hi & _ & Hid).
    destruct (Error response) as [rpc |] eqn:Herr.
    + intros [= <- <-]. split; [exact Hsent |]. intros tools H. discriminate.
    + destruct (parseResult decodeListTools (Result response))
        as [page | err] eqn:Hparse.
      * intros [= <- <-]. split; [exact Hsent |].
        intros tools [= <-]. split; [congruence |].
        exists response, page. repeat split; assumption.
      * intros [= <- <-]. split; [exact Hsent |]. intros tools H.
        discriminate.
  - intros [= <- <-]. split; [exact Hsent |]. intros tools H. discriminate.
Qed.

(** X13. Every call of [sendRequest] that returns, failing or not, has
    taken the next request id: the counter is one higher, and the only
    message the call can have sent is the request with the new id. At the
    largest [int64] the counter wraps to the smallest. *)
Theorem request_ids_count_up (ctx : Ctx) (method : string)
  (params : option Payload) (c : Client (Traced.t T))
  (r : result Message) (c' : Client (Traced.t T))
  (Hret : sendRequest ctx method params c = Returns r c') :
  (int64_min <= requestID c < int64_max -> requestID c' = requestID c + 1) /\
  (requestID c = int64_max -> requestID c' = int64_min) /\
  (sentOn c' = sentOn c \/
   sentOn c'
   = (sentOn c ++ [NewRequest (requestID c') method params])%list).
Proof.
  destruct (sendRequest_keeps _ _ _ _ _ _ Hret) as (_ & _ & Hid & _).
  split; [intros Hn; rewrite Hid; apply wrap64_succ; exact Hn |].
  split; [intros Hmax; rewrite Hid, Hmax; reflexivity |].
  destruct (Transport.IsConnected (transport c)) eqn:Hlive.
  - right. rewrite Hid. exact (sendRequest_sends_once _ _ _ _ _ _ Hlive Hret).
  - left. revert Hret. unfold sendRequest, issueRequest. cbn [transport].
    rewrite Hlive. cbn [negb]. intros [= _ <-]. reflexivity.
Qed.
End WireMore.

Section WireWitnesses.
Import Client Fixture Cases.

Lemma Initialize_success_witness :
  let c := onTracedPipe [] in
  exists c',
    Initialize ErrNotConnected 30%nat clientInfo c = Returns (Ok tt) c' /\
    initialized c' = true /\ serverInfo c' = Some server /\
    Traced.sent (Traced.calls (transport c'))
    = [handshakeRequest; initializedNotification].
Proof.
  intros c. eexists. split; [vm_compute; reflexivity |].
  match goal with
  | |- initialized ?c1 = true /\ _ =>
      assert (Hret : Initialize ErrNotConnected 30%nat clientInfo c
                     = Returns (Ok tt) c1) by (vm_compute; reflexivity);
      destruct (Initialize_success ErrNotConnected _ _ _ _ Hret)
        as (_ & _ & Hi & _ & _ & Hsent)
  end.
  split; [exact Hi |]. split; [reflexivity |]. exact Hsent.
Defined.

Lemma ListToolsWithCursor_one_page_witness :
  initialized listing = true /\
  exists c',
    ListToolsWithCursor 30%nat "page-2" listing
    = Returns (Ok ["multiply"; "divide"]) c' /\
    Traced.sent (Traced.calls (transport c'))
    = (Traced.sent (Traced.calls (transport listing))
       ++ [NewRequest 2 "tools/list"
             (Some (Struct (ListToolsRequest "page-2")))])%list.
Proof.
  assert (Hinit : initialized listing = true) by reflexivity.
  assert (Hlive : Transport.IsConnected (transport listing) = true)
    by reflexivity.
  split; [exact Hinit |].
  eexists. split; [vm_compute; reflexivity |].
  match goal with
  | |- Traced.sent (Traced.calls (transport ?c1)) = _ =>
      assert (Hret : ListToolsWithCursor 30%nat "page-2" listing
                     = Returns (Ok ["multiply"; "divide"]) c1)
        by (vm_compute; reflexivity);
      destruct (ListToolsWithCursor_one_page _ _ _ _ _ Hinit Hlive Hret)
        as [Hsent _]
  end.
  exact Hsent.
Defined.

Lemma request_ids_count_up_witness :
  requestID listing = 1 /\
  exists c',
    sendRequest 0%nat "ping" None listing
    = Returns (Err "request timeout") c' /\
    requestID c' = 2.
Proof.
  split; [reflexivity |].
  eexists. split; [vm_compute; reflexivity |].
  match goal with
  | |- requestID ?c1 = 2 =>
      assert (Hret : sendRequest 0%nat "ping" None listing
                     = Returns (Err "request timeout") c1)
        by (vm_compute; reflexivity);
      destruct (request_ids_count_up _ _ _ _ _ _ Hret) as [Hup _]
  end.
  apply Hup. vm_compute. split; [discriminate | reflexivity].
Defined.
End WireWitnesses.

(** * Further properties of the streaming HTTP transport *)

Section StreamingMore.
Context {mcp : Mcp} {wire : Wire}.
Context {N : Type} {http : HTTP.Client N}.

Import StreamingHTTPTransport.

(** X14. Whatever a [Send] does, it leaves the endpoint, the connected
    flag and the unused [initialized] flag as they were; it never empties
    a session token that was held; a [Send] that returns an error leaves
    the buffered response as it was; and no [Send] empties the buffer. *)
Theorem Send_keeps (m : Message) (h : t N) :
  let h' := fst (Send m h) in
  baseURL h' = baseURL h /\ endpoint h' = endpoint h /\
  connected h' = connected h /\ initialized h' = initialized h /\
  (sessionID h <> "" -> sessionID h' <> "") /\
  (snd (Send m h) <> None -> lastResponse h' = lastResponse h) /\
  (lastResponse h <> None -> lastResponse h' <> None).
Proof.
  unfold Send.
  destruct (connected h) eqn:Hconn; cbn [negb]; [| cbn; tauto].
  destruct (Marshal m) as [data | err]; [| cbn; tauto].
  destruct (buildRequest h data) as [req | err]; [| cbn; tauto].
  destruct (HTTP.Do req (client h)) as [n' [resp | err]];
    [| cbn; rewrite Hconn; tauto].
  set (token := HTTP.Get (HTTP.RespHeader resp) "Mcp-Session-Id").
  assert (Htoken : sessionID h <> "" ->
                   (if String.eqb token "" then sessionID h else token) <> "").
  { intros Hne. destruct (String.eqb token "") eqn:Ht; [exact Hne |].
    apply String.eqb_neq. exact Ht. }
  destruct (String.eqb token "") eqn:Ht;
    (destruct (HTTP.ReadAll (HTTP.RespBody resp)) as [body | err];
     [ destruct (String.length body =? 0)%nat;
       [| destruct (Unmarshal body) as [response | err]] |]);
    cbn; rewrite ?Hconn;
    repeat split; try tauto; try congruence; try discriminate.
Qed.

(** X15. [Receive] hands a buffered response out once: on the connected
    transport it returns the response and empties the buffer, and the
    [Receive] after it returns ["no response available"]. On a transport
    that is not connected it returns ["transport not connected"] and
    leaves the buffer as it is. *)
Theorem Receive_once (h : t N) (response : Message)
  (Hlast : lastResponse h = Some response) :
  (connected h = true ->
   Receive h = Transport.RecvMsg response (withLastResponse None h) /\
   Receive (withLastResponse None h)
   = Transport.RecvErr "no response available" (withLastResponse None h)) /\
  (connected h = false ->
   Receive h = Transport.RecvErr "transport not connected" h).
Proof.
  unfold Receive. split; intros Hconn.
  - rewrite Hconn, Hlast. cbn. rewrite Hconn. split; reflexivity.
  - rewrite Hconn. reflexivity.
Qed.

(** X16. [Close] drops the session token and refuses [Send] and [Receive]
    without any exchange, but it keeps a buffered response. After a
    [Connect] that follows, the transport holds no token, so the next
    request carries no session header, and a [Receive] hands out the
    response buffered before the [Close]. *)
Theorem Close_then_Connect (h : t N) (m : Message) :
  let closed := fst (Close h) in
  let again := fst (Connect closed) in
  snd (Close h) = None /\
  Send m closed = (closed, Some "transport not connected") /\
  Receive closed = Transport.RecvErr "transport not connected" closed /\
  client again = client h /\
  connected again = true /\ sessionID again = "" /\
  lastResponse again = lastResponse h /\
  (forall data req,
      buildRequest again data = Ok req ->
      HTTP.Get (HTTP.ReqHeader req) "Mcp-Session-Id" = "") /\
  (forall response,
      lastResponse h = Some response ->
      Receive again
      = Transport.RecvMsg response (withLastResponse None again)).
Proof.
  cbn. repeat split.
  - intros data req. unfold buildRequest, HTTP.NewRequest. cbn.
    destruct (HTTP.checkURL (baseURL h ++ endpoint h)); [discriminate |].
    intros [= <-]. reflexivity.
  - intros response Hlast. unfold Receive. cbn. rewrite Hlast. reflexivity.
Qed.
End StreamingMore.

Section StreamingTrace.
Context {mcp : Mcp} {wire : Wire}.

Import StreamingHTTPTransport.

Local Abbreviation seenBy h := (Scripted.requests (client h)).

Lemma Send_keeps_endpoint (m : Message) (h : t Scripted.t) :
  baseURL (fst (Send m h)) = baseURL h /\
  endpoint (fst (Send m h)) = endpoint h /\
  (sessionID h <> "" -> sessionID (fst (Send m h)) <> "").
Proof.
  unfold Send.
  destruct (connected h); cbn [negb]; [| cbn; tauto].
  destruct (Marshal m) as [data | err]; [| cbn; tauto].
  destruct (buildRequest h data) as [req | err]; [| cbn; tauto].
  destruct (HTTP.Do req (client h)) as [n' [resp | err]]; [| cbn; tauto].
  destruct (String.eqb (HTTP.Get (HTTP.RespHeader resp) "Mcp-Session-Id") "")
    eqn:Ht;
    (destruct (HTTP.ReadAll (HTTP.RespBody resp)) as [body | err];
     [ destruct (String.length body =? 0)%nat;
       [| destruct (Unmarshal body) as [response | err]] |]);
    cbn; repeat split; try tauto;
    intros _; apply String.eqb_neq; exact Ht.
Qed.

Lemma Send_exchanges_once (m : Message) (h : t Scripted.t) :
  seenBy (fst (Send m h)) = seenBy h \/
  exists req,
    seenBy (fst (Send m h)) = (seenBy h ++ [req])%list /\ fixedPost h req /\
    HTTP.Get (HTTP.ReqHeader req) "Mcp-Session-Id" = sessionID h.
Proof.
  unfold Send.
  destruct (connected h); cbn [negb]; [| left; reflexivity].
  destruct (Marshal m) as [data | err]; [| left; reflexivity].
  destruct (buildRequest h data) as [req | err] eqn:Hreq;
    [| left; reflexivity].
  right. exists req.
  assert (Hshape : fixedPost h req /\
                   HTTP.Get (HTTP.ReqHeader req) "Mcp-Session-Id"
                   = sessionID h).
  { revert Hreq. unfold buildRequest, HTTP.NewRequest, fixedPost.
    destruct (HTTP.checkURL (baseURL h ++ endpoint h)); [discriminate |].
    destruct (String.eqb (sessionID h) "") eqn:Hsid; intros [= <-]; cbn.
    - apply String.eqb_eq in Hsid. rewrite Hsid. repeat split.
    - repeat split. }
  destruct Hshape as [Hfixed Htoken].
  split; [| split; assumption].
  cbn [HTTP.Do Scripted.client]. unfold Scripted.Do.
  destruct (Scripted.replies (client h)) as [| [resp | err] rest];
    cbn [fst snd]; try reflexivity;
    destruct (String.eqb (HTTP.Get (HTTP.RespHeader resp) "Mcp-Session-Id") "");
    (destruct (HTTP.ReadAll (HTTP.RespBody resp)) as [body | err'];
     [ destruct (String.length body =? 0)%nat;
       [| destruct (Unmarshal body) as [response | err']] |]);
    reflexivity.
Qed.

(** X17. Over any sequence of calls of [Send], each call makes at most one
    HTTP exchange, and every request the network sees is a POST to the one
    URL [baseURL ++ endpoint] with the JSON headers. When the transport
    holds a session token at the start, every one of these requests
    carries a token that is not empty. *)
Theorem sendAll_posts_to_one_endpoint (messages : list Message) :
  forall h : t Scripted.t,
  exists new,
    seenBy (sendAll messages h) = (seenBy h ++ new)%list /\
    (List.length new <= List.length messages)%nat /\
    Forall (fixedPost h) new /\
    (sessionID h <> "" ->
     Forall (fun req => HTTP.Get (HTTP.ReqHeader req) "Mcp-Session-Id" <> "")
            new).
Proof.
  induction messages as [| m rest IH]; intros h.
  - exists []. cbn. rewrite app_nil_r. repeat split; constructor.
  - cbn [sendAll].
    destruct (IH (fst (Send m h))) as (new & Hseen & Hlen & Hall & Htok).
    destruct (Send_keeps_endpoint m h) as (Hb & He & Hsid).
    assert (Hall' : Forall (fixedPost h) new).
    { eapply Forall_impl; [| exact Hall].
      intros req. unfold fixedPost. rewrite Hb, He. tauto. }
    destruct (Send_exchanges_once m h) as [Hsame | (req & Hone & Hfix & Hhdr)].
    + exists new. rewrite Hseen, Hsame.
      split; [reflexivity |]. split; [cbn; lia |]. split; [exact Hall' |].
      intros Hne. apply Htok, Hsid, Hne.
    + exists (req :: new). rewrite Hseen, Hone, <- app_assoc.
      split; [reflexivity |]. split; [cbn; lia |].
      split; [constructor; assumption |].
      intros Hne. constructor; [congruence |]. apply Htok, Hsid, Hne.
Qed.
End StreamingTrace.

Lemma Receive_once_witness :
  let h := Cases.tokened in
  StreamingHTTPTransport.Receive h
  = Transport.RecvMsg (Fixture.response float64_one (Fixture.VText "one"))
      (StreamingHTTPTransport.withLastResponse None h) /\
  StreamingHTTPTransport.Receive
    (StreamingHTTPTransport.withLastResponse None h)
  = Transport.RecvErr "no response available"
      (StreamingHTTPTransport.withLastResponse None h).
Proof.
  intros h.
  assert (Hlast : StreamingHTTPTransport.lastResponse h
                  = Some (Fixture.response float64_one (Fixture.VText "one")))
    by reflexivity.
  destruct (Receive_once h _ Hlast) as [Hon _].
  apply Hon. reflexivity.
Defined.

Lemma sendAll_posts_to_one_endpoint_witness :
  let h := Cases.tokened in
  let h' := StreamingHTTPTransport.sendAll
              [Cases.initializedNotification; Cases.toolsListRequest] h in
  List.map HTTP.URL (Scripted.requests (StreamingHTTPTransport.client h'))
  = ["http://localhost:8811/mcp"; "http://localhost:8811/mcp"] /\
  StreamingHTTPTransport.sessionID h' = "session-2" /\
  Forall (fun req => HTTP.Get (HTTP.ReqHeader req) "Mcp-Session-Id" <> "")
         (Scripted.requests (StreamingHTTPTransport.client h')).
Proof.
  intros h h'.
  split; [reflexivity |]. split; [reflexivity |].
  destruct (sendAll_posts_to_one_endpoint
              [Cases.initializedNotification; Cases.toolsListRequest] h)
    as (new & Hseen & _ & _ & Htok).
  fold h' in Hseen. rewrite Hseen. cbn [Scripted.requests app].
  apply Htok. discriminate.
Defined.

Lemma Send_keeps_witness :
  let h := Cases.tokened in
  let h' := fst (StreamingHTTPTransport.Send Cases.initializedNotification h) in
  snd (StreamingHTTPTransport.Send Cases.initializedNotification h) = None /\
  StreamingHTTPTransport.sessionID h' <> "" /\
  StreamingHTTPTransport.lastResponse h' <> None.
Proof.
  intros h h'.
  destruct (Send_keeps Cases.initializedNotification h)
    as (_ & _ & _ & _ & Htoken & _ & Hbuffer).
  split; [reflexivity |].
  split; [apply Htoken | apply Hbuffer]; discriminate.
Defined.

Lemma Close_then_Connect_witness :
  let h := Cases.tokened in
  let again := fst (StreamingHTTPTransport.Connect
                      (fst (StreamingHTTPTransport.Close h))) in
  StreamingHTTPTransport.sessionID h = "session-1" /\
  StreamingHTTPTransport.sessionID again = "" /\
  StreamingHTTPTransport.Receive again
  = Transport.RecvMsg (Fixture.response float64_one (Fixture.VText "one"))
      (StreamingHTTPTransport.withLastResponse None again).
Proof.
  intros h again.
  destruct (Close_then_Connect h Cases.toolsListRequest)
    as (_ & _ & _ & _ & _ & Hsid & _ & _ & Hstale).
  split; [reflexivity |]. split; [exact Hsid |].
  apply Hstale. reflexivity.
Defined.

(** * Further properties of the SSE transport *)

Section SSEMore.
Context {mcp : Mcp} {wire : Wire}.
Context {N : Type} {http : HTTP.Client N}.

Import SSETransport.

(** A loop over the lines of a body finds nothing when its body has a
    result on no line of the bytes of the body. *)
Lemma Seek_nothing {A : Type} (body : string -> option A) (b : HTTP.Body) :
  Forall (fun l => body l = None) (HTTP.Lines b) ->
  exists scanner,
    Bufio.Seek body (Bufio.NewScanner b) = (scanner, None) /\
    HTTP.failure (Bufio.r scanner) = HTTP.failure b /\
    ((String.length (HTTP.content b) < Bufio.MaxScanTokenSize)%nat ->
     HTTP.chunks (Bufio.r scanner) = []).
Proof.
  intros Hall.
  pose proof (Seek_spec body (Bufio.NewScanner b) (NewScanner_wf b)) as Hspec.
  destruct (Bufio.Seek body (Bufio.NewScanner b)) as [scanner [a |]].
  - destruct Hspec as (_ & line & Hin & Hline).
    rewrite Forall_forall in Hall. rewrite (Hall line Hin) in Hline.
    discriminate.
  - destruct Hspec as (Hfail & Hend). exists scanner.
    split; [reflexivity |]. split; [exact Hfail |].
    intros Hshort. destruct Hend as [Hnil | Hlong]; [exact Hnil |].
    unfold Bufio.text, Bufio.NewScanner in Hlong.
    cbn [Bufio.held Bufio.r append] in Hlong. lia.
Qed.

(** X18. Before a session endpoint is known, a [Send] that is not the
    handshake of a transport not yet initialized, be it a request or a
    notification, returns ["session not established"]; it makes no HTTP
    exchange and changes nothing. *)
Theorem Send_needs_session (m : Message) (h : t N)
  (Hconn : connected h = true)
  (Hsession : sessionURL h = "")
  (Hother : String.eqb (Method m) "initialize" && negb (initialized h)
            = false) :
  Send m h = (h, Some "session not established").
Proof.
  unfold Send, sendNotification, sendSessionRequest.
  rewrite Hconn, Hother, Hsession. cbn [negb String.eqb].
  destruct (ID m); reflexivity.
Qed.

(** X19. A handshake whose event stream ends without a line that starts
    with ["data: "] fails with ["failed to get session endpoint from
    SSE"]: the stream is not kept, no session endpoint is set, nothing is
    POSTed and the transport stays not initialized. *)
Theorem handshake_without_endpoint (m : Message) (h : t N) (n1 : N)
  (resp : HTTP.Response)
  (Hconn : connected h = true)
  (Hinit : initialized h = false)
  (Hmethod : Method m = "initialize")
  (Hurl : HTTP.checkURL (N := N) (baseURL h ++ endpoint h) = None)
  (Hget : HTTP.Do (openStream h) (client h) = (n1, Ok resp))
  (Hlines : Forall (fun l => hasDataPrefix l = false)
                   (HTTP.Lines (HTTP.RespBody resp))) :
  Send m h = (withClient n1 h, Some "failed to get session endpoint from SSE") /\
  sessionURL (withClient n1 h) = sessionURL h /\
  sseConnection (withClient n1 h) = sseConnection h /\
  initialized (withClient n1 h) = false.
Proof.
  unfold Send. rewrite Hconn, Hmethod, Hinit. cbn [negb].
  replace (String.eqb "initialize" "initialize") with true by reflexivity.
  cbn [andb].
  unfold sendInitializeRequest, HTTP.NewRequest. rewrite Hurl.
  change (HTTP.SetHeader "Accept" "text/event-stream" _) with (openStream h).
  rewrite Hget.
  destruct (Seek_nothing endpointLine (HTTP.RespBody resp))
    as (scanner & -> & _).
  { apply (Forall_impl _ (P := fun l => hasDataPrefix l = false));
      [| exact Hlines].
    intros l Hl. unfold endpointLine. rewrite Hl. reflexivity. }
  cbn. rewrite Hinit. repeat split.
Qed.

(** X20. Once the transport is initialized and holds a session endpoint, a
    [Send] of a request, even one named [initialize], opens no stream: it
    POSTs the encoded message to the session endpoint. When the exchange
    succeeds the buffer holds the decoded body of this response, or
    nothing when the body is empty: a response buffered before is gone.
    The session endpoint and the kept stream are unchanged. *)
Theorem Send_to_session (m : Message) (h : t N) (data : string) (n' : N)
  (resp : HTTP.Response) (body : string) (buffered : option Message)
  (Hconn : connected h = true)
  (Hinit : initialized h = true)
  (Hid : ID m <> IDNil)
  (Hsession : sessionURL h <> "")
  (Hdata : Marshal m = Ok data)
  (Hurl : HTTP.checkURL (N := N) (sessionURL h) = None)
  (Hpost : HTTP.Do (postTo (sessionURL h) data) (client h) = (n', Ok resp))
  (Hread : HTTP.ReadAll (HTTP.RespBody resp) = Ok body)
  (Hbuf : buffers body buffered) :
  exists h',
    Send m h = (h', None) /\
    lastResponse h' = buffered /\
    client h' = n' /\
    sessionURL h' = sessionURL h /\
    sseConnection h' = sseConnection h /\
    connected h' = true /\ initialized h' = true.
Proof.
  unfold Send. rewrite Hconn, Hinit. cbn [negb]. rewrite andb_false_r.
  apply String.eqb_neq in Hsession.
  assert (Hgo : sendSessionRequest m h = sendMessageToSession m h)
    by (unfold sendSessionRequest; rewrite Hsession; reflexivity).
  destruct (ID m) eqn:Hm; [contradiction | | | | |]; rewrite Hgo;
    unfold sendMessageToSession, HTTP.NewRequest;
    rewrite Hdata, Hurl;
    change (HTTP.SetHeader "Content-Type" "application/json" _)
      with (postTo (sessionURL h) data);
    rewrite Hpost, Hread;
    (destruct buffered as [response |]; cbn [buffers] in Hbuf;
     [ destruct Hbuf as [Hne Hdec];
       destruct body as [| a body]; [contradiction |];
       cbn [String.length Nat.eqb]; rewrite Hdec
     | subst body; cbn [String.length Nat.eqb] ]);
    eexists; (split; [reflexivity |]); cbn; rewrite Hconn; repeat split.
Qed.

(** X21. A notification sent on an established session is POSTed to the
    session endpoint; the body of the response is not read and the buffer
    is left alone. It fails exactly when the exchange fails or the status
    is 400 or more, and then the error names the status. *)
Theorem Send_notification (m : Message) (h : t N) (data : string) (n' : N)
  (resp : HTTP.Response)
  (Hconn : connected h = true)
  (Hother : String.eqb (Method m) "initialize" && negb (initialized h)
            = false)
  (Hid : ID m = IDNil)
  (Hsession : sessionURL h <> "")
  (Hdata : Marshal m = Ok data)
  (Hurl : HTTP.checkURL (N := N) (sessionURL h) = None)
  (Hpost : HTTP.Do (postTo (sessionURL h) data) (client h) = (n', Ok resp)) :
  Send m h
  = (withClient n' h,
     if 400 <=? HTTP.StatusCode resp
     then Some (wrapf "notification failed with status: "
                      (Strconv.FormatInt (HTTP.StatusCode resp)))
     else None) /\
  lastResponse (withClient n' h) = lastResponse h /\
  sseConnection (withClient n' h) = sseConnection h.
Proof.
  unfold Send. rewrite Hconn, Hother, Hid. cbn [negb].
  apply String.eqb_neq in Hsession.
  unfold sendNotification, HTTP.NewRequest.
  rewrite Hsession, Hdata, Hurl.
  change (HTTP.SetHeader "Content-Type" "application/json" _)
    with (postTo (sessionURL h) data).
  rewrite Hpost.
  destruct (400 <=? HTTP.StatusCode resp); repeat split.
Qed.

(** X22. With an empty buffer, a [Receive] that finds no event in the kept
    stream, because every line of it is something else or does not
    decode, returns ["no response available"]; it has then read a stream
    of less than [MaxScanTokenSize] bytes to its end, and it changes
    nothing else. Without a kept stream it returns the same error and
    changes nothing. *)
Theorem Receive_without_event (h : t N)
  (Hconn : connected h = true)
  (Hlast : lastResponse h = None) :
  (sseConnection h = None ->
   Receive h = Transport.RecvErr "no response available" h) /\
  (forall resp,
      sseConnection h = Some resp ->
      Forall skipped (HTTP.Lines (HTTP.RespBody resp)) ->
      exists h' resp',
        Receive h = Transport.RecvErr "no response available" h' /\
        sseConnection h' = Some resp' /\
        HTTP.StatusCode resp' = HTTP.StatusCode resp /\
        HTTP.RespHeader resp' = HTTP.RespHeader resp /\
        HTTP.failure (HTTP.RespBody resp')
        = HTTP.failure (HTTP.RespBody resp) /\
        ((String.length (HTTP.content (HTTP.RespBody resp))
          < Bufio.MaxScanTokenSize)%nat ->
         HTTP.chunks (HTTP.RespBody resp') = []) /\
        baseURL h' = baseURL h /\ endpoint h' = endpoint h /\
        client h' = client h /\ sessionID h' = sessionID h /\
        sessionURL h' = sessionURL h /\ connected h' = true /\
        initialized h' = initialized h /\ lastResponse h' = None).
Proof.
  unfold Receive. rewrite Hconn, Hlast. cbn [negb]. split.
  - intros ->. reflexivity.
  - intros resp -> Hall.
    destruct (Seek_nothing eventLine (HTTP.RespBody resp))
      as (scanner & -> & Hfail & Hend).
    { apply (Forall_impl _ (P := skipped)); [| exact Hall].
      intros l Hl. apply eventLine_skipped. exact Hl. }
    eexists _, _. split; [reflexivity |]. cbn.
    rewrite Hconn, Hlast. repeat split; assumption.
Qed.

(** X30. A [Receive] cannot return an event whose line does not end
    within [MaxScanTokenSize] bytes, 64 KiB: with an empty buffer, on a
    kept stream of which the next 64 KiB hold no newline, it returns
    ["no response available"], whatever the line is and whatever follows
    it. *)
Theorem Receive_line_too_long (h : t N) (resp : HTTP.Response)
  (Hconn : connected h = true)
  (Hlast : lastResponse h = None)
  (Hstream : sseConnection h = Some resp)
  (Hlong : (Bufio.MaxScanTokenSize
            <= String.length (HTTP.content (HTTP.RespBody resp)))%nat)
  (Hline : Bufio.cutLine
             (fst (HTTP.splitAt Bufio.MaxScanTokenSize
                     (HTTP.content (HTTP.RespBody resp)))) = None) :
  exists h',
    Receive h = Transport.RecvErr "no response available" h' /\
    lastResponse h' = None /\ connected h' = true /\
    initialized h' = initialized h /\
    sessionURL h' = sessionURL h /\ client h' = client h.
Proof.
  destruct (splitAt_spec Bufio.MaxScanTokenSize
              (HTTP.content (HTTP.RespBody resp))) as [Happ Hlen].
  rewrite Nat.min_l in Hlen by exact Hlong.
  destruct (Seek_too_long eventLine (HTTP.RespBody resp) _ _
              (eq_sym Happ) Hline) as (scanner & Hseek); [lia |].
  unfold Receive. rewrite Hconn, Hlast, Hstream, Hseek. cbn [negb].
  eexists. split; [reflexivity |]. cbn. rewrite Hconn, Hlast.
  repeat split.
Qed.

(** X23. [Close] forgets the session: the endpoint, the kept stream and
    the initialized flag are reset, while a buffered response is kept.
    After a [Connect] that follows, a [Send] other than the handshake
    fails with ["session not established"], and a [Receive] hands out the
    response buffered before the [Close]. *)
Theorem Close_forgets_session (h : t N) (m : Message) :
  let closed := fst (Close h) in
  let again := fst (Connect closed) in
  Send m closed = (closed, Some "transport not connected") /\
  Receive closed = Transport.RecvErr "transport not connected" closed /\
  connected again = true /\ initialized again = false /\
  sessionURL again = "" /\ sseConnection again = None /\
  client again = client h /\ lastResponse again = lastResponse h /\
  (Method m <> "initialize" ->
   Send m again = (again, Some "session not established")) /\
  (forall response,
      lastResponse h = Some response ->
      Receive again
      = Transport.RecvMsg response (withLastResponse None again)).
Proof.
  cbn. repeat split.
  - intros Hm. apply String.eqb_neq in Hm.
    unfold Send, sendNotification, sendSessionRequest. cbn. rewrite Hm.
    destruct (ID m); reflexivity.
  - intros response Hlast. unfold Receive. cbn. rewrite Hlast. reflexivity.
Qed.
End SSEMore.

Section SSEWitnesses.
Import SSETransport Fixture Cases.

Lemma Send_needs_session_witness :
  connected sse = true /\
  Send toolsListRequest sse = (sse, Some "session not established") /\
  Send initializedNotification sse = (sse, Some "session not established").
Proof.
  assert (Hconn : connected sse = true) by reflexivity.
  assert (Hsession : sessionURL sse = "") by reflexivity.
  split; [exact Hconn |]. split.
  - apply (Send_needs_session toolsListRequest sse Hconn Hsession).
    reflexivity.
  - apply (Send_needs_session initializedNotification sse Hconn Hsession).
    reflexivity.
Defined.

Lemma handshake_without_endpoint_witness :
  exists h',
    Send handshakeRequest sseNoEndpoint
    = (h', Some "failed to get session endpoint from SSE") /\
    sessionURL h' = "" /\ sseConnection h' = None /\
    List.length (Scripted.requests (client h')) = 1%nat.
Proof.
  assert (Hconn : connected sseNoEndpoint = true) by reflexivity.
  assert (Hinit : initialized sseNoEndpoint = false) by reflexivity.
  assert (Hmethod : Method handshakeRequest = "initialize") by reflexivity.
  assert (Hurl : HTTP.checkURL (N := Scripted.t)
                   (baseURL sseNoEndpoint ++ endpoint sseNoEndpoint) = None)
    by reflexivity.
  edestruct (handshake_without_endpoint handshakeRequest sseNoEndpoint)
    as (Hsend & Hsession & Hstream & _);
    [exact Hconn | exact Hinit | exact Hmethod | exact Hurl | reflexivity
    | repeat constructor |].
  eexists. split; [exact Hsend |].
  split; [exact Hsession |]. split; [exact Hstream | reflexivity].
Defined.

Lemma Send_to_session_witness :
  lastResponse sseSession = Some (response float64_one (VInit server)) /\
  exists h',
    Send toolsListRequest sseSession = (h', None) /\
    lastResponse h' = Some (response float64_two (VText "two")) /\
    List.map HTTP.URL (Scripted.requests (client h'))
    = ["http://localhost:8811/messages?session=abc"].
Proof.
  split; [reflexivity |].
  edestruct (Send_to_session toolsListRequest sseSession "tools/list")
    with (body := "text#2")
         (buffered := Some (response float64_two (VText "two")))
    as (h' & Hsend & Hlast & Hclient & _);
    [reflexivity | reflexivity | discriminate | discriminate | reflexivity
    | reflexivity | reflexivity | reflexivity
    | split; [discriminate | reflexivity] |].
  exists h'. split; [exact Hsend |]. split; [exact Hlast |].
  rewrite Hclient. reflexivity.
Defined.

Lemma Send_notification_witness :
  let h := fst (Send toolsListRequest sseSession) in
  exists h',
    Send initializedNotification h
    = (h', Some "notification failed with status: 404") /\
    lastResponse h' = lastResponse h.
Proof.
  intros h.
  edestruct (Send_notification initializedNotification h
               "notifications/initialized")
    as (Hsend & Hlast & _);
    [reflexivity | reflexivity | reflexivity | discriminate | reflexivity
    | reflexivity | reflexivity |].
  eexists. split; [exact Hsend | exact Hlast].
Defined.

Lemma Receive_without_event_witness :
  let h := withLastResponse None sseSession in
  exists h' resp',
    Receive h = Transport.RecvErr "no response available" h' /\
    sseConnection h' = Some resp' /\
    HTTP.RespBody resp' = {| HTTP.chunks := []; HTTP.failure := None |}.
Proof.
  intros h.
  assert (Hconn : connected h = true) by reflexivity.
  assert (Hlast : lastResponse h = None) by reflexivity.
  destruct (Receive_without_event h Hconn Hlast) as [_ Hread].
  edestruct Hread as (h' & resp' & Hrecv & Hstream & _ & _ & Hfail & Hend & _).
  - reflexivity.
  - constructor; [left; reflexivity |].
    constructor; [right; eexists; reflexivity |].
    constructor; [left; reflexivity | constructor].
  - exists h', resp'. split; [exact Hrecv |]. split; [exact Hstream |].
    destruct resp' as [code header [pieces failure]]. cbn in *.
    rewrite Hfail, Hend; [reflexivity |].
    apply Nat.ltb_lt. vm_compute. reflexivity.
Defined.

Lemma Receive_line_too_long_witness :
  hasDataPrefix ("data: " ++ padding) = true /\
  exists h',
    Receive sseLongLine = Transport.RecvErr "no response available" h' /\
    lastResponse h' = None.
Proof.
  split; [reflexivity |].
  edestruct (Receive_line_too_long sseLongLine) as (h' & Hrecv & Hlast & _).
  - reflexivity.
  - reflexivity.
  - reflexivity.
  - apply Nat.leb_le. vm_compute. reflexivity.
  - vm_compute. reflexivity.
  - exists h'. split; [exact Hrecv | exact Hlast].
Defined.

Lemma Close_forgets_session_witness :
  let again := fst (Connect (fst (Close sseSession))) in
  sessionURL sseSession = "http://localhost:8811/messages?session=abc" /\
  Send toolsListRequest again = (again, Some "session not established") /\
  Receive again
  = Transport.RecvMsg (response float64_one (VInit server))
      (withLastResponse None again).
Proof.
  intros again.
  destruct (Close_forgets_session sseSession toolsListRequest)
    as (_ & _ & _ & _ & _ & _ & _ & _ & Hsend & Hstale).
  split; [reflexivity |].
  split; [apply Hsend; discriminate | apply Hstale; reflexivity].
Defined.
End SSEWitnesses.

(** * The service wrapper *)

Section ServiceFacts.
Context {mcp : Mcp} {codec : Codec} {platform : Platform}.
Context {T : Type} {tr : Transport.Interface T}.
Variable ErrNotConnected : error.
Variable Second : nat.
Variable NewTCPTransport : string -> Z -> T.

Import MCPService.

Local Abbreviation Connect := (MCPService.Connect ErrNotConnected Second NewTCPTransport).
Local Abbreviation HealthCheck := (MCPService.HealthCheck Second).
Local Abbreviation call := (MCPService.call ErrNotConnected Second NewTCPTransport).
Local Abbreviation calls := (MCPService.calls ErrNotConnected Second NewTCPTransport).

Lemma Initialize_ok_flags (ctx : Client.Ctx) (info : ClientInfo)
  (c c' : Client.Client T) :
  Client.Initialize ErrNotConnected ctx info c = Client.Returns (Ok tt) c' ->
  Client.connected c' = true /\ Client.initialized c' = true.
Proof.
  unfold Client.Initialize, Client.IsConnected.
  destruct (Client.connected c) eqn:Hconn; cbn [negb]; [| discriminate].
  destruct (Client.sendRequest ctx "initialize" _ c)
    as [[response | err] c1 |] eqn:Hreq; [| discriminate | discriminate].
  destruct (sendRequest_ok _ _ _ _ _ _ Hreq) as (Hc & _).
  destruct (Error response); [discriminate |].
  destruct (Client.parseResult decodeInitialize (Result response));
    [| discriminate].
  cbn [Client.transport].
  destruct (Transport.Send _ (Client.transport c1)) as [t' [err |]];
    [discriminate |].
  intros [= <-]. cbn. split; [congruence | reflexivity].
Qed.

(** X24. What [MCPService.Connect] leaves behind. It makes a new client
    on a new TCP transport to the host and port it was given, with the
    names and the connect timeout of the configuration, connects it and
    initializes it. In every case the service holds that client, in the
    state in which the last of these calls left it, and the host and port
    given; the rest of the configuration is unchanged. When it returns no
    error the service is marked connected and its client is connected and
    initialized. When it returns an error the connected mark is whatever
    it was before the call, and the error is the client's, behind
    ["connection failed: "] or ["initialization failed: "]. It does not
    return exactly when the initialization of the client does not. *)
Theorem Connect_outcomes (host : string) (port : Z) (s : t T) :
  let made :=
    Client.NewClient Second (NewTCPTransport host port)
      {| Client.ConfigName := ClientName (config s);
         Client.ConfigVersion := ClientVersion (config s);
         Client.Timeout := ConnectTimeout (config s) |} in
  let info := mkClientInfo (ClientName (config s)) (ClientVersion (config s)) in
  let initialize :=
    Client.Initialize ErrNotConnected (ConnectTimeout (config s)) info in
  let cfg :=
    {| Host := host; Port := port; ClientName := ClientName (config s);
       ClientVersion := ClientVersion (config s);
       ConnectTimeout := ConnectTimeout (config s);
       OperateTimeout := OperateTimeout (config s) |} in
  match Connect host port s with
  | Returns None s' =>
      connected s' = true /\ config s' = cfg /\
      exists c1 init c2,
        Client.Connect made = (Ok tt, c1) /\
        initialize c1 = Client.Returns (Ok init) c2 /\
        client s' = Some c2 /\
        Client.connected c2 = true /\ Client.initialized c2 = true
  | Returns (Some e) s' =>
      connected s' = connected s /\ config s' = cfg /\
      ((exists err c1,
          Client.Connect made = (Err (wrapf "failed to connect: " err), c1) /\
          e = wrapf "connection failed: " (wrapf "failed to connect: " err) /\
          client s' = Some c1 /\
          Client.connected c1 = false /\ Client.initialized c1 = false) \/
       (exists c1 err c2,
          Client.Connect made = (Ok tt, c1) /\
          initialize c1 = Client.Returns (Err err) c2 /\
          e = wrapf "initialization failed: " err /\
          client s' = Some c2))
  | Hangs =>
      exists c1,
        Client.Connect made = (Ok tt, c1) /\ initialize c1 = Client.Hangs
  | Panics => False
  end.
Proof.
  intros made info initialize cfg.
  unfold MCPService.Connect. fold cfg.
  change (Client.NewClient Second (NewTCPTransport host port) _) with made.
  change (Client.Initialize ErrNotConnected (ConnectTimeout cfg)
            (mkClientInfo (ClientName cfg) (ClientVersion cfg)))
    with initialize.
  destruct (Client.Connect made) as [[[] | err] c1] eqn:Hconnect.
  - destruct (initialize c1) as [[[] | err] c2 |] eqn:Hinit.
    + destruct (Initialize_ok_flags _ _ _ _ Hinit) as [Hc Hi].
      cbn. split; [reflexivity |]. split; [reflexivity |].
      exists c1, tt, c2. repeat split; assumption.
    + cbn. split; [reflexivity |]. split; [reflexivity |].
      right. exists c1, err, c2. repeat split; assumption.
    + exists c1. split; [reflexivity | exact Hinit].
  - cbn. split; [reflexivity |]. split; [reflexivity |]. left.
    revert Hconnect. unfold Client.Connect, made. cbn.
    destruct (Transport.Connect (NewTCPTransport host port)) as [t' [e |]];
      [| discriminate].
    intros [= <- <-]. exists e. eexists. repeat split.
Qed.

(** X25. A reconnect that fails to connect leaves a service that was
    connected still marked connected, holding the new client: the wrapper
    then lets operations through, [IsConnected] and [GetServerInfo]
    answer as if connected, and [ListTools] fails in the client with
    ["client not initialized"]. *)
Theorem failed_reconnect_leaves_service_marked_connected
  (host : string) (port : Z) (s : t T) (t' : T) (err : error)
  (Hconn : connected s = true)
  (Hdial : Transport.Connect (NewTCPTransport host port) = (t', Some err)) :
  exists s',
    Connect host port s
    = Returns (Some (wrapf "connection failed: "
                           (wrapf "failed to connect: " err))) s' /\
    connected s' = true /\ IsConnected s' = true /\
    GetServerInfo s' = Ok ("connected-server", "unknown-version") /\
    ListTools s' = Returns (Err "client not initialized") s'.
Proof.
  unfold MCPService.Connect, Client.Connect. cbn. rewrite Hdial.
  eexists. split; [reflexivity |].
  unfold IsConnected, GetServerInfo, ListTools. cbn. rewrite Hconn.
  repeat split.
Qed.

(** X26. After [Disconnect] on a service that holds a client, the client
    is disconnected and the service refuses [ListTools], [ExecuteTool],
    [HealthCheck] and [GetServerInfo] with ["service not connected"]
    without going to the client; [Disconnect] on a service without a
    client does nothing. *)
Theorem Disconnect_then_refused (s : t T) (name : string) (args : Arguments) :
  let s' := snd (Disconnect s) in
  (client s = None -> Disconnect s = (None, s)) /\
  (forall c,
      client s = Some c ->
      fst (Disconnect s) = fst (Client.Disconnect c) /\
      client s' = Some (snd (Client.Disconnect c)) /\
      connected s' = false /\ IsConnected s' = false /\
      ListTools s' = Returns (Err "service not connected") s' /\
      ExecuteTool name args s' = Returns (Err "service not connected") s' /\
      HealthCheck s' = Returns (Some "service not connected") s' /\
      GetServerInfo s' = Err "service not connected").
Proof.
  unfold Disconnect. split.
  - intros ->. reflexivity.
  - intros c ->. destruct (Client.Disconnect c) as [err c'].
    cbn. repeat split.
Qed.

Lemma Connect_holds_client (host : string) (port : Z) (s : t T) :
  match Connect host port s with
  | Returns _ s' => client s' <> None
  | Hangs => True
  | Panics => False
  end.
Proof.
  unfold MCPService.Connect.
  destruct (Client.Connect _) as [[[] | err] c1].
  - destruct (Client.Initialize ErrNotConnected _ _ c1) as [[[] | err] c2 |];
      cbn; [discriminate | discriminate | exact I].
  - cbn. discriminate.
Qed.

Lemma call_keeps_client (k : Call) (s : t T) :
  holdsClient s ->
  match call k s with
  | Ended s' => holdsClient s'
  | Hung => True
  | Panicked => False
  end.
Proof.
  unfold holdsClient. intros Hs.
  destruct k as [host port | | | name args |]; cbn [MCPService.call].
  - pose proof (Connect_holds_client host port s) as H.
    destruct (Connect host port s) as [e s' | |]; cbn [after].
    + intros _. exact H.
    + exact I.
    + exact H.
  - unfold Disconnect.
    destruct (client s) as [c |] eqn:Hc.
    + destruct (Client.Disconnect c) as [err c']. cbn. discriminate.
    + cbn. intros Hco. rewrite Hc. exact (Hs Hco).
  - unfold ListTools.
    destruct (connected s) eqn:Hconn; cbn [negb after];
      [| intros Hco; congruence].
    destruct (client s) as [c |] eqn:Hc; [| exact (Hs eq_refl eq_refl)].
    destruct (Client.ListTools _ c) as [r c' |]; cbn; [discriminate | exact I].
  - unfold ExecuteTool.
    destruct (connected s) eqn:Hconn; cbn [negb after];
      [| intros Hco; congruence].
    destruct (client s) as [c |] eqn:Hc; [| exact (Hs eq_refl eq_refl)].
    destruct (Client.CallTool _ name args c) as [r c' |]; cbn;
      [discriminate | exact I].
  - unfold MCPService.HealthCheck.
    destruct (connected s) eqn:Hconn; cbn [negb after];
      [| intros Hco; congruence].
    destruct (client s) as [c |] eqn:Hc; [| exact (Hs eq_refl eq_refl)].
    destruct (Client.ListTools _ c) as [r c' |]; cbn; [discriminate | exact I].
Qed.

Lemma calls_keep_client (ks : list Call) :
  forall s : t T,
    holdsClient s ->
    match calls ks s with
    | Ended s' => holdsClient s'
    | Hung => True
    | Panicked => False
    end.
Proof.
  induction ks as [| k ks IH]; intros s Hs; cbn [MCPService.calls].
  - exact Hs.
  - pose proof (call_keeps_client k s Hs) as Hk.
    destruct (call k s) as [s' | |]; [apply IH; exact Hk | exact I | exact Hk].
Qed.

(** X27. No sequence of calls on a service made by [NewMCPService] or
    [NewMCPServiceWithConfig] dereferences a nil client: whenever the
    service is marked connected it holds a client, after every call that
    returns. *)
Theorem service_never_dereferences_nil (config : ServiceConfig)
  (ks : list Call) :
  calls ks (NewMCPService Second) <> Panicked /\
  calls ks (NewMCPServiceWithConfig config) <> Panicked /\
  (forall s', calls ks (NewMCPServiceWithConfig config) = Ended s' ->
              holdsClient s').
Proof.
  assert (H1 : holdsClient (NewMCPService (T := T) Second))
    by (unfold holdsClient; cbn; discriminate).
  assert (H2 : holdsClient (NewMCPServiceWithConfig (T := T) config))
    by (unfold holdsClient; cbn; discriminate).
  pose proof (calls_keep_client ks _ H1) as Hk1.
  pose proof (calls_keep_client ks _ H2) as Hk2.
  split; [| split].
  - intros Heq. rewrite Heq in Hk1. exact Hk1.
  - intros Heq. rewrite Heq in Hk2. exact Hk2.
  - intros s' Heq. rewrite Heq in Hk2. exact Hk2.
Qed.
End ServiceFacts.

Section ServiceWitnesses.
Import MCPService Fixture ServiceCases.

Lemma failed_reconnect_leaves_service_marked_connected_witness :
  connected connectedService = true /\
  exists s',
    MCPService.Connect ErrNotConnected 1%nat dial "10.0.0.7" 8811
                       connectedService
    = Returns (Some ("connection failed: failed to connect: "
                     ++ "dial tcp: connection refused")) s' /\
    IsConnected s' = true /\
    ListTools s' = Returns (Err "client not initialized") s'.
Proof.
  assert (Hconn : connected connectedService = true) by reflexivity.
  split; [exact Hconn |].
  edestruct (failed_reconnect_leaves_service_marked_connected
               ErrNotConnected 1%nat dial "10.0.0.7" 8811 connectedService)
    as (s' & Hret & _ & Hsays & _ & Hlist);
    [exact Hconn | reflexivity |].
  exists s'. split; [exact Hret |]. split; [exact Hsays | exact Hlist].
Defined.

Lemma Disconnect_then_refused_witness :
  let s' := snd (Disconnect connectedService) in
  (exists tools c,
      ListTools connectedService = Returns (Ok tools) c /\
      tools = ["power"; "modulo"]) /\
  ListTools s' = Returns (Err "service not connected") s' /\
  Disconnect service = (None, service).
Proof.
  intros s'.
  destruct (Disconnect_then_refused (mcp := Fixture.mcp) 1%nat
              connectedService "add" []) as [_ Hsome].
  destruct (Disconnect_then_refused (mcp := Fixture.mcp) 1%nat
              service "add" []) as [Hnone _].
  split; [eexists; eexists; split; [vm_compute; reflexivity | reflexivity] |].
  split.
  - edestruct Hsome as (_ & _ & _ & _ & Hlist & _); [reflexivity |].
    exact Hlist.
  - apply Hnone. reflexivity.
Defined.
End ServiceWitnesses.

Lemma service_never_dereferences_nil_witness :
  exists s',
    MCPService.calls Fixture.ErrNotConnected 1%nat ServiceCases.dial
      [MCPService.DoListTools; MCPService.DoConnect "localhost" 8811;
       MCPService.DoListTools; MCPService.DoConnect "10.0.0.7" 8811;
       MCPService.DoHealthCheck; MCPService.DoDisconnect]
      (MCPService.NewMCPServiceWithConfig
         (MCPService.config ServiceCases.service))
    = MCPService.Ended s' /\
    MCPService.holdsClient s'.
Proof.
  eexists. split; [vm_compute; reflexivity |].
  destruct (service_never_dereferences_nil (mcp := Fixture.mcp)
              Fixture.ErrNotConnected 1%nat ServiceCases.dial
              (MCPService.config ServiceCases.service)
              [MCPService.DoListTools; MCPService.DoConnect "localhost" 8811;
               MCPService.DoListTools; MCPService.DoConnect "10.0.0.7" 8811;
               MCPService.DoHealthCheck; MCPService.DoDisconnect])
    as (_ & _ & Hkeeps).
  apply Hkeeps. vm_compute. reflexivity.
Defined.

(** * The engine over the streaming HTTP transport *)

Section EngineOverStreaming.
Context {mcp : Mcp} {platform : Platform} {wire : Wire}.
Context {N : Type} {http : HTTP.Client N}.

Import Client.

(** X28. Over the streaming HTTP transport a wait that is allowed two
    polls never blocks and never times out. It returns the buffered
    response when that carries the awaited id. Otherwise, when the buffer
    is empty, holds a response with another id, or the transport is not
    connected, it returns the error of [Receive] and the client is marked
    not connected and not initialized; a response with another id has
    been dropped from the buffer. *)
Theorem awaitResponse_over_streaming (ctx : Ctx) (id : Z)
  (c : Client (StreamingHTTPTransport.t N)) :
  let h := transport c in
  let emptied := withTransport (StreamingHTTPTransport.withLastResponse None h) c in
  awaitResponse (S (S ctx)) id c
  = if negb (StreamingHTTPTransport.connected h)
    then Returns (Err "failed to receive response: transport not connected")
                 (markDisconnected c)
    else
      match StreamingHTTPTransport.lastResponse h with
      | Some response =>
          if isMatchingID (ID response) id
          then Returns (Ok response) emptied
          else Returns
                 (Err "failed to receive response: no response available")
                 (markDisconnected emptied)
      | None =>
          Returns (Err "failed to receive response: no response available")
                  (markDisconnected c)
      end.
Proof.
  destruct c as [h si sc co ini rid to]. cbn [transport].
  cbn [awaitResponse]. unfold receiveTurn at 1.
  cbn [transport Transport.Receive StreamingHTTPTransport.transport].
  unfold StreamingHTTPTransport.Receive at 1.
  destruct (StreamingHTTPTransport.connected h) eqn:Hconn; cbn [negb];
    [| reflexivity].
  destruct (StreamingHTTPTransport.lastResponse h) as [response |] eqn:Hlast;
    [| reflexivity].
  destruct (isMatchingID (ID response) id); [reflexivity |].
  unfold receiveTurn, handleMessage.
  cbn [transport withTransport Transport.Receive
       StreamingHTTPTransport.transport].
  unfold StreamingHTTPTransport.Receive. cbn. rewrite Hconn. reflexivity.
Qed.
End EngineOverStreaming.

(** * What each operation sends *)

Section OperationsOnTheWire.
Context {mcp : Mcp} {codec : Codec} {platform : Platform}.
Context {T : Type} {tr : Transport.Interface T}.

Import Client.

Local Abbreviation sentOn c := (Traced.sent (Traced.calls (transport c))).

Lemma exchange_sends_once (A B : Type) (ctx : Ctx) (method : string)
  (params : option Payload) (p1 p2 p3 : string)
  (decode : Value -> result A) (project : A -> B)
  (c : Client (Traced.t T)) r c' :
  Transport.IsConnected (transport c) = true ->
  exchange ctx method params p1 p2 p3 decode project c = Returns r c' ->
  sentOn c'
  = (sentOn c ++ [NewRequest (wrap64 (requestID c + 1)) method params])%list.
Proof.
  intros Hlive. unfold exchange.
  destruct (sendRequest ctx method params c) as [[response | err] c1 |]
    eqn:Hreq; [| | discriminate];
    apply (sendRequest_sends_once _ _ _ _ _ _ Hlive) in Hreq.
  - destruct (Error response);
      [| destruct (parseResult decode (Result response))];
      intros [= _ <-]; exact Hreq.
  - intros [= _ <-]; exact Hreq.
Qed.

(** X29. On an initialized session over a connected transport, each
    operation that returns has sent exactly one message: a request with
    the next request id, the method of the operation and its parameters
    ([tools/call] with the name and arguments, [resources/list],
    [resources/read] with the URI, [prompts/list], [prompts/get] with the
    name and arguments). *)
Theorem operations_send_one_request (ctx : Ctx) (name uri : string)
  (args : Arguments) (c : Client (Traced.t T))
  (Hinit : initialized c = true)
  (Hlive : Transport.IsConnected (transport c) = true) :
  let id := wrap64 (requestID c + 1) in
  let sends (c' : Client (Traced.t T)) method request :=
    sentOn c'
    = (sentOn c ++ [NewRequest id method (Some (Struct request))])%list in
  (forall r c', CallTool ctx name args c = Returns r c' ->
                sends c' "tools/call" (CallToolRequest name args)) /\
  (forall r c', ListResources ctx c = Returns r c' ->
                sends c' "resources/list" ListResourcesRequest) /\
  (forall r c', ReadResource ctx uri c = Returns r c' ->
                sends c' "resources/read" (ReadResourceRequest uri)) /\
  (forall r c', ListPrompts ctx c = Returns r c' ->
                sends c' "prompts/list" ListPromptsRequest) /\
  (forall r c', GetPrompt ctx name args c = Returns r c' ->
                sends c' "prompts/get" (GetPromptRequest name args)).
Proof.
  intros id sends. unfold sends, id.
  unfold CallTool, ListResources, ReadResource, ListPrompts, GetPrompt,
    IsInitialized, CheckConnection.
  rewrite Hinit, Hlive. cbn [negb].
  repeat split; intros r c' Hret;
    exact (exchange_sends_once _ _ _ _ _ _ _ _ _ _ _ _ _ Hlive Hret).
Qed.
End OperationsOnTheWire.

Lemma operations_send_one_request_witness :
  let c := Cases.listing in
  exists c',
    Client.ReadResource 30%nat "file:///notes.txt" c
    = Client.Returns
        (Err ("failed to parse read resource response: "
              ++ "json: cannot unmarshal value into target")) c' /\
    Traced.sent (Traced.calls (Client.transport c'))
    = (Traced.sent (Traced.calls (Client.transport c))
       ++ [NewRequest 2 "resources/read"
             (Some (Struct (ReadResourceRequest "file:///notes.txt")))])%list.
Proof.
  intros c.
  assert (Hinit : Client.initialized c = true) by reflexivity.
  assert (Hlive : Transport.IsConnected (Client.transport c) = true)
    by reflexivity.
  destruct (operations_send_one_request (mcp := Fixture.mcp) 30%nat "add"
              "file:///notes.txt" [] c Hinit Hlive)
    as (_ & _ & Hread & _).
  eexists. split; [vm_compute; reflexivity |].
  eapply Hread. vm_compute. reflexivity.
Defined.
